(** * ccl_vhdx: a shallow embedding of the VHDX reader and its properties

    The development follows [ccl_vhdx.py]: the byte reader, the GUID codec,
    the parsers of the structural regions (file identifier, headers, region
    tables, metadata table, BAT entries), the constructor of [VhdxFile] and
    its sector-reading methods.

    Conventions.
    - A Python [int] is a [Z]; [//] and [%] are [Z.div] and [Z.modulo]
      (both floor towards minus infinity, as Python does), with the
      division by zero raised explicitly.
    - A [bytes] object is a [list byte].
    - A binary stream is its content and a position; a function that may
      raise returns a [result].
    - The calls to the logger [_l] are recorded as a list of messages that
      the parsers of [VhdxFile.__init__] thread along with the stream. *)

From Stdlib Require Import String Ascii Strings.Byte.
From Stdlib Require Import ZArith List Lia Bool.
Import ListNotations.

#[local] Open Scope string_scope.
#[local] Open Scope Z_scope.

(** ** Exceptions *)

Inductive HeaderFault : Type :=
| InvalidHeaderSectionMagic
| InvalidHeaderMagic
| InvalidHeaderVersion
| InvalidRegionTableMagic
| RegionCountOver2047
| MultipleRegionEntries
| NoMetadataBlock.

Inductive ValueFault : Type :=
| ShortRead                    (* read_raw: fewer bytes than asked for *)
| InvalidGuidLength
| NonHexadecimal               (* bytes.fromhex *)
| RegionTablesDoNotMatch
| DuplicateMetadataKeys
| InferredSizeTooLarge
| SectorOutOfRange             (* "Sector number out of range" *)
| InvalidSectorBitmapState
| ShortSector                  (* "Couldn't get full sector from block" *)
| InvalidBatState (state : Z)  (* BatPayloadBlockState(state) *)
| SeekTooLarge.                (* seek target does not fit an offset *)

Inductive exn : Type :=
| VhdxHeaderError (k : HeaderFault)
| VhdxMetadataError
| ValueError (k : ValueFault)
| KeyError
| TypeError
| ZeroDivisionError
| UnicodeDecodeError
| IndexError
| OSError.

Inductive result (A : Type) : Type :=
| Ok (a : A)
| Raise (e : exn).
Arguments Ok {A} a.
Arguments Raise {A} e.

Definition rbind {A B} (r : result A) (k : A -> result B) : result B :=
  match r with
  | Ok a => k a
  | Raise e => Raise e
  end.

Declare Scope res_scope.
Delimit Scope res_scope with res.
Notation "'let?' x ':=' r 'in' k" := (rbind r (fun x => k))
  (at level 10, x pattern, r at level 100, k at level 200) : res_scope.
#[local] Open Scope res_scope.

(** Python's [a // b] and [a % b]. *)
Definition py_floordiv (a b : Z) : result Z :=
  if b =? 0 then Raise ZeroDivisionError else Ok (a / b).

Definition py_mod (a b : Z) : result Z :=
  if b =? 0 then Raise ZeroDivisionError else Ok (a mod b).

(** ** Bytes *)

Abbreviation bytes := (list byte).

Definition byte_val (b : byte) : Z := Z.of_N (Byte.to_N b).

Definition blen (b : bytes) : Z := Z.of_nat (length b).

(** [b[i:j]] for any two integers, with Python's treatment of negative
    and out-of-range bounds. *)
Definition clamp_index (n i : Z) : Z :=
  let i' := if i <? 0 then i + n else i in
  if i' <? 0 then 0 else if n <? i' then n else i'.

Definition py_slice {A} (b : list A) (i j : Z) : list A :=
  let n := Z.of_nat (length b) in
  let lo := clamp_index n i in
  let hi := clamp_index n j in
  firstn (Z.to_nat (hi - lo)) (skipn (Z.to_nat lo) b).

(** [b"\x00" * n] *)
Definition zeros (n : Z) : bytes := repeat x00 (Z.to_nat n).

(** Little-endian decoding, as [struct.unpack("<H" | "<I" | "<Q")] does on
    a buffer of the right length. *)
Fixpoint le_decode (b : bytes) : Z :=
  match b with
  | [] => 0
  | x :: rest => byte_val x + 256 * le_decode rest
  end.

(** ** Streams and the parsing monad *)

Record stream : Type := Stream { s_data : bytes; s_pos : Z }.

(** The state of a parser: the stream it reads from and the log written
    so far (latest message first). *)
Record pstate : Type := PState { st_stream : stream; st_log : list string }.

Definition parser (A : Type) : Type := pstate -> result (A * pstate).

Definition pret {A} (a : A) : parser A := fun st => Ok (a, st).

Definition pbind {A B} (m : parser A) (k : A -> parser B) : parser B :=
  fun st =>
    match m st with
    | Ok (a, st') => k a st'
    | Raise e => Raise e
    end.

Definition praise {A} (e : exn) : parser A := fun _ => Raise e.

Definition plift {A} (r : result A) : parser A :=
  fun st => match r with Ok a => Ok (a, st) | Raise e => Raise e end.

Declare Scope parser_scope.
Delimit Scope parser_scope with parser.
Notation "x <- m ;; k" := (pbind m (fun x => k))
  (at level 100, m at next level, right associativity) : parser_scope.
Notation "m ;;; k" := (pbind m (fun _ => k))
  (at level 100, right associativity) : parser_scope.
#[local] Open Scope parser_scope.

(** [_l(msg)] *)
Definition log (msg : string) : parser unit :=
  fun st => Ok (tt, PState (st_stream st) (msg :: st_log st)).

(** [f.read(count)]: the bytes from the position on, at most [count] of
    them (all of them when [count] is negative); the position moves past
    what was read. *)
Definition stream_read (count : Z) (s : stream) : bytes * stream :=
  let rest := skipn (Z.to_nat (s_pos s)) (s_data s) in
  let raw := if count <? 0 then rest else firstn (Z.to_nat count) rest in
  (raw, Stream (s_data s) (s_pos s + blen raw)).

Definition f_read (count : Z) : parser bytes :=
  fun st =>
    let '(raw, s') := stream_read count (st_stream st) in
    Ok (raw, PState s' (st_log st)).

Definition f_tell : parser Z := fun st => Ok (s_pos (st_stream st), st).

(** [f.seek(target)] on a file opened for reading: [OSError] for a
    negative target, [ValueError] for one that does not fit an offset.
    Between the end of the file and that bound the model accepts every
    target; a file system may refuse some of them. *)
Definition stream_seek (target : Z) (s : stream) : result stream :=
  if target <? 0 then Raise OSError
  else if 2 ^ 63 <=? target then Raise (ValueError SeekTooLarge)
  else Ok (Stream (s_data s) target).

Definition f_seek (target : Z) : parser unit :=
  fun st =>
    match stream_seek target (st_stream st) with
    | Ok s' => Ok (tt, PState s' (st_log st))
    | Raise e => Raise e
    end.

(** [f.seek(delta, os.SEEK_CUR)] *)
Definition f_seek_cur (delta : Z) : parser unit :=
  fun st => f_seek (s_pos (st_stream st) + delta) st.

(** [f = io.BytesIO(raw)] followed by a block that reads only from [f]:
    the block runs on a fresh stream over [raw], and the enclosing stream
    is left where it was. *)
Definition with_bytes {A} (raw : bytes) (m : parser A) : parser A :=
  fun st =>
    match m (PState (Stream raw 0) (st_log st)) with
    | Ok (a, st') => Ok (a, PState (st_stream st) (st_log st'))
    | Raise e => Raise e
    end.

(** The state of a parser on a file just opened. *)
Definition initial (file : bytes) : pstate := PState (Stream file 0) [].

(** The outcome of a block [with path.open("rb") as f: ...]. *)
Definition run {A} (file : bytes) (p : parser A) : result A :=
  match p (initial file) with
  | Ok (a, _) => Ok a
  | Raise e => Raise e
  end.

(** ** Byte reader *)

Definition read_raw (count : Z) : parser bytes :=
  raw <- f_read count ;;
  if blen raw <? count then praise (ValueError ShortRead) else pret raw.

Definition read_uint16 : parser Z := raw <- read_raw 2 ;; pret (le_decode raw).
Definition read_uint32 : parser Z := raw <- read_raw 4 ;; pret (le_decode raw).
Definition read_uint64 : parser Z := raw <- read_raw 8 ;; pret (le_decode raw).
Definition read_guid : parser bytes := read_raw 16.

(** ** Constants *)

Definition ascii_bytes (s : string) : bytes := list_byte_of_string s.

Definition VHDX_MAGIC : bytes := ascii_bytes "vhdxfile".
Definition CREATOR_LENGTH : Z := 512.
Definition HEAD_MAGIC : bytes := ascii_bytes "head".
Definition REGION_TABLE_MAGIC : bytes := ascii_bytes "regi".
Definition REGION_GUID_BAT : string := "2DC27766-F623-4200-9D64-115E9BFD4A08".
Definition REGION_GUID_METADATA : string := "8B7CA206-4790-4B9A-B8FE-575F050F886E".
Definition METADATA_TABLE_MAGIC : bytes := ascii_bytes "metadata".
Definition METADATA_FILE_PARAMETERS : string := "CAA16737-FA36-4D43-B3B6-33F0AA44E76B".
Definition METADATA_VIRTUAL_DISK_SIZE : string := "2FA54224-CD1B-4876-B211-5DBED83BF4B8".
Definition METADATA_PAGE_83_DATA : string := "BECA12AB-B2E6-4523-93EF-C309E000C746".
Definition METADATA_LOGICAL_SECTOR_SIZE : string := "8141BF1D-A96F-4709-BA47-F233A8FAAB5F".
Definition METADATA_PHYSICAL_SECTOR_SIZE : string := "CDA348C7-445D-4471-9CC9-E9885251C556".
Definition METADATA_PARENT_LOCATOR : string := "A8D35F2D-B30B-454D-ABF7-D3D84834AB0C".
Definition PARENT_LOCATOR_TYPE_VHDX : string := "B04AEFB7-D19E-4A81-B789-25B8E9445913".
Definition BAT_SB_BLOCK_NOT_PRESENT : Z := 0.
Definition BAT_SB_BLOCK_PRESENT : Z := 6.
Definition MAX_INFERRED_SIZE : Z := 0x8000000000.

(** [a == b] on [bytes]. *)
Fixpoint bytes_eqb (a b : bytes) : bool :=
  match a, b with
  | [], [] => true
  | x :: a', y :: b' => Byte.eqb x y && bytes_eqb a' b'
  | _, _ => false
  end.

(** ** GUID codec *)

Definition hex_digit (c : ascii) : option Z :=
  let n := Z.of_nat (nat_of_ascii c) in
  if (48 <=? n) && (n <=? 57) then Some (n - 48)
  else if (97 <=? n) && (n <=? 102) then Some (n - 87)
  else if (65 <=? n) && (n <=? 70) then Some (n - 55)
  else None.

Definition byte_of_Z (z : Z) : byte :=
  match Byte.of_N (Z.to_N z) with Some b => b | None => x00 end.

(** [guid_string.replace("-", "")] *)
Fixpoint remove_dashes (s : string) : string :=
  match s with
  | EmptyString => EmptyString
  | String c rest =>
      if Ascii.eqb c "-"%char then remove_dashes rest
      else String c (remove_dashes rest)
  end.

(** The white space of [bytes.fromhex]: tab, line feed, vertical tab,
    form feed, carriage return and space. *)
Definition is_space (c : ascii) : bool :=
  let n := Z.of_nat (nat_of_ascii c) in
  ((9 <=? n) && (n <=? 13)) || (n =? 32).

(** [bytes.fromhex]: two hexadecimal digits for a byte, white space
    skipped in front of a byte and at the end, not between the two digits
    of one. *)
Fixpoint fromhex (s : string) : result bytes :=
  match s with
  | EmptyString => Ok []
  | String c1 rest =>
      if is_space c1 then fromhex rest
      else
        match rest with
        | String c2 rest' =>
            match hex_digit c1, hex_digit c2 with
            | Some h, Some l =>
                let? tl := fromhex rest' in Ok (byte_of_Z (16 * h + l) :: tl)
            | _, _ => Raise (ValueError NonHexadecimal)
            end
        | EmptyString => Raise (ValueError NonHexadecimal)
        end
  end.

Definition guid_to_blob (guid_string : string) : result bytes :=
  let? x := fromhex (remove_dashes guid_string) in
  if negb (blen x =? 16) then Raise (ValueError InvalidGuidLength)
  else Ok (rev (firstn 4 x) ++ rev (firstn 2 (skipn 4 x))
             ++ rev (firstn 2 (skipn 6 x)) ++ skipn 8 x)%list.

(** ** FileIdentifier *)

Record FileIdentifier : Type := { fi_creator : bytes }.

Definition FileIdentifier_from_stream (ignore_faults : bool) : parser FileIdentifier :=
  log "Reading file header section" ;;;
  magic <- read_raw (blen VHDX_MAGIC) ;;
  if negb (bytes_eqb magic VHDX_MAGIC) && negb ignore_faults
  then praise (VhdxHeaderError InvalidHeaderSectionMagic)
  else
    creator <- read_raw CREATOR_LENGTH ;;
    f_seek_cur (1024 * 64 - CREATOR_LENGTH - blen VHDX_MAGIC) ;;;
    pret {| fi_creator := creator |}.

(** ** Header *)

Record Header : Type := {
  h_seq_number : Z;
  h_file_write_guid : bytes;
  h_data_write_guid : bytes;
  h_log_guid : bytes;
  h_log_version : Z;
  h_log_length : Z;
  h_log_offset : Z;
  h_version : Z
}.

Definition sequence_number (h : Header) : Z := h_seq_number h.

Definition Header_from_stream (ignore_faults : bool) : parser Header :=
  log "Reading header" ;;;
  header_raw <- read_raw 4096 ;;
  fields <- with_bytes header_raw (
    magic <- read_raw 4 ;;
    (if negb (bytes_eqb magic HEAD_MAGIC) then
       if ignore_faults then log "WARNING: Invalid header magic"
       else praise (VhdxHeaderError InvalidHeaderMagic)
     else pret tt) ;;;
    checksum <- read_uint32 ;;
    seq_number <- read_uint64 ;;
    file_write_guid <- read_guid ;;
    data_write_guid <- read_guid ;;
    log_guid <- read_guid ;;
    log_version <- read_uint16 ;;
    version <- read_uint16 ;;
    log_length <- read_uint32 ;;
    log_offset <- read_uint64 ;;
    pret {| h_seq_number := seq_number; h_file_write_guid := file_write_guid;
            h_data_write_guid := data_write_guid; h_log_guid := log_guid;
            h_log_version := log_version; h_log_length := log_length;
            h_log_offset := log_offset; h_version := version |}) ;;
  f_seek_cur (1024 * 60) ;;;
  (if negb (h_version fields =? 1) then
     if ignore_faults then log "WARNING: Invalid version in the header"
     else praise (VhdxHeaderError InvalidHeaderVersion)
   else pret tt) ;;;
  pret fields.

(** ** Region table *)

Record RegionTableEntry : Type := {
  rte_guid : bytes;
  rte_offset : Z;
  rte_length : Z;
  rte_required : bool
}.

Definition RegionTableEntry_from_stream : parser RegionTableEntry :=
  guid <- read_guid ;;
  file_offset <- read_uint64 ;;
  length <- read_uint32 ;;
  flags <- read_uint32 ;;
  let reserved := negb (Z.land flags 0x01 =? 0) in
  pret {| rte_guid := guid; rte_offset := file_offset; rte_length := length;
          rte_required := reserved |}.

(** [RegionTableEntry.__eq__]: the required flag takes no part. *)
Definition RegionTableEntry_eq (self other : RegionTableEntry) : bool :=
  bytes_eqb (rte_guid self) (rte_guid other)
  && (rte_length self =? rte_length other)
  && (rte_offset self =? rte_offset other).

(** A [dict], in insertion order, over keys compared by [eqb]. *)
Section Dict.
Context {K V : Type} (eqb : K -> K -> bool).

Fixpoint dict_get (d : list (K * V)) (k : K) : option V :=
  match d with
  | [] => None
  | (k', v) :: rest => if eqb k' k then Some v else dict_get rest k
  end.

(** [k in d] *)
Definition dict_contains (d : list (K * V)) (k : K) : bool :=
  match dict_get d k with Some _ => true | None => false end.

(** [d[k] = v]: an existing key keeps its place. *)
Fixpoint dict_set (d : list (K * V)) (k : K) (v : V) : list (K * V) :=
  match d with
  | [] => [(k, v)]
  | (k', v') :: rest =>
      if eqb k' k then (k', v) :: rest else (k', v') :: dict_set rest k v
  end.

(** [d[k]] *)
Definition dict_item (d : list (K * V)) (k : K) : result V :=
  match dict_get d k with Some v => Ok v | None => Raise KeyError end.
End Dict.

(** Dictionaries keyed by GUID blobs. *)
Abbreviation bdict V := (list (bytes * V)).
Abbreviation bdict_get := (dict_get bytes_eqb).
Abbreviation bdict_contains := (dict_contains bytes_eqb).
Abbreviation bdict_set := (dict_set bytes_eqb).
Abbreviation bdict_item := (dict_item bytes_eqb).

Abbreviation RegionTable := (bdict RegionTableEntry).

(** The loop [for i in range(entry_count)] of [RegionTable.from_stream]. *)
Fixpoint read_region_entries (ignore_faults : bool) (n : nat)
    (table_entries : RegionTable) : parser RegionTable :=
  match n with
  | O => pret table_entries
  | S n' =>
      entry <- RegionTableEntry_from_stream ;;
      (if bdict_contains table_entries (rte_guid entry) then
         if ignore_faults
         then log "WARNING: Multiple Region Table entries with the same key"
         else praise (VhdxHeaderError MultipleRegionEntries)
       else pret tt) ;;;
      read_region_entries ignore_faults n'
        (bdict_set table_entries (rte_guid entry) entry)
  end.

Definition RegionTable_from_stream (ignore_faults : bool) : parser RegionTable :=
  log "Reading region table" ;;;
  region_table_raw <- read_raw (1024 * 64) ;;
  with_bytes region_table_raw (
    magic <- read_raw 4 ;;
    (if negb (bytes_eqb magic REGION_TABLE_MAGIC) then
       (if ignore_faults then log "Invalid region table magic" else pret tt) ;;;
       praise (VhdxHeaderError InvalidRegionTableMagic)
     else pret tt) ;;;
    checksum <- read_uint32 ;;
    entry_count <- read_uint32 ;;
    (if 2047 <? entry_count then
       if ignore_faults
       then log "WARNING: Region table entry count over 2047, setting to 2047 - expect invalid data"
       else praise (VhdxHeaderError RegionCountOver2047)
     else pret tt) ;;;
    reserved <- read_uint32 ;;
    log "Reading region table entries" ;;;
    read_region_entries ignore_faults (Z.to_nat entry_count) []).

(** ** Metadata *)

(** Python strings, as their code points. *)
Abbreviation pystr := (list Z).

(** The values a metadata mapping holds. *)
Inductive MetaValue : Type :=
| MInt (z : Z)
| MBool (b : bool)
| MBytes (b : bytes)
| MDict (d : list (pystr * pystr)).

Record MetadataTableEntry : Type := {
  mte_item_id : bytes;
  mte_offset : Z;
  mte_length : Z
}.

Definition MetadataTableEntry_from_stream : parser MetadataTableEntry :=
  guid <- read_guid ;;
  offset <- read_uint32 ;;
  length <- read_uint32 ;;
  flags <- read_uint32 ;;
  reserved <- read_uint32 ;;
  pret {| mte_item_id := guid; mte_offset := offset; mte_length := length |}.

(** A generator is run to its end: what it yielded, and the exception
    that stopped it, if one did. *)
Definition generated (A : Type) : Type := (list A * option exn)%type.

Definition flag_set (flags mask : Z) : bool := negb (Z.land flags mask =? 0).

(** [bytes.decode("utf-16-le")] *)
Fixpoint utf16_units (b : bytes) : result (list Z) :=
  match b with
  | [] => Ok []
  | lo :: hi :: rest =>
      let? tl := utf16_units rest in Ok (byte_val lo + 256 * byte_val hi :: tl)
  | _ :: [] => Raise UnicodeDecodeError
  end.

Fixpoint utf16_points (u : list Z) : result pystr :=
  match u with
  | [] => Ok []
  | c :: rest =>
      if (0xD800 <=? c) && (c <=? 0xDBFF) then
        match rest with
        | d :: rest' =>
            if (0xDC00 <=? d) && (d <=? 0xDFFF) then
              let? tl := utf16_points rest' in
              Ok (0x10000 + (c - 0xD800) * 1024 + (d - 0xDC00) :: tl)
            else Raise UnicodeDecodeError
        | [] => Raise UnicodeDecodeError
        end
      else if (0xDC00 <=? c) && (c <=? 0xDFFF) then Raise UnicodeDecodeError
      else let? tl := utf16_points rest in Ok (c :: tl)
  end.

Definition decode_utf16le (b : bytes) : result pystr :=
  let? u := utf16_units b in utf16_points u.

(** [a == b] on strings. *)
Fixpoint pystr_eqb (a b : pystr) : bool :=
  match a, b with
  | [], [] => true
  | x :: a', y :: b' => (x =? y) && pystr_eqb a' b'
  | _, _ => false
  end.

(** Runs the body of a generator up to its next [yield]: an exception is
    handed back as a value. *)
Definition attempt {A} (m : parser A) : parser (result A) :=
  fun st =>
    match m st with
    | Ok (a, st') => Ok (Ok a, st')
    | Raise e => Ok (Raise e, st)
    end.

Definition parse_file_parameters (data : bytes) : parser (generated (string * MetaValue)) :=
  with_bytes data (
    r1 <- attempt read_uint32 ;;
    match r1 with
    | Raise e => pret ([], Some e)
    | Ok block_size =>
        r2 <- attempt read_uint32 ;;
        match r2 with
        | Raise e => pret ([("BlockSize", MInt block_size)], Some e)
        | Ok flags =>
            pret ([("BlockSize", MInt block_size);
                   ("LeaveBlocksAllocated", MBool (flag_set flags 1));
                   ("HasParent", MBool (flag_set flags 2))], None)
        end
    end).

Definition yield_one (key : string) (m : parser MetaValue)
    : parser (generated (string * MetaValue)) :=
  r <- attempt m ;;
  match r with
  | Raise e => pret ([], Some e)
  | Ok v => pret ([(key, v)], None)
  end.

Definition parse_virtual_disk_size (data : bytes) :=
  with_bytes data (yield_one "VirtualDiskSize" (v <- read_uint64 ;; pret (MInt v))).

Definition parse_page_83_data (data : bytes) :=
  with_bytes data (yield_one "Page83Data" (v <- read_guid ;; pret (MBytes v))).

Definition parse_logical_sector_size (data : bytes) :=
  with_bytes data (yield_one "LogicalSectorSize" (v <- read_uint32 ;; pret (MInt v))).

Definition parse_physical_sector_size (data : bytes) :=
  with_bytes data (yield_one "PhysicalSectorSize" (v <- read_uint32 ;; pret (MInt v))).

Fixpoint read_locator_entries (n : nat) : parser (list (Z * Z * Z * Z)) :=
  match n with
  | O => pret []
  | S n' =>
      key_offset <- read_uint32 ;;
      value_offset <- read_uint32 ;;
      key_length <- read_uint16 ;;
      value_length <- read_uint16 ;;
      rest <- read_locator_entries n' ;;
      pret ((key_offset, value_offset, key_length, value_length) :: rest)
  end.

Fixpoint read_locator_fields (entries : list (Z * Z * Z * Z))
    (locator_fields : list (pystr * pystr)) : parser (list (pystr * pystr)) :=
  match entries with
  | [] => pret locator_fields
  | (key_offset, value_offset, key_length, value_length) :: rest =>
      f_seek key_offset ;;;
      key_raw <- read_raw key_length ;;
      key <- plift (decode_utf16le key_raw) ;;
      f_seek value_offset ;;;
      value_raw <- read_raw value_length ;;
      value <- plift (decode_utf16le value_raw) ;;
      read_locator_fields rest (dict_set pystr_eqb locator_fields key value)
  end.

Definition parse_parent_locator (data : bytes) :=
  with_bytes data (yield_one "ParentLocator" (
    locator_type <- read_guid ;;
    expected <- plift (guid_to_blob PARENT_LOCATOR_TYPE_VHDX) ;;
    (if negb (bytes_eqb locator_type expected)
     then log "WARNING: Unexpected Parent locator type" else pret tt) ;;;
    reserved <- read_uint16 ;;
    key_value_count <- read_uint16 ;;
    entries <- read_locator_entries (Z.to_nat key_value_count) ;;
    locator_fields <- read_locator_fields entries [] ;;
    pret (MDict locator_fields))).

(** The dispatch table of [parse_metadata_entry], in the order of the
    source; an item id outside it is a [KeyError], raised when the
    generator is first advanced. *)
Definition metadata_parsers
    : list (string * (bytes -> parser (generated (string * MetaValue)))) :=
  [ (METADATA_FILE_PARAMETERS, parse_file_parameters);
    (METADATA_VIRTUAL_DISK_SIZE, parse_virtual_disk_size);
    (METADATA_PAGE_83_DATA, parse_page_83_data);
    (METADATA_LOGICAL_SECTOR_SIZE, parse_logical_sector_size);
    (METADATA_PHYSICAL_SECTOR_SIZE, parse_physical_sector_size);
    (METADATA_PARENT_LOCATOR, parse_parent_locator) ].

Fixpoint build_dispatch
    (l : list (string * (bytes -> parser (generated (string * MetaValue)))))
    (d : bdict (bytes -> parser (generated (string * MetaValue))))
    : result (bdict (bytes -> parser (generated (string * MetaValue)))) :=
  match l with
  | [] => Ok d
  | (g, p) :: rest =>
      let? blob := guid_to_blob g in build_dispatch rest (bdict_set d blob p)
  end.

Definition parse_metadata_entry (data item_id : bytes)
    : parser (generated (string * MetaValue)) :=
  match build_dispatch metadata_parsers [] with
  | Raise e => pret ([], Some e)
  | Ok table =>
      match bdict_get table item_id with
      | None => pret ([], Some KeyError)
      | Some p => p data
      end
  end.

(** The mapping of a [MetadataTable] and a fallback [dict] alike. *)
Abbreviation Metas := (list (string * MetaValue)).
Abbreviation metas_get := (dict_get String.eqb).
Abbreviation metas_set := (dict_set String.eqb).

Record MetadataTable : Type := {
  mt_entries_raw : list MetadataTableEntry;
  mt_entries : Metas
}.

(** The inner loop of [MetadataTable.from_stream] over what one entry's
    generator yields. *)
Fixpoint add_meta_items (items : list (string * MetaValue)) (metas : Metas)
    : result Metas :=
  match items with
  | [] => Ok metas
  | (meta_item_key, meta_item_value) :: rest =>
      match metas_get metas meta_item_key with
      | Some _ => Raise (ValueError DuplicateMetadataKeys)
      | None => add_meta_items rest (metas_set metas meta_item_key meta_item_value)
      end
  end.

Fixpoint read_metadata_entries (n : nat) : parser (list MetadataTableEntry) :=
  match n with
  | O => pret []
  | S n' =>
      e <- MetadataTableEntry_from_stream ;;
      rest <- read_metadata_entries n' ;;
      pret (e :: rest)
  end.

Fixpoint load_meta_items (origin : Z) (entries : list MetadataTableEntry)
    (metas : Metas) : parser Metas :=
  match entries with
  | [] => pret metas
  | entry :: rest =>
      f_seek (origin + mte_offset entry) ;;;
      data <- read_raw (mte_length entry) ;;
      g <- parse_metadata_entry data (mte_item_id entry) ;;
      metas' <- plift (add_meta_items (fst g) metas) ;;
      match snd g with
      | Some e => praise e
      | None => load_meta_items origin rest metas'
      end
  end.

Definition MetadataTable_from_stream (ignore_faults : bool) : parser MetadataTable :=
  origin <- f_tell ;;
  magic <- read_raw (blen METADATA_TABLE_MAGIC) ;;
  (if negb (bytes_eqb magic METADATA_TABLE_MAGIC) then
     if ignore_faults then log "WARNING: Invalid Metadata table magic"
     else praise VhdxMetadataError
   else pret tt) ;;;
  reserved1 <- read_uint16 ;;
  entry_count <- read_uint16 ;;
  reserved2 <- read_raw 20 ;;
  entries <- read_metadata_entries (Z.to_nat entry_count) ;;
  metas <- load_meta_items origin entries [] ;;
  pret {| mt_entries_raw := entries; mt_entries := metas |}.

(** ** BAT entries *)

Inductive BatPayloadBlockState : Type :=
| BAT_PAYLOAD_BLOCK_NOT_PRESENT
| BAT_PAYLOAD_BLOCK_UNDEFINED
| BAT_PAYLOAD_BLOCK_ZERO
| BAT_PAYLOAD_BLOCK_UNMAPPED
| BAT_PAYLOAD_BLOCK_FULLY_PRESENT
| BAT_PAYLOAD_BLOCK_PARTIALLY_PRESENT.

(** The value of a member of the [IntEnum]. *)
Definition state_value (s : BatPayloadBlockState) : Z :=
  match s with
  | BAT_PAYLOAD_BLOCK_NOT_PRESENT => 0
  | BAT_PAYLOAD_BLOCK_UNDEFINED => 1
  | BAT_PAYLOAD_BLOCK_ZERO => 2
  | BAT_PAYLOAD_BLOCK_UNMAPPED => 3
  | BAT_PAYLOAD_BLOCK_FULLY_PRESENT => 6
  | BAT_PAYLOAD_BLOCK_PARTIALLY_PRESENT => 7
  end.

(** [BatPayloadBlockState(state)]: a [ValueError] outside the members. *)
Definition BatPayloadBlockState_of (state : Z) : result BatPayloadBlockState :=
  if state =? 0 then Ok BAT_PAYLOAD_BLOCK_NOT_PRESENT
  else if state =? 1 then Ok BAT_PAYLOAD_BLOCK_UNDEFINED
  else if state =? 2 then Ok BAT_PAYLOAD_BLOCK_ZERO
  else if state =? 3 then Ok BAT_PAYLOAD_BLOCK_UNMAPPED
  else if state =? 6 then Ok BAT_PAYLOAD_BLOCK_FULLY_PRESENT
  else if state =? 7 then Ok BAT_PAYLOAD_BLOCK_PARTIALLY_PRESENT
  else Raise (ValueError (InvalidBatState state)).

Record BatEntry : Type := {
  be_state : BatPayloadBlockState;
  be_offset : Z
}.

(** [BatEntry.__init__] *)
Definition mkBatEntry (state : BatPayloadBlockState) (file_offset_mb : Z) : BatEntry :=
  {| be_state := state; be_offset := file_offset_mb * Z.shiftl 1 20 |}.

(** [BatEntry.from_stream] after the read: the decoding of the raw value. *)
Definition BatEntry_decode (block_raw : Z) : result BatEntry :=
  let state := Z.land block_raw 0x07 in
  let file_offset_mb := Z.land (Z.shiftr block_raw 20) 0xfffffffffff in
  let? s := BatPayloadBlockState_of state in
  Ok (mkBatEntry s file_offset_mb).

Definition BatEntry_from_stream : parser BatEntry :=
  block_raw <- read_uint64 ;;
  plift (BatEntry_decode block_raw).

(** ** VhdxFile *)

Record VhdxFile : Type := {
  _file : bytes;                 (* the content of the file at [_file_path] *)
  _header : Header;
  _region_table : RegionTable;
  _using_fallback_metas : bool;
  _metas : Metas;
  _logical_sector_size : Z;
  _physical_sector_size : MetaValue;
  _block_size : Z;
  _chunk_ratio : Z;
  _sector_bitmap_cache : list (Z * option bytes);
  _empty_block : bytes;
  _empty_sector : bytes
}.

(** [metas[key]] *)
Definition metas_item (metas : Metas) (key : string) : result MetaValue :=
  dict_item String.eqb metas key.

(** A value used as a number: [bool] is a subclass of [int]. *)
Definition as_int (v : MetaValue) : result Z :=
  match v with
  | MInt z => Ok z
  | MBool b => Ok (if b then 1 else 0)
  | _ => Raise TypeError
  end.

(** The truth value of an object. *)
Definition truthy (v : MetaValue) : bool :=
  match v with
  | MInt z => negb (z =? 0)
  | MBool b => b
  | MBytes b => match b with [] => false | _ => true end
  | MDict d => match d with [] => false | _ => true end
  end.

Definition metas_truthy (m : Metas) : bool :=
  match m with [] => false | _ => true end.

Definition option_metas_truthy (m : option Metas) : bool :=
  match m with Some m => metas_truthy m | None => false end.

(** [header_a if header_a.sequence_number > header_b.sequence_number else header_b] *)
Definition current_header (header_a header_b : Header) : Header :=
  if sequence_number header_b <? sequence_number header_a then header_a else header_b.

(** The comparison of the two region tables. *)
Fixpoint compare_region_entries (keys : list bytes)
    (region_table_a region_table_b : RegionTable) : result unit :=
  match keys with
  | [] => Ok tt
  | key :: rest =>
      let? ea := bdict_item region_table_a key in
      let? eb := bdict_item region_table_b key in
      if negb (RegionTableEntry_eq ea eb)
      then Raise (ValueError RegionTablesDoNotMatch)
      else compare_region_entries rest region_table_a region_table_b
  end.

Definition compare_region_tables (region_table_a region_table_b : RegionTable)
    : result RegionTable :=
  if negb (length region_table_a =? length region_table_b)%nat
  then Raise (ValueError RegionTablesDoNotMatch)
  else
    let? _ := compare_region_entries (map fst region_table_a)
                region_table_a region_table_b in
    Ok region_table_a.

(** [(1 << 23) * x]: a number for a number, a repeated sequence for a
    [bytes], a [TypeError] for a [dict]. *)
Inductive Product : Type :=
| PNum (z : Z)
| PSeq.

Definition shifted_23 (x : MetaValue) : result Product :=
  match x with
  | MInt z => Ok (PNum (Z.shiftl 1 23 * z))
  | MBool b => Ok (PNum (Z.shiftl 1 23 * (if b then 1 else 0)))
  | MBytes _ => Ok PSeq
  | MDict _ => Raise TypeError
  end.

(** [p // d] *)
Definition floordiv_by (p : Product) (d : MetaValue) : result Z :=
  match p with
  | PNum n => let? b := as_int d in py_floordiv n b
  | PSeq => Raise TypeError
  end.

(** The guess of [VirtualDiskSize] from the size of the BAT. *)
Definition infer_virtual_disk_size (region_table : RegionTable) (metas : Metas)
    : result Z :=
  let? bat_guid := guid_to_blob REGION_GUID_BAT in
  let? bat := bdict_item region_table bat_guid in
  let? raw_bat_entry_count := py_floordiv (rte_length bat) 8 in
  let? lss := metas_item metas "LogicalSectorSize" in
  let? p := shifted_23 lss in
  let? bs := metas_item metas "BlockSize" in
  let? chunk_ratio := floordiv_by p bs in
  let? q := py_floordiv raw_bat_entry_count chunk_ratio in
  let payload_block_count := raw_bat_entry_count - q in
  let? bs' := metas_item metas "BlockSize" in
  let? bsz := as_int bs' in
  let inferred_size := payload_block_count * bsz in
  if MAX_INFERRED_SIZE <? inferred_size
  then Raise (ValueError InferredSizeTooLarge)
  else Ok inferred_size.

(** Lines 527 to 561 of [__init__]: the mapping to use and whether the
    fallback was taken. *)
Definition load_metas (ignore_faults : bool) (fallback_metas : option Metas)
    (region_table : RegionTable) : parser (Metas * bool) :=
  meta_guid <- plift (guid_to_blob REGION_GUID_METADATA) ;;
  metas <- (match bdict_get region_table meta_guid with
            | Some meta_info =>
                log "Metadata region at offset" ;;;
                f_seek (rte_offset meta_info) ;;;
                t <- MetadataTable_from_stream ignore_faults ;;
                pret (mt_entries t)
            | None =>
                match fallback_metas with
                | Some fb =>
                    if ignore_faults && metas_truthy fb then
                      log "WARNING: No metadata block defined, falling back to provided metadata" ;;;
                      pret fb
                    else praise (VhdxHeaderError NoMetadataBlock)
                | None => praise (VhdxHeaderError NoMetadataBlock)
                end
            end) ;;
  match fallback_metas with
  | Some fb =>
      if negb (metas_truthy metas) && metas_truthy fb then
        log "WARNING: Couldn't get metadata, falling back to provided metadata" ;;;
        let metas := fb in
        match metas_get metas "VirtualDiskSize" with
        | None =>
            log "WARNING: Inferring VirtualDiskSize from BAT size" ;;;
            inferred_size <- plift (infer_virtual_disk_size region_table metas) ;;
            log "VirtualDiskSize inferred size" ;;;
            pret (metas_set metas "VirtualDiskSize" (MInt inferred_size), true)
        | Some _ => pret (metas, true)
        end
      else pret (metas, false)
  | None => pret (metas, false)
  end.

(** Lines 503 to 510 of [__init__]: the file identifier, the two headers
    (read in strict mode whatever [ignore_faults] says) and the choice of
    the current one. *)
Definition read_headers (ignore_faults : bool) : parser Header :=
  file_identifier <- FileIdentifier_from_stream ignore_faults ;;
  header_a <- Header_from_stream false ;;
  header_b <- Header_from_stream false ;;
  log (if sequence_number header_b <? sequence_number header_a
       then "The second header is current." else "The first header is current.") ;;;
  pret (current_header header_a header_b).

(** Lines 513 to 523: the two region tables (strict mode again), their
    comparison, and the first one kept. *)
Definition read_region_tables : parser RegionTable :=
  region_table_a <- RegionTable_from_stream false ;;
  region_table_b <- RegionTable_from_stream false ;;
  plift (compare_region_tables region_table_a region_table_b).

(** Lines 567 to 580: the derived constants and the object. *)
Definition configure (file : bytes) (current : Header) (region_table : RegionTable)
    (metas : Metas) (using_fallback : bool) : parser VhdxFile :=
  lss <- plift (metas_item metas "LogicalSectorSize") ;;
  pss <- plift (metas_item metas "PhysicalSectorSize") ;;
  bs <- plift (metas_item metas "BlockSize") ;;
  chunk_ratio <- plift (let? p := shifted_23 lss in floordiv_by p bs) ;;
  log "Chunk Ratio = (2**23 * LogicalSectorSize) / BlockSize" ;;;
  log "Chunk Ratio" ;;;
  logical_sector_size <- plift (as_int lss) ;;
  block_size <- plift (as_int bs) ;;
  pret {| _file := file;
          _header := current;
          _region_table := region_table;
          _using_fallback_metas := using_fallback;
          _metas := metas;
          _logical_sector_size := logical_sector_size;
          _physical_sector_size := pss;
          _block_size := block_size;
          _chunk_ratio := chunk_ratio;
          _sector_bitmap_cache := [];
          _empty_block := zeros block_size;
          _empty_sector := zeros logical_sector_size |}.

(** [VhdxFile.__init__], on the content of the file at [in_path]. *)
Definition VhdxFile_init_parser (file : bytes) (ignore_faults : bool)
    (fallback_metas : option Metas) : parser VhdxFile :=
  current <- read_headers ignore_faults ;;
  region_table <- read_region_tables ;;
  mu <- load_metas ignore_faults fallback_metas region_table ;;
  configure file current region_table (fst mu) (snd mu).

(** The outcome of [__init__] and the log it wrote, oldest message first. *)
Definition with_file {A} (file : bytes) (p : parser A) : result (A * list string) :=
  match p (initial file) with
  | Ok (a, st) => Ok (a, rev (st_log st))
  | Raise e => Raise e
  end.

Definition VhdxFile_init (file : bytes) (ignore_faults : bool)
    (fallback_metas : option Metas) : result (VhdxFile * list string) :=
  with_file file (VhdxFile_init_parser file ignore_faults fallback_metas).

(** The outcome of a parse with the log it wrote, oldest message
    first. *)
Definition logged {A} (r : result (A * pstate)) : result (A * list string) :=
  match r with
  | Ok (a, st) => Ok (a, rev (st_log st))
  | Raise e => Raise e
  end.

(** [__init__] after the file identifier: the headers, the region
    tables, the metadata and the object (lines 505 to 580). *)
Definition open_after_file_identifier (file : bytes) (ignore_faults : bool)
    (fallback_metas : option Metas) : parser VhdxFile :=
  header_a <- Header_from_stream false ;;
  header_b <- Header_from_stream false ;;
  log (if sequence_number header_b <? sequence_number header_a
       then "The second header is current." else "The first header is current.") ;;;
  region_table <- read_region_tables ;;
  mu <- load_metas ignore_faults fallback_metas region_table ;;
  configure file (current_header header_a header_b) region_table (fst mu) (snd mu).

(** [__init__] and, in it, [MetadataTable.from_stream] up to round [n]
    of the loop over the entries of the metadata table (lines 420 to
    426): the mapping that the rounds before it have filled, and what
    the parser of entry [n] yields. *)
Definition nth_metadata_entry (ignore_faults : bool) (n : nat)
    : parser (Metas * generated (string * MetaValue)) :=
  read_headers ignore_faults ;;;
  region_table <- read_region_tables ;;
  meta_guid <- plift (guid_to_blob REGION_GUID_METADATA) ;;
  meta_info <- plift (bdict_item region_table meta_guid) ;;
  log "Metadata region at offset" ;;;
  f_seek (rte_offset meta_info) ;;;
  origin <- f_tell ;;
  magic <- read_raw (blen METADATA_TABLE_MAGIC) ;;
  (if negb (bytes_eqb magic METADATA_TABLE_MAGIC) then
     if ignore_faults then log "WARNING: Invalid Metadata table magic"
     else praise VhdxMetadataError
   else pret tt) ;;;
  reserved1 <- read_uint16 ;;
  entry_count <- read_uint16 ;;
  reserved2 <- read_raw 20 ;;
  entries <- read_metadata_entries (Z.to_nat entry_count) ;;
  metas_so_far <- load_meta_items origin (firstn n entries) [] ;;
  entry <- plift (match nth_error entries n with
                  | Some entry => Ok entry
                  | None => Raise IndexError
                  end) ;;
  f_seek (origin + mte_offset entry) ;;;
  data <- read_raw (mte_length entry) ;;
  g <- parse_metadata_entry data (mte_item_id entry) ;;
  pret (metas_so_far, g).

(** The properties of [VhdxFile]. *)
Definition header (v : VhdxFile) := _header v.
Definition region_table (v : VhdxFile) := _region_table v.
Definition metas (v : VhdxFile) := _metas v.
Definition logical_sector_size (v : VhdxFile) := _logical_sector_size v.
Definition physical_sector_size (v : VhdxFile) := _physical_sector_size v.
Definition block_size (v : VhdxFile) := _block_size v.
Definition used_fallback_metas (v : VhdxFile) := _using_fallback_metas v.
Definition is_differencing (v : VhdxFile) : result MetaValue :=
  metas_item (metas v) "HasParent".
Definition virtual_disk_size (v : VhdxFile) : result MetaValue :=
  metas_item (metas v) "VirtualDiskSize".
Definition get_meta_entry (v : VhdxFile) (key : string) := metas_item (_metas v) key.

(** *** Methods *)

(** [self.metas["VirtualDiskSize"] // self.metas["LogicalSectorSize"]] *)
Definition sector_limit (v : VhdxFile) : result Z :=
  let? vds := metas_item (metas v) "VirtualDiskSize" in
  let? lss := metas_item (metas v) "LogicalSectorSize" in
  let? vds := as_int vds in
  let? lss := as_int lss in
  py_floordiv vds lss.

(** The guard [sector_number > VirtualDiskSize // LogicalSectorSize or
    sector_number < 0] that opens every sector method. *)
Definition check_sector_number (v : VhdxFile) (sector_number : Z) : result unit :=
  let? limit := sector_limit v in
  if (limit <? sector_number) || (sector_number <? 0)
  then Raise (ValueError SectorOutOfRange)
  else Ok tt.

Definition _get_bat_index_for_logical_sector (v : VhdxFile) (sector_number : Z)
    : result Z :=
  let? _ := check_sector_number v sector_number in
  let? raw_index := py_floordiv (sector_number * _logical_sector_size v) (_block_size v) in
  let? q := py_floordiv raw_index (_chunk_ratio v) in
  Ok (raw_index + q).

(** A method's [with self._file_path.open("rb") as f:] block. *)
Definition on_file {A} (v : VhdxFile) (p : parser A) : result A :=
  run (_file v) p.

Definition bat_region (v : VhdxFile) : result RegionTableEntry :=
  let? bat_guid := guid_to_blob REGION_GUID_BAT in
  bdict_item (_region_table v) bat_guid.

Definition get_bat_entry_for_logical_sector (v : VhdxFile) (sector_number : Z)
    : result BatEntry :=
  on_file v (
    plift (check_sector_number v sector_number) ;;;
    bat <- plift (bat_region v) ;;
    let bat_offset := rte_offset bat in
    index <- plift (_get_bat_index_for_logical_sector v sector_number) ;;
    let entry_offset := index * 8 in
    f_seek (bat_offset + entry_offset) ;;;
    BatEntry_from_stream).

Definition state_in (s : BatPayloadBlockState) (l : list BatPayloadBlockState) : bool :=
  existsb (fun s' => state_value s =? state_value s') l.

Definition get_block (v : VhdxFile) (bat_entry : BatEntry) : result bytes :=
  if state_value (be_state bat_entry) =? state_value BAT_PAYLOAD_BLOCK_ZERO then
    Ok (_empty_block v)
  else if state_in (be_state bat_entry)
            [BAT_PAYLOAD_BLOCK_NOT_PRESENT; BAT_PAYLOAD_BLOCK_UNDEFINED;
             BAT_PAYLOAD_BLOCK_UNMAPPED]
          && (be_offset bat_entry =? 0) then
    Ok (_empty_block v)
  else
    on_file v (
      f_seek (be_offset bat_entry) ;;;
      bs <- plift (metas_item (metas v) "BlockSize") ;;
      count <- plift (as_int bs) ;;
      f_read count).

(** The loop of [iter_bat_payload_entries], from index [i], [n] rounds to
    go: what is yielded, and the exception that ends the iteration early. *)
Fixpoint iter_bat_loop (chunk_ratio : Z) (n : nat) (i : Z) (st : pstate)
    : generated BatEntry :=
  match n with
  | O => ([], None)
  | S n' =>
      let round :=
        (if 0 <? i then
           r <- plift (py_mod i (chunk_ratio + 1)) ;;
           if r =? 0 then (_ <- BatEntry_from_stream ;; pret tt) else pret tt
         else pret tt) ;;;
        BatEntry_from_stream in
      match round st with
      | Raise e => ([], Some e)
      | Ok (entry, st') =>
          let '(l, err) := iter_bat_loop chunk_ratio n' (i + 1) st' in
          (entry :: l, err)
      end
  end.

Definition iter_bat_payload_entries (v : VhdxFile) : generated BatEntry :=
  let start :=
    bat <- plift (bat_region v) ;;
    f_seek (rte_offset bat) ;;;
    bat' <- plift (bat_region v) ;;
    raw_entry_count <- plift (py_floordiv (rte_length bat') 8) ;;
    pret raw_entry_count in
  match start (initial (_file v)) with
  | Raise e => ([], Some e)
  | Ok (raw_entry_count, st) =>
      iter_bat_loop (_chunk_ratio v) (Z.to_nat raw_entry_count) 0 st
  end.

(** [b[i]] for [0 <= i] *)
Definition bytes_index (b : bytes) (i : Z) : result Z :=
  match nth_error b (Z.to_nat i) with
  | Some x => Ok (byte_val x)
  | None => Raise IndexError
  end.

Definition cache_put (v : VhdxFile) (chunk_index : Z) (bitmap : option bytes)
    : VhdxFile :=
  {| _file := _file v; _header := _header v; _region_table := _region_table v;
     _using_fallback_metas := _using_fallback_metas v; _metas := _metas v;
     _logical_sector_size := _logical_sector_size v;
     _physical_sector_size := _physical_sector_size v;
     _block_size := _block_size v; _chunk_ratio := _chunk_ratio v;
     _sector_bitmap_cache := dict_set Z.eqb (_sector_bitmap_cache v) chunk_index bitmap;
     _empty_block := _empty_block v; _empty_sector := _empty_sector v |}.

(** The bytes [is_sector_allocated] asks for when it loads a sector
    bitmap: [f.read(1 << 23)]. *)
Definition SECTOR_BITMAP_READ : Z := Z.shiftl 1 23.

(** The sector bitmap of a chunk and the object after the call: from the
    cache, or loaded through the BAT and cached. *)
Definition load_sector_bitmap (v : VhdxFile) (chunk_index bat_index_for_sector_bitmap : Z)
    : result (option bytes * VhdxFile) :=
  match dict_get Z.eqb (_sector_bitmap_cache v) chunk_index with
  | Some sector_bitmap => Ok (sector_bitmap, v)
  | None =>
      let? sector_bitmap_bat_entry :=
        on_file v (
          bat <- plift (bat_region v) ;;
          f_seek (rte_offset bat + bat_index_for_sector_bitmap * 8) ;;;
          BatEntry_from_stream) in
      if state_value (be_state sector_bitmap_bat_entry) =? BAT_SB_BLOCK_NOT_PRESENT then
        Ok (None, cache_put v chunk_index None)
      else if state_value (be_state sector_bitmap_bat_entry) =? BAT_SB_BLOCK_PRESENT then
        let? sector_bitmap :=
          on_file v (
            f_seek (be_offset sector_bitmap_bat_entry) ;;;
            f_read SECTOR_BITMAP_READ) in
        Ok (Some sector_bitmap, cache_put v chunk_index (Some sector_bitmap))
      else Raise (ValueError InvalidSectorBitmapState)
  end.

(** The part of [is_sector_allocated] after the guard and the test of
    [is_differencing]. *)
Definition sector_bit (v : VhdxFile) (sector_number : Z) : result bool * VhdxFile :=
  match
    (let? bat_index :=
       py_floordiv (sector_number * _logical_sector_size v) (_block_size v) in
     let? chunk_index := py_floordiv bat_index (_chunk_ratio v) in
     let bat_index_for_sector_bitmap :=
       chunk_index + (1 + chunk_index) * _chunk_ratio v in
     load_sector_bitmap v chunk_index bat_index_for_sector_bitmap)
  with
  | Raise e => (Raise e, v)
  | Ok (None, v') => (Ok false, v')
  | Ok (Some sector_bitmap, v') =>
      let sectors_per_bitmap := Z.shiftl 1 23 in
      let index_in_sb := sector_number mod sectors_per_bitmap in
      let byte_offset := index_in_sb / 8 in
      let bit_offset := index_in_sb mod 8 in
      (let? b := bytes_index sector_bitmap byte_offset in
       Ok (negb (Z.land (Z.shiftr b bit_offset) 1 =? 0)), v')
  end.

(** [is_sector_allocated]: the outcome and the object after the call. *)
Definition is_sector_allocated (v : VhdxFile) (sector_number : Z)
    : result bool * VhdxFile :=
  match check_sector_number v sector_number with
  | Raise e => (Raise e, v)
  | Ok _ =>
      match is_differencing v with
      | Raise e => (Raise e, v)
      | Ok has_parent =>
          if negb (truthy has_parent) then (Ok true, v)
          else sector_bit v sector_number
      end
  end.

(** The slice of a block that [get_sector] returns. *)
Definition sector_of_block (v : VhdxFile) (block : bytes) (sector_number : Z)
    : result bytes :=
  let? sectors_per_block := py_floordiv (block_size v) (logical_sector_size v) in
  let? sector_index_in_block := py_mod sector_number sectors_per_block in
  let? lss1 := metas_item (metas v) "LogicalSectorSize" in
  let? lss1 := as_int lss1 in
  let? lss2 := metas_item (metas v) "LogicalSectorSize" in
  let? lss2 := as_int lss2 in
  let sector_data :=
    py_slice block (sector_index_in_block * lss1)
             ((1 + sector_index_in_block) * lss2) in
  let? lss3 := metas_item (metas v) "LogicalSectorSize" in
  let? lss3 := as_int lss3 in
  if negb (blen sector_data =? lss3)
  then Raise (ValueError ShortSector)
  else Ok sector_data.

(** [get_sector]: the outcome and the object after the call. *)
Definition get_sector (v : VhdxFile) (sector_number : Z)
    : result bytes * VhdxFile :=
  match check_sector_number v sector_number with
  | Raise e => (Raise e, v)
  | Ok _ =>
      match get_bat_entry_for_logical_sector v sector_number with
      | Raise e => (Raise e, v)
      | Ok bat_entry =>
          match is_sector_allocated v sector_number with
          | (Raise e, v') => (Raise e, v')
          | (Ok true, v') =>
              (let? block := get_block v' bat_entry in
               sector_of_block v' block sector_number, v')
          | (Ok false, v') => (Ok (_empty_sector v'), v')
          end
      end
  end.

(** * Test images

    Files laid out as §6 of the format describes: the file identifier at
    0, the headers at 64 KiB and 128 KiB, the region tables at 192 KiB
    and 256 KiB, then the metadata region and the BAT. *)

Module Image.

Definition le_encode (n : nat) (v : Z) : bytes :=
  map (fun i => byte_of_Z ((v / 256 ^ Z.of_nat i) mod 256)) (seq 0 n).

Definition pad_to (n : Z) (b : bytes) : bytes :=
  (b ++ repeat x00 (Z.to_nat (n - blen b)))%list.

Definition blob (guid_string : string) : bytes :=
  match guid_to_blob guid_string with Ok b => b | Raise _ => [] end.

Definition file_identifier (magic : bytes) : bytes := pad_to 65536 magic.

Definition header_block (magic : bytes) (seq_number log_version version : Z) : bytes :=
  pad_to 65536 (magic ++ le_encode 4 0 ++ le_encode 8 seq_number
                ++ repeat x00 48 ++ le_encode 2 log_version
                ++ le_encode 2 version ++ le_encode 4 0 ++ le_encode 8 0)%list.

Definition region_entry (guid_string : string) (offset length flags : Z) : bytes :=
  (blob guid_string ++ le_encode 8 offset ++ le_encode 4 length
   ++ le_encode 4 flags)%list.

Definition region_table_block (entry_count : Z) (entries : list bytes) : bytes :=
  pad_to 65536 (REGION_TABLE_MAGIC ++ le_encode 4 0 ++ le_encode 4 entry_count
                ++ le_encode 4 0 ++ concat entries)%list.

(** A metadata region: the table in its first 64 KiB, the items after
    it, 256 bytes apart. *)
Fixpoint metadata_entries (items : list (string * bytes)) (i : Z) : bytes :=
  match items with
  | [] => []
  | (guid_string, data) :: rest =>
      (blob guid_string ++ le_encode 4 (65536 + 256 * i) ++ le_encode 4 (blen data)
       ++ le_encode 4 0 ++ le_encode 4 0 ++ metadata_entries rest (i + 1))%list
  end.

Definition metadata_region (items : list (string * bytes)) : bytes :=
  (pad_to 65536 (METADATA_TABLE_MAGIC ++ le_encode 2 0
                 ++ le_encode 2 (Z.of_nat (length items)) ++ repeat x00 20
                 ++ metadata_entries items 0)
   ++ concat (map (fun it => pad_to 256 (snd it)) items))%list.

Definition file_parameters (block_size : Z) (has_parent : bool) : bytes :=
  (le_encode 4 block_size ++ le_encode 4 (if has_parent then 2 else 0))%list.

Definition items_of (block_size virtual_disk_size : Z) (has_parent : bool)
    : list (string * bytes) :=
  [ (METADATA_FILE_PARAMETERS, file_parameters block_size has_parent);
    (METADATA_VIRTUAL_DISK_SIZE, le_encode 8 virtual_disk_size);
    (METADATA_LOGICAL_SECTOR_SIZE, le_encode 4 512);
    (METADATA_PHYSICAL_SECTOR_SIZE, le_encode 4 4096) ].

Definition standard_items (virtual_disk_size : Z) (has_parent : bool)
    : list (string * bytes) :=
  items_of 1048576 virtual_disk_size has_parent.

Definition bat_bytes (words : list Z) : bytes := concat (map (le_encode 8) words).

Definition METADATA_AT : Z := 0x50000.
Definition BAT_AT : Z := 0x70000.

(** A whole image: the metadata region at 320 KiB, the BAT at 448 KiB,
    and [tail] after the BAT. *)
Definition image_of (region_table_a region_table_b header_a header_b : bytes)
    (items : list (string * bytes)) (bat_words : list Z) (tail : bytes) : bytes :=
  (file_identifier VHDX_MAGIC ++ header_a ++ header_b
   ++ region_table_a ++ region_table_b
   ++ pad_to 0x20000 (metadata_region items)
   ++ bat_bytes bat_words ++ tail)%list.

(** The two regions of an image, with the given flags. *)
Definition regions (bat_length flags : Z) : list bytes :=
  [ region_entry REGION_GUID_BAT BAT_AT bat_length flags;
    region_entry REGION_GUID_METADATA METADATA_AT 0x20000 flags ].

Definition image (header_a header_b : bytes) (items : list (string * bytes))
    (bat_words : list Z) (tail : bytes) : bytes :=
  let table := region_table_block 2 (regions (8 * Z.of_nat (length bat_words)) 1) in
  image_of table table header_a header_b items bat_words tail.

Definition good_header (seq_number : Z) : bytes := header_block HEAD_MAGIC seq_number 0 1.

(** A fixed 8 MiB disk whose 16 BAT entries are all zero. *)
Definition fixed_disk : bytes :=
  image (good_header 1) (good_header 2) (standard_items 0x800000 false)
        (repeat 0 16) [].

End Image.

(** * Properties *)

(** ** Reasoning about parsers *)

Lemma pbind_ok {A B} (m : parser A) (k : A -> parser B) st r :
  pbind m k st = Ok r ->
  exists a st1, m st = Ok (a, st1) /\ k a st1 = Ok r.
Proof.
  unfold pbind. destruct (m st) as [[a st1]|e]; [eauto | discriminate].
Qed.

Lemma pbind_step {A B} (m : parser A) (k : A -> parser B) st a st1 :
  m st = Ok (a, st1) -> pbind m k st = k a st1.
Proof. intros H. unfold pbind. now rewrite H. Qed.

Lemma plift_ok {A} (r : result A) st a st1 :
  plift r st = Ok (a, st1) -> r = Ok a /\ st1 = st.
Proof. unfold plift. destruct r; intros H; inversion H; auto. Qed.

Lemma rbind_ok {A B} (r : result A) (k : A -> result B) b :
  rbind r k = Ok b -> exists a, r = Ok a /\ k a = Ok b.
Proof. destruct r; simpl; [eauto | discriminate]. Qed.

(** Splits a hypothesis [(x <- m ;; k) st = Ok r] into its two steps. *)
Ltac bind_inv H :=
  let a := fresh "a" in
  let st := fresh "st" in
  let H1 := fresh "Hstep" in
  apply pbind_ok in H; destruct H as (a & st & H1 & H).

Lemma bytes_eqb_refl (a : bytes) : bytes_eqb a a = true.
Proof.
  induction a as [|x a IH]; simpl; [reflexivity|].
  rewrite IH, (Byte.byte_dec_lb (eq_refl x)). reflexivity.
Qed.

Lemma bytes_eqb_eq (a b : bytes) : bytes_eqb a b = true <-> a = b.
Proof.
  split; [|intros ->; apply bytes_eqb_refl].
  revert b. induction a as [|x a IH]; intros [|y b]; simpl; try discriminate; auto.
  intros H. apply andb_prop in H as [Hx Hab].
  apply Byte.byte_dec_bl in Hx. apply IH in Hab. congruence.
Qed.

(** A successful [__init__] went through its four phases. *)
Lemma VhdxFile_init_phases file ignore_faults fallback_metas v l :
  VhdxFile_init file ignore_faults fallback_metas = Ok (v, l) ->
  exists current st1 region_table st2 mu st3 st4,
    read_headers ignore_faults (initial file) = Ok (current, st1)
    /\ read_region_tables st1 = Ok (region_table, st2)
    /\ load_metas ignore_faults fallback_metas region_table st2 = Ok (mu, st3)
    /\ configure file current region_table (fst mu) (snd mu) st3 = Ok (v, st4).
Proof.
  unfold VhdxFile_init, with_file, VhdxFile_init_parser. intros H.
  destruct (pbind _ _ (initial file)) as [[v' st4]|e] eqn:E; [|discriminate].
  inversion H; subst; clear H.
  bind_inv E. bind_inv E. bind_inv E.
  repeat eexists; eauto.
Qed.

(** What [configure] stores. *)
Lemma configure_fields file current region_table metas using_fallback st v st' :
  configure file current region_table metas using_fallback st = Ok (v, st') ->
  _file v = file /\ _header v = current /\ _region_table v = region_table
  /\ _metas v = metas /\ _using_fallback_metas v = using_fallback
  /\ _sector_bitmap_cache v = []
  /\ _empty_block v = zeros (_block_size v)
  /\ _empty_sector v = zeros (_logical_sector_size v)
  /\ (exists bs, metas_get metas "BlockSize" = Some bs /\ as_int bs = Ok (_block_size v))
  /\ (exists lss, metas_get metas "LogicalSectorSize" = Some lss
                  /\ as_int lss = Ok (_logical_sector_size v))
  /\ py_floordiv (Z.shiftl 1 23 * _logical_sector_size v) (_block_size v)
     = Ok (_chunk_ratio v).
Proof.
  unfold configure. intros H.
  bind_inv H. apply plift_ok in Hstep as [Hlss ->].
  bind_inv H. apply plift_ok in Hstep as [Hpss ->].
  bind_inv H. apply plift_ok in Hstep as [Hbs ->].
  bind_inv H. apply plift_ok in Hstep as [Hcr ->].
  bind_inv H. bind_inv H.
  bind_inv H. apply plift_ok in Hstep1 as [Hl ->].
  bind_inv H. apply plift_ok in Hstep1 as [Hb ->].
  inversion H; subst; clear H. simpl.
  unfold metas_item, dict_item in Hlss, Hbs.
  destruct (metas_get metas "LogicalSectorSize") as [lss|] eqn:El; [|discriminate].
  destruct (metas_get metas "BlockSize") as [bs|] eqn:Eb; [|discriminate].
  inversion Hlss; inversion Hbs; subst.
  repeat split; eauto.
  apply rbind_ok in Hcr as (p & Hp & Hq).
  unfold floordiv_by in Hq. unfold shifted_23 in Hp.
  destruct a as [z|b| |]; simpl in Hl; inversion Hl; subst;
    inversion Hp; subst; rewrite Hb in Hq; simpl in Hq; exact Hq.
Qed.

(** ** The current header *)

(** The vote between two headers: the greater sequence number wins, and
    the second header wins a tie. *)
Definition header_vote (header_a header_b chosen : Header) : Prop :=
  (sequence_number header_b < sequence_number header_a -> chosen = header_a)
  /\ (sequence_number header_a < sequence_number header_b -> chosen = header_b)
  /\ (sequence_number header_a = sequence_number header_b -> chosen = header_b).

Lemma current_header_vote header_a header_b :
  header_vote header_a header_b (current_header header_a header_b).
Proof.
  unfold header_vote, current_header.
  destruct (Z.ltb_spec (sequence_number header_b) (sequence_number header_a));
    repeat split; intros; auto; lia.
Qed.

(** The two headers of a file as [__init__] parses them, after the file
    identifier. *)
Definition parsed_headers (ignore_faults : bool) : parser (Header * Header) :=
  file_identifier <- FileIdentifier_from_stream ignore_faults ;;
  header_a <- Header_from_stream false ;;
  header_b <- Header_from_stream false ;;
  pret (header_a, header_b).

Lemma run_ok {A} file (p : parser A) a :
  run file p = Ok a -> exists st, p (initial file) = Ok (a, st).
Proof.
  unfold run. destruct (p (initial file)) as [[a' st]|e]; intros H;
    inversion H; eauto.
Qed.

Lemma read_headers_parsed ignore_faults st header_a header_b st' :
  parsed_headers ignore_faults st = Ok ((header_a, header_b), st') ->
  exists st'', read_headers ignore_faults st
               = Ok (current_header header_a header_b, st'').
Proof.
  unfold parsed_headers, read_headers. intros H.
  bind_inv H. bind_inv H. bind_inv H. inversion H; subst; clear H.
  rewrite (pbind_step _ _ _ _ _ Hstep), (pbind_step _ _ _ _ _ Hstep0),
    (pbind_step _ _ _ _ _ Hstep1).
  unfold pbind, log, pret. eauto.
Qed.

(** C7. Whenever the file identifier and the two headers of a file parse,
    the header phase of [__init__] returns the header with the strictly
    greater sequence number, the second one when the two numbers are
    equal, and every [VhdxFile] opened from that file has it as its
    header. *)
Theorem header_selection file ignore_faults header_a header_b :
  run file (parsed_headers ignore_faults) = Ok (header_a, header_b) ->
  exists chosen,
    run file (read_headers ignore_faults) = Ok chosen
    /\ header_vote header_a header_b chosen
    /\ forall fallback_metas v l,
         VhdxFile_init file ignore_faults fallback_metas = Ok (v, l) ->
         header v = chosen.
Proof.
  intros Hp. apply run_ok in Hp as [st Hp].
  apply read_headers_parsed in Hp as [st' Hread].
  exists (current_header header_a header_b).
  split; [unfold run; now rewrite Hread|].
  split; [apply current_header_vote|].
  intros fb v l Hopen.
  apply VhdxFile_init_phases in Hopen
    as (cur & s1 & rt & s2 & mu & s3 & s4 & Hh & _ & _ & Hc).
  rewrite Hread in Hh. inversion Hh; subst.
  apply configure_fields in Hc. unfold header. tauto.
Qed.

Module HeaderExamples.

Definition header_of (seq_number log_version : Z) : Header :=
  {| h_seq_number := seq_number; h_file_write_guid := repeat x00 16;
     h_data_write_guid := repeat x00 16; h_log_guid := repeat x00 16;
     h_log_version := log_version; h_log_length := 0; h_log_offset := 0;
     h_version := 1 |}.

(** A has sequence number 1 and B has 2: B is current. *)
Lemma header_selection_witness :
  exists chosen,
    run Image.fixed_disk (read_headers false) = Ok chosen
    /\ header_vote (header_of 1 0) (header_of 2 0) chosen
    /\ forall fallback_metas v l,
         VhdxFile_init Image.fixed_disk false fallback_metas = Ok (v, l) ->
         header v = chosen.
Proof.
  apply (header_selection Image.fixed_disk false (header_of 1 0) (header_of 2 0)).
  vm_compute. reflexivity.
Defined.

(** Equal sequence numbers: the two headers differ in their log version
    only, and the second is the one kept. *)
Definition tie_disk : bytes :=
  Image.image (Image.header_block HEAD_MAGIC 5 1 1) (Image.header_block HEAD_MAGIC 5 2 1)
    (Image.standard_items 0x800000 false) (repeat 0 16) [].

Example tie_selects_second :
  match VhdxFile_init tie_disk false None with
  | Ok (v, _) => header v = header_of 5 2
  | Raise _ => False
  end.
Proof. vm_compute. reflexivity. Qed.

(** A is newer: A is kept. *)
Definition newer_first_disk : bytes :=
  Image.image (Image.header_block HEAD_MAGIC 9 1 1) (Image.header_block HEAD_MAGIC 3 2 1)
    (Image.standard_items 0x800000 false) (repeat 0 16) [].

Example greater_selects_first :
  match VhdxFile_init newer_first_disk false None with
  | Ok (v, _) => header v = header_of 9 1
  | Raise _ => False
  end.
Proof. vm_compute. reflexivity. Qed.

End HeaderExamples.

(** ** The comparison of the region tables *)

(** Two tables of the same size in which every key of the first is a key
    of the second with the same GUID, offset and length; the required
    flags are left free. *)
Definition agree_modulo_required (table_a table_b : RegionTable) : Prop :=
  length table_a = length table_b
  /\ forall key ea, bdict_get table_a key = Some ea ->
       exists eb, bdict_get table_b key = Some eb
                  /\ rte_guid ea = rte_guid eb
                  /\ rte_offset ea = rte_offset eb
                  /\ rte_length ea = rte_length eb.

Lemma bdict_get_in {V} (d : bdict V) (k : bytes) :
  In k (map fst d) -> exists v, bdict_get d k = Some v.
Proof.
  induction d as [|[k' v'] d IH]; simpl; [tauto|].
  intros Hin. destruct (bytes_eqb k' k) eqn:E; [eauto|].
  destruct Hin as [->|Hin]; [|auto].
  rewrite bytes_eqb_refl in E. discriminate.
Qed.

Lemma RegionTableEntry_eq_fields ea eb :
  rte_guid ea = rte_guid eb -> rte_offset ea = rte_offset eb ->
  rte_length ea = rte_length eb -> RegionTableEntry_eq ea eb = true.
Proof.
  intros Hg Ho Hl. unfold RegionTableEntry_eq.
  rewrite Hg, Ho, Hl, bytes_eqb_refl, !Z.eqb_refl. reflexivity.
Qed.

Lemma compare_region_entries_agree keys table_a table_b :
  (forall k, In k keys -> In k (map fst table_a)) ->
  agree_modulo_required table_a table_b ->
  compare_region_entries keys table_a table_b = Ok tt.
Proof.
  intros Hsub [_ Hagree].
  induction keys as [|key keys IH]; simpl; [reflexivity|].
  destruct (bdict_get_in table_a key) as [ea Hea]; [apply Hsub; now left|].
  destruct (Hagree key ea Hea) as (eb & Heb & Hg & Ho & Hl).
  unfold dict_item. rewrite Hea, Heb. simpl.
  rewrite (RegionTableEntry_eq_fields ea eb Hg Ho Hl). simpl.
  apply IH. intros k Hk. apply Hsub. now right.
Qed.

Lemma compare_region_tables_agree table_a table_b :
  agree_modulo_required table_a table_b ->
  compare_region_tables table_a table_b = Ok table_a.
Proof.
  intros Hagree. unfold compare_region_tables.
  destruct Hagree as [Hlen Hk] eqn:E. rewrite Hlen, Nat.eqb_refl. simpl.
  rewrite compare_region_entries_agree; auto.
Qed.

(** The two region tables of a file as [__init__] parses them. *)
Definition parsed_region_tables (ignore_faults : bool)
    : parser (RegionTable * RegionTable) :=
  read_headers ignore_faults ;;;
  region_table_a <- RegionTable_from_stream false ;;
  region_table_b <- RegionTable_from_stream false ;;
  pret (region_table_a, region_table_b).

(** C10. When the two region tables of a file agree on GUID, offset and
    length for every key, whatever their required flags are, the
    comparison in [__init__] accepts them, the first copy is the one kept,
    and it is the region table of every [VhdxFile] opened from the file. *)
Theorem region_tables_compared_without_required_flag
    file ignore_faults table_a table_b :
  run file (parsed_region_tables ignore_faults) = Ok (table_a, table_b) ->
  agree_modulo_required table_a table_b ->
  compare_region_tables table_a table_b = Ok table_a
  /\ run file (read_headers ignore_faults ;;; read_region_tables) = Ok table_a
  /\ forall fallback_metas v l,
       VhdxFile_init file ignore_faults fallback_metas = Ok (v, l) ->
       region_table v = table_a.
Proof.
  intros Hp Hagree.
  pose proof (compare_region_tables_agree _ _ Hagree) as Hcmp.
  apply run_ok in Hp as [st Hp]. unfold parsed_region_tables in Hp.
  bind_inv Hp. bind_inv Hp. bind_inv Hp. inversion Hp; subst; clear Hp.
  assert (Hrt : read_region_tables st0 = Ok (table_a, st)).
  { unfold read_region_tables.
    rewrite (pbind_step _ _ _ _ _ Hstep0), (pbind_step _ _ _ _ _ Hstep1).
    unfold plift. now rewrite Hcmp. }
  split; [exact Hcmp|]. split.
  - unfold run. rewrite (pbind_step _ _ _ _ _ Hstep). now rewrite Hrt.
  - intros fb v l Hopen.
    apply VhdxFile_init_phases in Hopen
      as (cur & s1 & rt & s2 & mu & s3 & s4 & Hh & Hr & _ & Hc).
    rewrite Hstep in Hh. inversion Hh; subst.
    rewrite Hrt in Hr. inversion Hr; subst.
    apply configure_fields in Hc. unfold region_table. tauto.
Qed.

Module RegionTableExamples.

(** The first copy marks both regions as required, the second marks
    neither. *)
Definition flags_differ_disk : bytes :=
  Image.image_of (Image.region_table_block 2 (Image.regions 128 1))
                 (Image.region_table_block 2 (Image.regions 128 0))
                 (Image.good_header 1) (Image.good_header 2)
                 (Image.standard_items 0x800000 false) (repeat 0 16) [].

Definition table_with (required : bool) : RegionTable :=
  [ (Image.blob REGION_GUID_BAT,
     {| rte_guid := Image.blob REGION_GUID_BAT; rte_offset := 0x70000;
        rte_length := 128; rte_required := required |});
    (Image.blob REGION_GUID_METADATA,
     {| rte_guid := Image.blob REGION_GUID_METADATA; rte_offset := 0x50000;
        rte_length := 0x20000; rte_required := required |}) ].

Lemma tables_agree : agree_modulo_required (table_with true) (table_with false).
Proof.
  split; [reflexivity|]. intros key ea. unfold table_with, dict_get.
  destruct (bytes_eqb (Image.blob REGION_GUID_BAT) key) eqn:E1.
  - intros H; inversion H; subst. eexists. split; [reflexivity|]. auto.
  - destruct (bytes_eqb (Image.blob REGION_GUID_METADATA) key) eqn:E2;
      [|discriminate].
    intros H; inversion H; subst. eexists. split; [reflexivity|]. auto.
Defined.

Lemma region_tables_compared_without_required_flag_witness :
  compare_region_tables (table_with true) (table_with false) = Ok (table_with true)
  /\ run flags_differ_disk (read_headers false ;;; read_region_tables)
     = Ok (table_with true)
  /\ forall fallback_metas v l,
       VhdxFile_init flags_differ_disk false fallback_metas = Ok (v, l) ->
       region_table v = table_with true.
Proof.
  apply (region_tables_compared_without_required_flag
           flags_differ_disk false (table_with true) (table_with false)).
  - vm_compute. reflexivity.
  - exact tables_agree.
Defined.

(** The open of that file goes through. *)
Example flags_differ_disk_opens :
  match VhdxFile_init flags_differ_disk false None with
  | Ok (v, _) => region_table v = table_with true
  | Raise _ => False
  end.
Proof. vm_compute. reflexivity. Qed.

End RegionTableExamples.

(** ** Opened containers *)

(** The fields of a [VhdxFile] other than the file, the cache and the two
    zero buffers. *)
Definition summary (v : VhdxFile) :=
  (_header v, _region_table v, _using_fallback_metas v, _metas v,
   _logical_sector_size v, _physical_sector_size v, _block_size v,
   _chunk_ratio v).

(** [__init__] returns [v] as soon as its result has the summary of [v]
    and [v] has the file, an empty cache and zero buffers of the right
    sizes. *)
Lemma VhdxFile_init_by_summary file ignore_faults fallback_metas v0 l0 :
  _file v0 = file ->
  _sector_bitmap_cache v0 = [] ->
  _empty_block v0 = zeros (_block_size v0) ->
  _empty_sector v0 = zeros (_logical_sector_size v0) ->
  match VhdxFile_init file ignore_faults fallback_metas with
  | Ok (v, l) => summary v = summary v0 /\ l = l0
  | Raise _ => False
  end ->
  VhdxFile_init file ignore_faults fallback_metas = Ok (v0, l0).
Proof.
  intros Hf Hc Hb Hs H.
  destruct (VhdxFile_init file ignore_faults fallback_metas) as [[v l]|e] eqn:E;
    [|contradiction].
  destruct H as [Hsum ->].
  apply VhdxFile_init_phases in E
    as (cur & s1 & rt & s2 & mu & s3 & s4 & _ & _ & _ & Hcfg).
  apply configure_fields in Hcfg
    as (Hfile & _ & _ & _ & _ & Hcache & Heb & Hes & _).
  destruct v, v0; unfold summary in Hsum; simpl in *.
  inversion Hsum; subst. reflexivity.
Qed.

(** The invariants of an opened container that the methods rely on. *)
Record consistent (v : VhdxFile) : Prop := {
  cons_empty_block : _empty_block v = zeros (_block_size v);
  cons_empty_sector : _empty_sector v = zeros (_logical_sector_size v);
  cons_block_size :
    exists bs, metas_get (_metas v) "BlockSize" = Some bs /\ as_int bs = Ok (_block_size v);
  cons_sector_size :
    exists lss, metas_get (_metas v) "LogicalSectorSize" = Some lss
                /\ as_int lss = Ok (_logical_sector_size v);
  cons_chunk_ratio :
    py_floordiv (Z.shiftl 1 23 * _logical_sector_size v) (_block_size v)
    = Ok (_chunk_ratio v)
}.

Lemma VhdxFile_init_consistent file ignore_faults fallback_metas v l :
  VhdxFile_init file ignore_faults fallback_metas = Ok (v, l) -> consistent v.
Proof.
  intros H. apply VhdxFile_init_phases in H
    as (cur & s1 & rt & s2 & mu & s3 & s4 & _ & _ & _ & Hcfg).
  apply configure_fields in Hcfg
    as (_ & _ & _ & Hm & _ & _ & Heb & Hes & Hbs & Hlss & Hcr).
  rewrite <- Hm in Hbs, Hlss. constructor; assumption.
Qed.

Lemma cache_put_consistent v chunk_index bitmap :
  consistent v -> consistent (cache_put v chunk_index bitmap).
Proof. intros [? ? ? ? ?]. constructor; assumption. Qed.

(** The methods change nothing but the cache. *)
Lemma load_sector_bitmap_state v chunk_index index r v' :
  load_sector_bitmap v chunk_index index = Ok (r, v') ->
  v' = v \/ exists bitmap, v' = cache_put v chunk_index bitmap.
Proof.
  unfold load_sector_bitmap.
  destruct (dict_get _ _ _); [intros H; inversion H; auto|].
  destruct (on_file v _) as [en|]; cbn [rbind]; [|discriminate].
  destruct (_ =? BAT_SB_BLOCK_NOT_PRESENT); [intros H; inversion H; eauto|].
  destruct (_ =? BAT_SB_BLOCK_PRESENT); [|discriminate].
  destruct (on_file v _) as [sb|]; cbn [rbind]; [|discriminate].
  intros H; inversion H; eauto.
Qed.

Lemma is_sector_allocated_consistent v sector_number :
  consistent v -> consistent (snd (is_sector_allocated v sector_number)).
Proof.
  intros Hc. unfold is_sector_allocated.
  destruct (check_sector_number v sector_number); [|exact Hc].
  destruct (is_differencing v) as [hp|]; [|exact Hc].
  destruct (negb (truthy hp)); [exact Hc|].
  unfold sector_bit.
  match goal with
  | |- context [match ?r with _ => _ end] => destruct r as [[o v']|] eqn:E
  end; [|exact Hc].
  assert (Hv' : consistent v').
  { destruct (py_floordiv _ _) as [q|]; cbn [rbind] in E; [|discriminate].
    destruct (py_floordiv q _) as [q2|]; cbn [rbind] in E; [|discriminate].
    apply load_sector_bitmap_state in E as [->|[b ->]];
      [exact Hc | now apply cache_put_consistent]. }
  destruct o; exact Hv'.
Qed.

Lemma get_sector_consistent v sector_number :
  consistent v -> consistent (snd (get_sector v sector_number)).
Proof.
  intros Hc. unfold get_sector.
  destruct (check_sector_number v sector_number); [|exact Hc].
  destruct (get_bat_entry_for_logical_sector v sector_number); [|exact Hc].
  pose proof (is_sector_allocated_consistent v sector_number Hc) as H.
  destruct (is_sector_allocated v sector_number) as [[[|]|] v']; exact H.
Qed.

Module Disks.

(** The metadata of the test images. *)
Definition standard_metas (virtual_disk_size : Z) (has_parent : bool) : Metas :=
  [ ("BlockSize", MInt 1048576);
    ("LeaveBlocksAllocated", MBool false);
    ("HasParent", MBool has_parent);
    ("VirtualDiskSize", MInt virtual_disk_size);
    ("LogicalSectorSize", MInt 512);
    ("PhysicalSectorSize", MInt 4096) ].

Definition standard_regions (bat_length : Z) : RegionTable :=
  [ (Image.blob REGION_GUID_BAT,
     {| rte_guid := Image.blob REGION_GUID_BAT; rte_offset := 0x70000;
        rte_length := bat_length; rte_required := true |});
    (Image.blob REGION_GUID_METADATA,
     {| rte_guid := Image.blob REGION_GUID_METADATA; rte_offset := 0x50000;
        rte_length := 0x20000; rte_required := true |}) ].

(** The container that opening an image built by [Image.image] with
    headers 1 and 2 gives. *)
Definition container (file : bytes) (bat_length virtual_disk_size : Z)
    (has_parent : bool) : VhdxFile :=
  {| _file := file;
     _header := HeaderExamples.header_of 2 0;
     _region_table := standard_regions bat_length;
     _using_fallback_metas := false;
     _metas := standard_metas virtual_disk_size has_parent;
     _logical_sector_size := 512;
     _physical_sector_size := MInt 4096;
     _block_size := 1048576;
     _chunk_ratio := 4096;
     _sector_bitmap_cache := [];
     _empty_block := zeros 1048576;
     _empty_sector := zeros 512 |}.

Definition open_log : list string :=
  ["Reading file header section"; "Reading header"; "Reading header";
   "The first header is current."; "Reading region table";
   "Reading region table entries"; "Reading region table";
   "Reading region table entries"; "Metadata region at offset";
   "Chunk Ratio = (2**23 * LogicalSectorSize) / BlockSize"; "Chunk Ratio"].

(** The fixed 8 MiB disk. *)
Definition fixed : VhdxFile := container Image.fixed_disk 128 0x800000 false.

Lemma fixed_opened : VhdxFile_init Image.fixed_disk false None = Ok (fixed, open_log).
Proof.
  apply VhdxFile_init_by_summary; [reflexivity ..|].
  vm_compute. split; reflexivity.
Qed.

End Disks.

(** ** Reading BAT entries *)

(** The 64-bit word at a position of a file, as [read_uint64] gets it. *)
Definition word_at (d : bytes) (p : Z) : result Z :=
  let raw := firstn 8 (skipn (Z.to_nat p) d) in
  if blen raw <? 8 then Raise (ValueError ShortRead) else Ok (le_decode raw).

Lemma read_uint64_at d p l :
  read_uint64 (PState (Stream d p) l)
  = match word_at d p with
    | Ok w => Ok (w, PState (Stream d (p + 8)) l)
    | Raise e => Raise e
    end.
Proof.
  unfold read_uint64, read_raw, pbind, f_read, stream_read, word_at.
  cbn [s_pos s_data st_stream st_log].
  change (8 <? 0) with false. change (Z.to_nat 8) with 8%nat. cbv iota.
  set (raw := firstn 8 (skipn (Z.to_nat p) d)).
  destruct (Z.ltb_spec (blen raw) 8) as [Hlt|Hge]; [reflexivity|].
  unfold pret. repeat f_equal.
  assert (length raw <= 8)%nat by apply firstn_le_length.
  unfold blen in *. lia.
Qed.

Lemma BatEntry_from_stream_at d p l :
  BatEntry_from_stream (PState (Stream d p) l)
  = match word_at d p with
    | Ok w =>
        match BatEntry_decode w with
        | Ok e => Ok (e, PState (Stream d (p + 8)) l)
        | Raise e => Raise e
        end
    | Raise e => Raise e
    end.
Proof.
  unfold BatEntry_from_stream, pbind. rewrite read_uint64_at.
  destruct (word_at d p); [|reflexivity].
  unfold plift. destruct (BatEntry_decode a); reflexivity.
Qed.

(** The word of a file at a position reached by [seek]. *)
Lemma run_seek_read file p raw :
  run file (f_seek p ;;; read_uint64) = Ok raw ->
  0 <= p < 2 ^ 63 /\ word_at file p = Ok raw.
Proof.
  unfold run, pbind, f_seek, stream_seek, initial.
  cbn [s_pos s_data st_stream st_log].
  destruct (Z.ltb_spec p 0); [discriminate|].
  destruct (Z.leb_spec (2 ^ 63) p); [discriminate|].
  rewrite read_uint64_at. destruct (word_at file p); [|discriminate].
  intros Heq; inversion Heq. split; [lia | reflexivity].
Qed.

Lemma f_seek_ok p d q l :
  0 <= p < 2 ^ 63 ->
  f_seek p (PState (Stream d q) l) = Ok (tt, PState (Stream d p) l).
Proof.
  intros [H0 H1]. unfold f_seek, stream_seek.
  cbn [s_pos s_data st_stream st_log].
  destruct (Z.ltb_spec p 0); [lia|].
  destruct (Z.leb_spec (2 ^ 63) p); [lia|]. reflexivity.
Qed.

(** A raw BAT value whose state bits are 4 or 5. *)
Definition undefined_state (raw : Z) : Prop :=
  Z.land raw 0x07 = 4 \/ Z.land raw 0x07 = 5.

Lemma BatEntry_decode_undefined raw :
  undefined_state raw ->
  BatEntry_decode raw = Raise (ValueError (InvalidBatState (Z.land raw 0x07))).
Proof.
  unfold BatEntry_decode. intros [H|H]; rewrite H; reflexivity.
Qed.

(** ** [get_sector] reads the BAT entry first *)

(** C9. Whenever reading the payload BAT entry of a sector raises, in
    particular on a differencing container and an in-range sector,
    [get_sector] raises that same exception and leaves the object as it
    was: the allocation of the sector is not looked at, so the shared
    empty sector is not returned even where [is_sector_allocated] answers
    false. *)
Theorem get_sector_raises_bat_entry_error v sector_number e :
  get_bat_entry_for_logical_sector v sector_number = Raise e ->
  get_sector v sector_number = (Raise e, v).
Proof.
  intros H. unfold get_sector.
  destruct (check_sector_number v sector_number) as [u|e'] eqn:E.
  - rewrite H. reflexivity.
  - unfold get_bat_entry_for_logical_sector, on_file, run, pbind, plift in H.
    rewrite E in H. inversion H. reflexivity.
Qed.

(** ** BAT entries in state 4 or 5 *)

Section UndefinedState.
Variables (d : bytes) (base : Z) (l : list string) (raw j : Z).
Hypothesis Hword : word_at d (base + 8 * j) = Ok raw.
Hypothesis Hundef : undefined_state raw.

Let at_entry (c : Z) : pstate := PState (Stream d (base + 8 * c)) l.

(** Reading the entry at raw index [c] either raises or moves on to
    [c + 1]; it raises at [j]. *)
Lemma entry_step c :
  (exists e, BatEntry_from_stream (at_entry c) = Raise e)
  \/ (exists entry,
        BatEntry_from_stream (at_entry c) = Ok (entry, at_entry (c + 1))
        /\ j <> c).
Proof.
  unfold at_entry. rewrite BatEntry_from_stream_at.
  destruct (Z.eq_dec j c) as [->|Hne].
  - rewrite Hword, (BatEntry_decode_undefined raw Hundef). eauto.
  - destruct (word_at d (base + 8 * c)) as [w|e]; [|eauto].
    destruct (BatEntry_decode w) as [entry|e]; [|eauto].
    right. exists entry. split; [|exact Hne].
    replace (base + 8 * (c + 1)) with (base + 8 * c + 8) by lia.
    reflexivity.
Qed.

Lemma iter_bat_loop_undefined chunk_ratio n :
  forall i c, c <= j < c + Z.of_nat n ->
  exists e, snd (iter_bat_loop chunk_ratio n i (at_entry c)) = Some e.
Proof.
  induction n as [|n IH]; intros i c Hj; [lia|].
  cbn [iter_bat_loop].
  assert (Hnext : forall c', c' <= j < c' + Z.of_nat n ->
            forall entry,
            exists e,
              snd (let '(l0, err) :=
                     iter_bat_loop chunk_ratio n (i + 1) (at_entry c') in
                   (entry :: l0, err)) = Some e).
  { intros c' Hc' entry. destruct (IH (i + 1) c' Hc') as [e He].
    destruct (iter_bat_loop chunk_ratio n (i + 1) (at_entry c')) as [l0 err].
    simpl in *. eauto. }
  assert (Hplain :
    exists e,
      snd (match BatEntry_from_stream (at_entry c) with
           | Raise e => ([], Some e)
           | Ok (entry, st') =>
               let '(l0, err) := iter_bat_loop chunk_ratio n (i + 1) st' in
               (entry :: l0, err)
           end) = Some e).
  { destruct (entry_step c) as [[e He]|(entry & He & Hne)]; rewrite He.
    - simpl. eauto.
    - apply Hnext. lia. }
  unfold pbind at 1.
  destruct (0 <? i); [|unfold pret; exact Hplain].
  unfold pbind at 1. unfold plift, py_mod.
  destruct (chunk_ratio + 1 =? 0); [simpl; eauto|].
  destruct (i mod (chunk_ratio + 1) =? 0); [|unfold pret; exact Hplain].
  unfold pbind at 1.
  destruct (entry_step c) as [[e He]|(entry & He & Hne)]; rewrite He;
    [simpl; eauto|].
  unfold pret.
  destruct (entry_step (c + 1)) as [[e He']|(entry' & He' & Hne')];
    rewrite He'; [simpl; eauto|].
  replace (c + 1 + 1) with (c + 2) by lia.
  apply Hnext. lia.
Qed.
End UndefinedState.

(** C8. A raw BAT value whose low three bits are 4 or 5 does not decode:
    [BatEntry.from_stream] raises [ValueError]. So
    [get_bat_entry_for_logical_sector] raises on a sector whose BAT
    entry, payload entry as it is, holds such a value, and
    [iter_bat_payload_entries] ends with an exception whenever an entry
    of the BAT region, payload or sector bitmap, holds one. *)
Theorem undefined_bat_state_raises raw :
  undefined_state raw ->
  BatEntry_decode raw = Raise (ValueError (InvalidBatState (Z.land raw 0x07)))
  /\ (forall v sector_number bat index,
        check_sector_number v sector_number = Ok tt ->
        bat_region v = Ok bat ->
        _get_bat_index_for_logical_sector v sector_number = Ok index ->
        run (_file v) (f_seek (rte_offset bat + index * 8) ;;; read_uint64) = Ok raw ->
        get_bat_entry_for_logical_sector v sector_number
        = Raise (ValueError (InvalidBatState (Z.land raw 0x07))))
  /\ (forall v bat j,
        bat_region v = Ok bat ->
        0 <= j < rte_length bat / 8 ->
        run (_file v) (f_seek (rte_offset bat + 8 * j) ;;; read_uint64) = Ok raw ->
        exists e, snd (iter_bat_payload_entries v) = Some e).
Proof.
  intros Hundef. split; [apply BatEntry_decode_undefined; exact Hundef|]. split.
  - intros v s bat index Hcheck Hbat Hindex Hread.
    apply run_seek_read in Hread as [Hrange Hword].
    unfold get_bat_entry_for_logical_sector, on_file, run, pbind, plift.
    rewrite Hcheck, Hbat, Hindex.
    unfold initial. rewrite (f_seek_ok _ _ _ _ Hrange), BatEntry_from_stream_at.
    rewrite Hword, (BatEntry_decode_undefined raw Hundef). reflexivity.
  - intros v bat j Hbat Hj Hread.
    apply run_seek_read in Hread as [Hrange Hword].
    unfold iter_bat_payload_entries, pbind, plift. rewrite Hbat.
    unfold initial.
    destruct (f_seek (rte_offset bat) (PState (Stream (_file v) 0) []))
      as [[u st]|e] eqn:Eseek; [|simpl; eauto].
    unfold f_seek, stream_seek in Eseek. cbn [s_pos s_data st_stream st_log] in Eseek.
    destruct (rte_offset bat <? 0); [discriminate|].
    destruct (2 ^ 63 <=? rte_offset bat); [discriminate|].
    inversion Eseek; subst; clear Eseek.
    unfold py_floordiv, pret. change (8 =? 0) with false. cbv iota.
    pose proof (iter_bat_loop_undefined (_file v) (rte_offset bat) [] raw j
                  Hword Hundef (_chunk_ratio v)
                  (Z.to_nat (rte_length bat / 8)) 0 0) as Hloop.
    cbv beta zeta in Hloop.
    rewrite Z.mul_0_r, Z.add_0_r in Hloop. apply Hloop.
    rewrite Z2Nat.id; lia.
Qed.

Module DifferencingExamples.

(** A differencing disk whose first payload BAT entry has state 4 (and
    the offset 1 MiB); the 4096 entries after it, the sector bitmap entry
    of chunk 0 among them, are zero. *)
Definition bad_payload_disk : bytes :=
  Image.image (Image.good_header 1) (Image.good_header 2)
    (Image.standard_items 0x800000 true) (0x100004 :: repeat 0 4096) [].

Definition bad_payload : VhdxFile :=
  Disks.container bad_payload_disk 32776 0x800000 true.

Lemma bad_payload_opened :
  VhdxFile_init bad_payload_disk false None = Ok (bad_payload, Disks.open_log).
Proof.
  apply VhdxFile_init_by_summary; [reflexivity ..|].
  vm_compute. split; reflexivity.
Qed.

Definition bat_entry_of_bad_payload : RegionTableEntry :=
  {| rte_guid := Image.blob REGION_GUID_BAT; rte_offset := 0x70000;
     rte_length := 32776; rte_required := true |}.

Lemma undefined_bat_state_raises_witness :
  BatEntry_decode 0x100004 = Raise (ValueError (InvalidBatState 4))
  /\ get_bat_entry_for_logical_sector bad_payload 0
     = Raise (ValueError (InvalidBatState 4))
  /\ exists e, snd (iter_bat_payload_entries bad_payload) = Some e.
Proof.
  destruct (undefined_bat_state_raises 0x100004) as (H1 & H2 & H3);
    [left; reflexivity|].
  split; [exact H1|]. split.
  - apply (H2 bad_payload 0 bat_entry_of_bad_payload 0); vm_compute; reflexivity.
  - apply (H3 bad_payload bat_entry_of_bad_payload 0).
    + vm_compute; reflexivity.
    + vm_compute. split; [discriminate | reflexivity].
    + vm_compute; reflexivity.
Defined.

(** The iteration stops at that first entry, with nothing yielded. *)
Example iteration_stops_at_state_4 :
  iter_bat_payload_entries bad_payload
  = ([], Some (ValueError (InvalidBatState 4))).
Proof. vm_compute. reflexivity. Qed.

(** Sector 0 is not allocated in this layer (the sector bitmap of chunk 0
    is not present), and yet [get_sector 0] raises the error of the
    payload entry. *)
Lemma get_sector_raises_bat_entry_error_witness :
  fst (is_sector_allocated bad_payload 0) = Ok false
  /\ get_sector bad_payload 0
     = (Raise (ValueError (InvalidBatState 4)), bad_payload).
Proof.
  split; [vm_compute; reflexivity|].
  apply (get_sector_raises_bat_entry_error bad_payload 0
           (ValueError (InvalidBatState 4))).
  vm_compute. reflexivity.
Defined.

End DifferencingExamples.

(** ** The length of a block *)

Lemma blen_zeros n : 0 <= n -> blen (zeros n) = n.
Proof. intros H. unfold blen, zeros. rewrite repeat_length. lia. Qed.

(** [f.read(count)] gives [count] bytes, or what is left of the file. *)
Lemma stream_read_length d p n :
  0 <= n -> 0 <= p ->
  blen (fst (stream_read n (Stream d p))) = Z.min n (Z.max 0 (blen d - p)).
Proof.
  intros Hn Hp. unfold stream_read. cbn [s_pos s_data fst].
  destruct (Z.ltb_spec n 0); [lia|].
  unfold blen. rewrite length_firstn, length_skipn. lia.
Qed.

(** The entries for which [get_block] answers with the shared empty
    block. *)
Definition reads_empty (e : BatEntry) : bool :=
  (state_value (be_state e) =? state_value BAT_PAYLOAD_BLOCK_ZERO)
  || (state_in (be_state e)
        [BAT_PAYLOAD_BLOCK_NOT_PRESENT; BAT_PAYLOAD_BLOCK_UNDEFINED;
         BAT_PAYLOAD_BLOCK_UNMAPPED]
      && (be_offset e =? 0)).

(** C6, as amended. On an opened container with a non-negative
    [BlockSize], [get_block] returns the shared empty block, which has
    exactly [BlockSize] bytes, when the state is Zero, or one of
    NotPresent, Undefined, Unmapped with the offset 0, whatever the
    offset of a Zero entry is. In every other case, for an offset within
    the file, it returns what the file holds from the offset on, at most
    [BlockSize] bytes of it: exactly [BlockSize] bytes only when the file
    is long enough. For an offset beyond the end of the file, where the
    seek is the file system's to accept or to refuse, the call returns
    the empty buffer or raises. *)
Theorem get_block_length v e :
  consistent v ->
  0 <= block_size v ->
  (reads_empty e = true ->
   get_block v e = Ok (_empty_block v)
   /\ blen (_empty_block v) = block_size v)
  /\ (reads_empty e = false ->
      0 <= be_offset e <= blen (_file v) -> blen (_file v) < 2 ^ 63 ->
      exists b,
        get_block v e = Ok b
        /\ b = firstn (Z.to_nat (block_size v))
                 (skipn (Z.to_nat (be_offset e)) (_file v))
        /\ blen b = Z.min (block_size v) (blen (_file v) - be_offset e))
  /\ (reads_empty e = false -> blen (_file v) < be_offset e ->
      get_block v e = Ok [] \/ exists ex, get_block v e = Raise ex).
Proof.
  intros Hcons Hbs.
  destruct Hcons as [Heb _ (bs & Hget & Hint) _ _].
  assert (Hread : reads_empty e = false -> 0 <= be_offset e < 2 ^ 63 ->
            get_block v e
            = Ok (firstn (Z.to_nat (block_size v))
                    (skipn (Z.to_nat (be_offset e)) (_file v)))).
  { unfold get_block, reads_empty. intros Hempty Hoff.
    apply orb_false_iff in Hempty as [-> ->].
    unfold on_file, run, pbind, initial.
    rewrite (f_seek_ok _ _ _ _ Hoff).
    unfold plift, metas_item, dict_item, metas. rewrite Hget, Hint.
    unfold f_read, stream_read. cbn [s_pos s_data st_stream st_log].
    destruct (Z.ltb_spec (_block_size v) 0); [unfold block_size in Hbs; lia|].
    reflexivity. }
  split; [|split].
  - intros Hempty. split; [|rewrite Heb; now apply blen_zeros].
    unfold get_block. unfold reads_empty in Hempty.
    destruct (state_value (be_state e) =? state_value BAT_PAYLOAD_BLOCK_ZERO);
      [reflexivity|].
    cbn [orb] in Hempty. rewrite Hempty. reflexivity.
  - intros Hempty Hoff Hfile. eexists. split; [apply Hread; [exact Hempty | lia]|].
    split; [reflexivity|].
    unfold blen in *. rewrite length_firstn, length_skipn. lia.
  - intros Hempty Hoff.
    destruct (Z.ltb_spec (be_offset e) (2 ^ 63)) as [Hlt|Hge].
    + left. rewrite Hread; [|exact Hempty | unfold blen in Hoff; lia].
      rewrite skipn_all2; [now rewrite firstn_nil|].
      unfold blen in Hoff. lia.
    + right. unfold get_block. unfold reads_empty in Hempty.
      apply orb_false_iff in Hempty as [-> ->].
      unfold on_file, run, pbind, initial, f_seek, stream_seek.
      cbn [s_pos s_data st_stream st_log].
      destruct (Z.ltb_spec (be_offset e) 0); [eauto|].
      destruct (Z.leb_spec (2 ^ 63) (be_offset e)); [eauto | lia].
Qed.

Module BlockExamples.

(** An entry that says the block is fully present at 1 MiB, in a file
    that ends before that offset. *)
Definition present_at_1MiB : BatEntry := mkBatEntry BAT_PAYLOAD_BLOCK_FULLY_PRESENT 1.

(** The claim as stated fails: the buffer returned for that entry is
    empty, while [BlockSize] is 1 MiB. *)
Lemma get_block_short_on_truncated_file :
  get_block Disks.fixed present_at_1MiB = Ok []
  /\ block_size Disks.fixed = 1048576
  /\ ~ (forall e, exists b,
          get_block Disks.fixed e = Ok b /\ blen b = block_size Disks.fixed).
Proof.
  assert (H : get_block Disks.fixed present_at_1MiB = Ok [])
    by (vm_compute; reflexivity).
  split; [exact H|]. split; [reflexivity|].
  intros Hall. destruct (Hall present_at_1MiB) as (b & Hb & Hlen).
  rewrite H in Hb. inversion Hb; subst. discriminate Hlen.
Qed.

(** An entry that says the block is fully present at the start of the
    file, and a Zero entry with an offset far beyond any file. *)
Definition present_at_0 : BatEntry := mkBatEntry BAT_PAYLOAD_BLOCK_FULLY_PRESENT 0.
Definition zero_far_away : BatEntry := mkBatEntry BAT_PAYLOAD_BLOCK_ZERO (2 ^ 43).

Lemma get_block_length_witness :
  (get_block Disks.fixed zero_far_away = Ok (_empty_block Disks.fixed)
   /\ blen (_empty_block Disks.fixed) = block_size Disks.fixed)
  /\ (exists b,
        get_block Disks.fixed present_at_0 = Ok b
        /\ b = firstn (Z.to_nat (block_size Disks.fixed))
                 (skipn (Z.to_nat (be_offset present_at_0)) (_file Disks.fixed))
        /\ blen b = Z.min (block_size Disks.fixed)
                      (blen (_file Disks.fixed) - be_offset present_at_0))
  /\ (get_block Disks.fixed present_at_1MiB = Ok []
      \/ exists ex, get_block Disks.fixed present_at_1MiB = Raise ex).
Proof.
  pose proof (VhdxFile_init_consistent _ _ _ _ _ Disks.fixed_opened) as Hcons.
  assert (Hbs : 0 <= block_size Disks.fixed) by (vm_compute; discriminate).
  split; [|split].
  - apply (proj1 (get_block_length Disks.fixed zero_far_away Hcons Hbs)).
    reflexivity.
  - apply (proj1 (proj2 (get_block_length Disks.fixed present_at_0 Hcons Hbs))).
    + reflexivity.
    + vm_compute. split; discriminate.
    + vm_compute. reflexivity.
  - apply (proj2 (proj2 (get_block_length Disks.fixed present_at_1MiB Hcons Hbs))).
    + reflexivity.
    + vm_compute. reflexivity.
Defined.

(** A zero entry gives the empty block, 1 MiB long. *)
Example zero_entry_gives_empty_block :
  match get_block Disks.fixed (mkBatEntry BAT_PAYLOAD_BLOCK_ZERO 3) with
  | Ok b => blen b = 1048576
  | Raise _ => False
  end.
Proof. vm_compute. reflexivity. Qed.

End BlockExamples.

(** ** The range of sector numbers *)

Definition out_of_range : exn := ValueError SectorOutOfRange.

Lemma guid_to_blob_bat :
  guid_to_blob REGION_GUID_BAT = Ok (Image.blob REGION_GUID_BAT).
Proof. vm_compute. reflexivity. Qed.

Lemma bat_region_raise v e : bat_region v = Raise e -> e <> out_of_range.
Proof.
  unfold bat_region. rewrite guid_to_blob_bat. cbn [rbind]. unfold dict_item.
  destruct (dict_get _ _ _); intros H; inversion H. discriminate.
Qed.

Lemma py_floordiv_raise a b e : py_floordiv a b = Raise e -> e <> out_of_range.
Proof.
  unfold py_floordiv. destruct (b =? 0); intros H; inversion H. discriminate.
Qed.

Lemma py_mod_raise a b e : py_mod a b = Raise e -> e <> out_of_range.
Proof.
  unfold py_mod. destruct (b =? 0); intros H; inversion H. discriminate.
Qed.

Lemma metas_item_raise m k e : metas_item m k = Raise e -> e <> out_of_range.
Proof.
  unfold metas_item, dict_item. destruct (dict_get _ _ _); intros H; inversion H.
  discriminate.
Qed.

Lemma as_int_raise x e : as_int x = Raise e -> e <> out_of_range.
Proof. destruct x; intros H; inversion H; discriminate. Qed.

Lemma f_seek_raise p st e : f_seek p st = Raise e -> e <> out_of_range.
Proof.
  unfold f_seek, stream_seek.
  destruct (p <? 0); [intros H; inversion H; discriminate|].
  destruct (2 ^ 63 <=? p); intros H; inversion H. discriminate.
Qed.

Lemma BatEntry_from_stream_raise st e :
  BatEntry_from_stream st = Raise e -> e <> out_of_range.
Proof.
  destruct st as [[d p] l]. rewrite BatEntry_from_stream_at.
  unfold word_at. destruct (blen _ <? 8); [intros H; inversion H; discriminate|].
  unfold BatEntry_decode, BatPayloadBlockState_of.
  repeat match goal with
         | |- context [if ?b then _ else _] => destruct b
         end; cbn [rbind]; intros H; inversion H; discriminate.
Qed.

Lemma get_bat_index_raise v s e :
  check_sector_number v s = Ok tt ->
  _get_bat_index_for_logical_sector v s = Raise e -> e <> out_of_range.
Proof.
  intros Hc. unfold _get_bat_index_for_logical_sector. rewrite Hc. cbn [rbind].
  destruct (py_floordiv _ _) as [q|e1] eqn:E1; cbn [rbind].
  - destruct (py_floordiv q _) as [q2|e2] eqn:E2; cbn [rbind];
      intros H; inversion H; subst. eapply py_floordiv_raise; eauto.
  - intros H; inversion H; subst. eapply py_floordiv_raise; eauto.
Qed.

Lemma get_bat_entry_raise v s e :
  check_sector_number v s = Ok tt ->
  get_bat_entry_for_logical_sector v s = Raise e -> e <> out_of_range.
Proof.
  intros Hc. unfold get_bat_entry_for_logical_sector, on_file, run, pbind, plift.
  rewrite Hc.
  destruct (bat_region v) as [bat|e1] eqn:E1;
    [|intros H; inversion H; subst; eapply bat_region_raise; eauto].
  destruct (_get_bat_index_for_logical_sector v s) as [i|e2] eqn:E2;
    [|intros H; inversion H; subst; eapply get_bat_index_raise; eauto].
  destruct (f_seek _ _) as [[u st]|e3] eqn:E3;
    [|intros H; inversion H; subst; eapply f_seek_raise; eauto].
  destruct (BatEntry_from_stream st) as [[en st']|e4] eqn:E4;
    [discriminate|intros H; inversion H; subst;
                  eapply BatEntry_from_stream_raise; eauto].
Qed.

Lemma load_sector_bitmap_raise v c i e :
  load_sector_bitmap v c i = Raise e -> e <> out_of_range.
Proof.
  unfold load_sector_bitmap.
  destruct (dict_get _ _ _); [discriminate|].
  unfold on_file, run, pbind, plift.
  destruct (bat_region v) as [bat|e1] eqn:E1;
    [|cbn [rbind]; intros H; inversion H; subst; eapply bat_region_raise; eauto].
  destruct (f_seek (rte_offset bat + i * 8) _) as [[u st]|e3] eqn:E3;
    [|cbn [rbind]; intros H; inversion H; subst; eapply f_seek_raise; eauto].
  destruct (BatEntry_from_stream st) as [[en st']|e4] eqn:E4;
    [|cbn [rbind]; intros H; inversion H; subst;
      eapply BatEntry_from_stream_raise; eauto].
  cbn [rbind].
  destruct (_ =? BAT_SB_BLOCK_NOT_PRESENT); [discriminate|].
  destruct (_ =? BAT_SB_BLOCK_PRESENT); [|intros H; inversion H; discriminate].
  destruct (f_seek (be_offset en) _) as [[u' st2]|e5] eqn:E5;
    [|cbn [rbind]; intros H; inversion H; subst; eapply f_seek_raise; eauto].
  unfold f_read. destruct (stream_read _ _). discriminate.
Qed.

Lemma sector_bit_raise v s e :
  fst (sector_bit v s) = Raise e -> e <> out_of_range.
Proof.
  unfold sector_bit.
  destruct (py_floordiv _ _) as [q|e1] eqn:E1; cbn [rbind];
    [|cbn [fst]; intros H; inversion H; subst; eapply py_floordiv_raise; eauto].
  destruct (py_floordiv q _) as [q2|e2] eqn:E2; cbn [rbind];
    [|cbn [fst]; intros H; inversion H; subst; eapply py_floordiv_raise; eauto].
  destruct (load_sector_bitmap _ _ _) as [[[sb|] v']|e3] eqn:E3; cbn [fst];
    [| discriminate
     | intros H; inversion H; subst; eapply load_sector_bitmap_raise; eauto].
  unfold bytes_index. destruct (nth_error _ _); cbn [rbind];
    intros H; inversion H. discriminate.
Qed.

Lemma is_sector_allocated_raise v s e :
  check_sector_number v s = Ok tt ->
  fst (is_sector_allocated v s) = Raise e -> e <> out_of_range.
Proof.
  intros Hc. unfold is_sector_allocated. rewrite Hc.
  destruct (is_differencing v) as [hp|e1] eqn:E1;
    [|cbn [fst]; intros H; inversion H; subst; eapply metas_item_raise; eauto].
  destruct (negb (truthy hp)); [discriminate|]. apply sector_bit_raise.
Qed.

Lemma get_block_raise v en e : get_block v en = Raise e -> e <> out_of_range.
Proof.
  unfold get_block.
  destruct (_ =? _); [discriminate|].
  destruct (_ && _); [discriminate|].
  unfold on_file, run, pbind, plift.
  destruct (f_seek _ _) as [[u st]|e3] eqn:E3;
    [|intros H; inversion H; subst; eapply f_seek_raise; eauto].
  destruct (metas_item _ _) as [bs|e4] eqn:E4;
    [|intros H; inversion H; subst; eapply metas_item_raise; eauto].
  destruct (as_int bs) as [n|e5] eqn:E5;
    [|intros H; inversion H; subst; eapply as_int_raise; eauto].
  unfold f_read. destruct (stream_read _ _). discriminate.
Qed.

Lemma sector_of_block_raise v block s e :
  sector_of_block v block s = Raise e -> e <> out_of_range.
Proof.
  unfold sector_of_block.
  destruct (py_floordiv _ _) as [q|e1] eqn:E1; cbn [rbind];
    [|intros H; inversion H; subst; eapply py_floordiv_raise; eauto].
  destruct (py_mod _ _) as [r|e2] eqn:E2; cbn [rbind];
    [|intros H; inversion H; subst; eapply py_mod_raise; eauto].
  destruct (metas_item _ _) as [x|e3] eqn:E3; cbn [rbind];
    [|intros H; inversion H; subst; eapply metas_item_raise; eauto].
  destruct (as_int x) as [n|e4] eqn:E4; cbn [rbind];
    [|intros H; inversion H; subst; eapply as_int_raise; eauto].
  destruct (negb _); intros H; inversion H. discriminate.
Qed.

(** [get_sector] raises "Sector number out of range" only through its
    guard. *)
Lemma get_sector_out_of_range v s :
  check_sector_number v s = Ok tt ->
  fst (get_sector v s) <> Raise out_of_range.
Proof.
  intros Hc. unfold get_sector. rewrite Hc.
  destruct (get_bat_entry_for_logical_sector v s) as [en|e1] eqn:E1;
    [|cbn [fst]; intros H; inversion H; subst; eapply get_bat_entry_raise; eauto].
  destruct (is_sector_allocated v s) as [[[|]|e2] v'] eqn:E2; cbn [fst].
  - destruct (get_block v' en) as [block|e3] eqn:E3; cbn [rbind].
    + intros H. eapply sector_of_block_raise; eauto.
    + intros H; inversion H; subst. eapply get_block_raise; eauto.
  - discriminate.
  - intros H; inversion H; subst.
    eapply (is_sector_allocated_raise v s); eauto. rewrite E2. reflexivity.
Qed.

(** C5 (the code against the claim). With [limit] the quotient
    [VirtualDiskSize // LogicalSectorSize], the number of sectors of the
    disk: the guard of [get_sector] lets the sector number [limit], one
    past the last sector, through, and [get_sector limit] does not raise
    "Sector number out of range" whatever happens next; the first number
    refused is [limit + 1]. [get_sector (-1)] is refused as the claim
    says. *)
Theorem sector_guard_admits_one_past_the_end v limit :
  sector_limit v = Ok limit ->
  0 <= limit ->
  check_sector_number v limit = Ok tt
  /\ fst (get_sector v limit) <> Raise (ValueError SectorOutOfRange)
  /\ get_sector v (limit + 1) = (Raise (ValueError SectorOutOfRange), v)
  /\ get_sector v (-1) = (Raise (ValueError SectorOutOfRange), v).
Proof.
  intros Hl Hpos.
  assert (Hc : check_sector_number v limit = Ok tt).
  { unfold check_sector_number. rewrite Hl. cbn [rbind].
    destruct (Z.ltb_spec limit limit); [lia|].
    destruct (Z.ltb_spec limit 0); [lia|]. reflexivity. }
  split; [exact Hc|]. split; [apply get_sector_out_of_range; exact Hc|].
  split.
  - unfold get_sector, check_sector_number. rewrite Hl. cbn [rbind].
    destruct (Z.ltb_spec limit (limit + 1)); [reflexivity | lia].
  - unfold get_sector, check_sector_number. rewrite Hl. cbn [rbind].
    rewrite orb_true_r. reflexivity.
Qed.

Module RangeExamples.

(** The fixed 8 MiB disk has 16384 sectors, numbered from 0 to 16383. *)
Lemma sector_guard_admits_one_past_the_end_witness :
  check_sector_number Disks.fixed 16384 = Ok tt
  /\ fst (get_sector Disks.fixed 16384) <> Raise (ValueError SectorOutOfRange)
  /\ get_sector Disks.fixed (16384 + 1)
     = (Raise (ValueError SectorOutOfRange), Disks.fixed)
  /\ get_sector Disks.fixed (-1)
     = (Raise (ValueError SectorOutOfRange), Disks.fixed).
Proof.
  apply (sector_guard_admits_one_past_the_end Disks.fixed 16384).
  - vm_compute. reflexivity.
  - discriminate.
Defined.

(** [get_sector 16384] on that disk returns a sector of zeros: the BAT
    entry read for it is the one after the 8 payload entries of the
    disk. *)
Example one_past_the_end_is_served :
  fst (get_sector Disks.fixed 16384) = Ok (zeros 512).
Proof. vm_compute. reflexivity. Qed.

Example last_sector_is_served :
  fst (get_sector Disks.fixed 16383) = Ok (zeros 512).
Proof. vm_compute. reflexivity. Qed.

End RangeExamples.

(** ** Fallback metadata *)

(** [guid_to_blob(guid_string) in region_table] *)
Definition region_present (region_table : RegionTable) (guid_string : string)
    : result bool :=
  let? blob := guid_to_blob guid_string in
  Ok (bdict_contains region_table blob).

Lemma guid_to_blob_metadata :
  guid_to_blob REGION_GUID_METADATA = Ok (Image.blob REGION_GUID_METADATA).
Proof. vm_compute. reflexivity. Qed.

(** Without a metadata region, [load_metas] hands the fallback mapping
    over as it is and does not flag it. *)
Lemma load_metas_absent_region fallback region_table st mu st' :
  bdict_contains region_table (Image.blob REGION_GUID_METADATA) = false ->
  load_metas true (Some fallback) region_table st = Ok (mu, st') ->
  mu = (fallback, false).
Proof.
  intros Habsent. unfold load_metas, pbind at 1, plift.
  rewrite guid_to_blob_metadata.
  unfold dict_contains in Habsent.
  destruct (bdict_get region_table _); [discriminate|].
  cbn [andb]. unfold pbind at 1.
  destruct (metas_truthy fallback) eqn:Et; [|discriminate].
  unfold pbind at 1. unfold log at 1. unfold pret at 1.
  rewrite Et. cbn [negb andb]. unfold pret. intros H; inversion H. reflexivity.
Qed.

(** C1 (the code against the claim). When a file without a metadata
    region is opened in tolerant mode with fallback metadata, the
    [VhdxFile] that comes out has that very mapping as its metadata:
    [used_fallback_metas] is false, and a [VirtualDiskSize] that the
    fallback does not supply is not inferred, so that
    [virtual_disk_size] raises [KeyError]. *)
Theorem absent_metadata_fallback_is_not_flagged file fallback v l :
  VhdxFile_init file true (Some fallback) = Ok (v, l) ->
  region_present (region_table v) REGION_GUID_METADATA = Ok false ->
  used_fallback_metas v = false
  /\ metas v = fallback
  /\ (metas_get fallback "VirtualDiskSize" = None ->
      virtual_disk_size v = Raise KeyError).
Proof.
  intros Hopen Habsent.
  apply VhdxFile_init_phases in Hopen
    as (cur & s1 & rt & s2 & mu & s3 & s4 & _ & _ & Hload & Hcfg).
  apply configure_fields in Hcfg
    as (_ & _ & Hrt & Hm & Hu & _).
  unfold region_present in Habsent. rewrite guid_to_blob_metadata in Habsent.
  cbn [rbind] in Habsent. injection Habsent as Hc.
  unfold region_table in Hc. rewrite Hrt in Hc.
  apply (load_metas_absent_region _ _ _ _ _ Hc) in Hload. subst mu.
  cbn [fst snd] in *.
  unfold used_fallback_metas, virtual_disk_size, metas.
  rewrite Hm, Hu. split; [reflexivity|]. split; [reflexivity|].
  intros Hnone. unfold metas_item, dict_item. now rewrite Hnone.
Qed.

Module FallbackExamples.

(** A truncated file without a metadata region: its region tables list
    the BAT only, 0x40 bytes long, which ends the file. *)
Definition bat_only : bytes :=
  Image.region_table_block 1 [Image.region_entry REGION_GUID_BAT 0x50000 0x40 1].

Definition no_metadata_disk : bytes :=
  (Image.file_identifier VHDX_MAGIC ++ Image.good_header 1 ++ Image.good_header 2
   ++ bat_only ++ bat_only ++ Image.bat_bytes (repeat 0 8))%list.

Definition fallback : Metas :=
  [ ("LogicalSectorSize", MInt 512); ("PhysicalSectorSize", MInt 4096);
    ("BlockSize", MInt 1048576); ("HasParent", MBool false) ].

Definition no_metadata : VhdxFile :=
  {| _file := no_metadata_disk;
     _header := HeaderExamples.header_of 2 0;
     _region_table :=
       [ (Image.blob REGION_GUID_BAT,
          {| rte_guid := Image.blob REGION_GUID_BAT; rte_offset := 0x50000;
             rte_length := 0x40; rte_required := true |}) ];
     _using_fallback_metas := false;
     _metas := fallback;
     _logical_sector_size := 512;
     _physical_sector_size := MInt 4096;
     _block_size := 1048576;
     _chunk_ratio := 4096;
     _sector_bitmap_cache := [];
     _empty_block := zeros 1048576;
     _empty_sector := zeros 512 |}.

Definition no_metadata_log : list string :=
  ["Reading file header section"; "Reading header"; "Reading header";
   "The first header is current."; "Reading region table";
   "Reading region table entries"; "Reading region table";
   "Reading region table entries";
   "WARNING: No metadata block defined, falling back to provided metadata";
   "Chunk Ratio = (2**23 * LogicalSectorSize) / BlockSize"; "Chunk Ratio"].

Lemma no_metadata_opened :
  VhdxFile_init no_metadata_disk true (Some fallback)
  = Ok (no_metadata, no_metadata_log).
Proof.
  apply VhdxFile_init_by_summary; [reflexivity ..|].
  vm_compute. split; reflexivity.
Qed.

Lemma absent_metadata_fallback_is_not_flagged_witness :
  used_fallback_metas no_metadata = false
  /\ metas no_metadata = fallback
  /\ (metas_get fallback "VirtualDiskSize" = None ->
      virtual_disk_size no_metadata = Raise KeyError).
Proof.
  apply (absent_metadata_fallback_is_not_flagged
           no_metadata_disk fallback no_metadata no_metadata_log).
  - exact no_metadata_opened.
  - vm_compute. reflexivity.
Defined.

(** On that container every sector method fails on the missing key. *)
Example no_metadata_get_sector :
  fst (get_sector no_metadata 0) = Raise KeyError.
Proof. vm_compute. reflexivity. Qed.

(** The inference that the claim describes is reached when the metadata
    region is there and its table has no entry, in strict mode as well:
    8 BAT entries of 1 MiB blocks give 8 MiB, and the fallback is
    flagged. *)
Definition empty_metadata_disk : bytes :=
  Image.image (Image.good_header 1) (Image.good_header 2) [] (repeat 0 8) [].

Example empty_metadata_table_infers_size :
  match VhdxFile_init empty_metadata_disk false (Some fallback) with
  | Ok (v, _) =>
      used_fallback_metas v = true
      /\ virtual_disk_size v = Ok (MInt 8388608)
  | Raise _ => False
  end.
Proof. vm_compute. split; reflexivity. Qed.

End FallbackExamples.

(** ** Tolerant mode *)

Lemma read_raw_ok d p l n :
  0 <= n -> 0 <= p -> p + n <= blen d ->
  read_raw n (PState (Stream d p) l)
  = Ok (firstn (Z.to_nat n) (skipn (Z.to_nat p) d), PState (Stream d (p + n)) l).
Proof.
  intros Hn Hp Hlen. unfold read_raw, pbind, f_read.
  pose proof (stream_read_length d p n Hn Hp) as Hl.
  unfold stream_read in *. cbn [s_pos s_data st_stream st_log fst] in *.
  destruct (Z.ltb_spec n 0); [lia|].
  rewrite Hl. replace (Z.min n (Z.max 0 (blen d - p))) with n by lia.
  rewrite Z.ltb_irrefl. reflexivity.
Qed.

(** In tolerant mode the magic of the file identifier is read and not
    looked at. *)
Lemma FileIdentifier_tolerant file :
  520 <= blen file ->
  FileIdentifier_from_stream true (initial file)
  = Ok ({| fi_creator := firstn 512 (skipn 8 file) |},
        PState (Stream file 65536) ["Reading file header section"]).
Proof.
  intros Hlen. unfold FileIdentifier_from_stream, initial.
  unfold pbind at 1. unfold log at 1.
  cbn [st_stream st_log].
  change (blen VHDX_MAGIC) with 8. unfold CREATOR_LENGTH.
  rewrite (pbind_step _ _ _ _ _ (read_raw_ok file 0 _ 8 ltac:(lia) ltac:(lia) ltac:(lia))).
  cbn [negb]. rewrite andb_false_r.
  rewrite (pbind_step _ _ _ _ _
             (read_raw_ok file (0 + 8) _ 512 ltac:(lia) ltac:(lia) ltac:(lia))).
  unfold pbind, f_seek_cur. cbn [s_pos st_stream].
  rewrite f_seek_ok by (cbn; lia).
  unfold pret. reflexivity.
Qed.

(** A strict parse of the metadata table that dies of duplicate keys
    dies of them in tolerant mode too. *)
Lemma MetadataTable_duplicates_stay_fatal st :
  MetadataTable_from_stream false st = Raise (ValueError DuplicateMetadataKeys) ->
  MetadataTable_from_stream true st = Raise (ValueError DuplicateMetadataKeys).
Proof.
  intros H. unfold MetadataTable_from_stream, pbind, f_tell in *.
  cbv beta in *.
  destruct (read_raw (blen METADATA_TABLE_MAGIC) st) as [[magic st1]|e];
    [|exact H].
  destruct (negb (bytes_eqb magic METADATA_TABLE_MAGIC)); [|exact H].
  unfold praise in H. discriminate H.
Qed.

Lemma pbind_raise {A B} (m : parser A) (k : A -> parser B) st e :
  m st = Raise e -> pbind m k st = Raise e.
Proof. intros H. unfold pbind. now rewrite H. Qed.

Lemma VhdxFile_init_parser_after_file_identifier file ignore_faults fallback_metas st :
  VhdxFile_init_parser file ignore_faults fallback_metas st
  = (FileIdentifier_from_stream ignore_faults ;;;
     open_after_file_identifier file ignore_faults fallback_metas) st.
Proof.
  unfold VhdxFile_init_parser, read_headers, open_after_file_identifier, pbind.
  destruct (FileIdentifier_from_stream ignore_faults st) as [[fi s1]|];
    [|reflexivity].
  destruct (Header_from_stream false s1) as [[header_a s2]|]; [|reflexivity].
  destruct (Header_from_stream false s2) as [[header_b s3]|]; [|reflexivity].
  unfold log, pret. reflexivity.
Qed.

Lemma load_meta_items_app origin before after :
  forall m st,
    load_meta_items origin (before ++ after) m st
    = (m' <- load_meta_items origin before m ;;
       load_meta_items origin after m') st.
Proof.
  induction before as [|entry before IH]; intros m st; cbn [app load_meta_items].
  - reflexivity.
  - unfold pbind in IH |- *.
    destruct (f_seek (origin + mte_offset entry) st) as [[u s1]|]; [|reflexivity].
    destruct (read_raw (mte_length entry) s1) as [[data s2]|]; [|reflexivity].
    destruct (parse_metadata_entry data (mte_item_id entry) s2) as [[g s3]|];
      [|reflexivity].
    destruct (plift (add_meta_items (fst g) m) s3) as [[m1 s4]|]; [|reflexivity].
    destruct (snd g); [reflexivity|]. apply IH.
Qed.

Lemma metas_set_keeps (m : Metas) key key' value old :
  metas_get m key = Some old ->
  exists old', metas_get (metas_set m key' value) key = Some old'.
Proof.
  induction m as [|[k v] m IH]; cbn [dict_get dict_set]; [discriminate|].
  destruct (String.eqb k key) eqn:E.
  - intros _. destruct (String.eqb k key'); cbn [dict_get]; rewrite E; eauto.
  - intros H. destruct (String.eqb k key'); cbn [dict_get]; rewrite E; eauto.
Qed.

(** A key that the mapping already holds stops the loop over what an
    entry yields. *)
Lemma add_meta_items_duplicate items :
  forall m key value old,
    In (key, value) items -> metas_get m key = Some old ->
    add_meta_items items m = Raise (ValueError DuplicateMetadataKeys).
Proof.
  induction items as [|[k v] items IH]; intros m key value old Hin Hget;
    [destruct Hin|].
  cbn [add_meta_items].
  destruct (metas_get m k) eqn:Ek; [reflexivity|].
  destruct Hin as [Heq|Hin]; [injection Heq as -> ->; congruence|].
  destruct (metas_set_keeps m key k v old Hget) as [old' Hold'].
  exact (IH _ key value old' Hin Hold').
Qed.

Lemma nth_error_split {A} (l : list A) n x :
  nth_error l n = Some x -> l = (firstn n l ++ x :: skipn (S n) l)%list.
Proof.
  revert l. induction n as [|n IH]; intros [|y l]; cbn; try discriminate.
  - intros H. now injection H as ->.
  - intros H. f_equal. now apply IH.
Qed.

(** C4, as amended. With [ignore_faults] set, a wrong magic in the file
    identifier does not stop [__init__]: on any file that holds the
    block, whatever its first eight bytes are, the block is taken as
    parsed and the outcome of the open is the outcome of the rest of
    [__init__] run from 64 KiB on. Duplicate metadata keys are not
    downgraded: when the open, tolerant or strict, gets as far as an
    entry of the metadata table that yields a key which the entries
    before it have already given, it raises the [ValueError] for
    duplicate metadata keys. *)
Theorem tolerant_mode_faults file fallback_metas :
  (520 <= blen file ->
   VhdxFile_init file true fallback_metas
   = logged (open_after_file_identifier file true fallback_metas
               (PState (Stream file 65536) ["Reading file header section"])))
  /\ (forall ignore_faults n m g key value old,
        run file (nth_metadata_entry ignore_faults n) = Ok (m, g) ->
        In (key, value) (fst g) ->
        metas_get m key = Some old ->
        VhdxFile_init file ignore_faults fallback_metas
        = Raise (ValueError DuplicateMetadataKeys)).
Proof.
  split.
  - intros Hlen. unfold VhdxFile_init, with_file.
    rewrite VhdxFile_init_parser_after_file_identifier.
    rewrite (pbind_step _ _ _ _ _ (FileIdentifier_tolerant file Hlen)).
    unfold logged.
    destruct (open_after_file_identifier file true fallback_metas _)
      as [[v st]|e]; reflexivity.
  - intros ignore_faults n m g key value old Hrun Hin Hget.
    apply run_ok in Hrun as [st H]. unfold nth_metadata_entry in H.
    apply pbind_ok in H as (cur & s1 & Hheaders & H).
    apply pbind_ok in H as (region_table & s2 & Htables & H).
    apply pbind_ok in H as (meta_guid & s3 & Hguid & H).
    apply pbind_ok in H as (meta_info & s4 & Hinfo & H).
    apply pbind_ok in H as (u1 & s5 & Hlog & H).
    apply pbind_ok in H as (u2 & s6 & Hseek & H).
    apply pbind_ok in H as (origin & s7 & Htell & H).
    apply pbind_ok in H as (magic & s8 & Hmagic & H).
    apply pbind_ok in H as (u3 & s9 & Hcheck & H).
    apply pbind_ok in H as (reserved1 & s10 & Hr1 & H).
    apply pbind_ok in H as (entry_count & s11 & Hcount & H).
    apply pbind_ok in H as (reserved2 & s12 & Hr2 & H).
    apply pbind_ok in H as (entries & s13 & Hentries & H).
    apply pbind_ok in H as (m0 & s14 & Hbefore & H).
    apply pbind_ok in H as (entry & s15 & Hentry & H).
    apply pbind_ok in H as (u4 & s16 & Hseek' & H).
    apply pbind_ok in H as (data & s17 & Hdata & H).
    apply pbind_ok in H as (g0 & s18 & Hparse & H).
    unfold pret in H. injection H as -> -> _.
    apply plift_ok in Hinfo as [Hinfo ->].
    apply plift_ok in Hentry as [Hentry ->].
    destruct (nth_error entries n) as [entry'|] eqn:Enth; [|discriminate].
    injection Hentry as ->.
    unfold dict_item in Hinfo.
    destruct (bdict_get region_table meta_guid) as [info|] eqn:Eget;
      [|discriminate].
    injection Hinfo as ->.
    (* the loop over the entries stops at entry [n] *)
    assert (Hload : load_meta_items origin entries [] s13
                    = Raise (ValueError DuplicateMetadataKeys)).
    { rewrite (nth_error_split _ _ _ Enth), load_meta_items_app.
      rewrite (pbind_step _ _ _ _ _ Hbefore). cbn [load_meta_items].
      rewrite (pbind_step _ _ _ _ _ Hseek'), (pbind_step _ _ _ _ _ Hdata),
        (pbind_step _ _ _ _ _ Hparse).
      apply pbind_raise. unfold plift.
      now rewrite (add_meta_items_duplicate _ _ _ _ _ Hin Hget). }
    assert (Htable : MetadataTable_from_stream ignore_faults s6
                     = Raise (ValueError DuplicateMetadataKeys)).
    { unfold MetadataTable_from_stream.
      rewrite (pbind_step _ _ _ _ _ Htell), (pbind_step _ _ _ _ _ Hmagic),
        (pbind_step _ _ _ _ _ Hcheck), (pbind_step _ _ _ _ _ Hr1),
        (pbind_step _ _ _ _ _ Hcount), (pbind_step _ _ _ _ _ Hr2),
        (pbind_step _ _ _ _ _ Hentries).
      apply pbind_raise. exact Hload. }
    assert (Hmetas : load_metas ignore_faults fallback_metas region_table s2
                     = Raise (ValueError DuplicateMetadataKeys)).
    { unfold load_metas. rewrite (pbind_step _ _ _ _ _ Hguid).
      apply pbind_raise. rewrite Eget.
      rewrite (pbind_step _ _ _ _ _ Hlog), (pbind_step _ _ _ _ _ Hseek).
      apply pbind_raise. exact Htable. }
    unfold VhdxFile_init, with_file, VhdxFile_init_parser.
    rewrite (pbind_step _ _ _ _ _ Hheaders), (pbind_step _ _ _ _ _ Htables).
    rewrite (pbind_raise _ _ _ _ Hmetas). reflexivity.
Qed.

Module TolerantExamples.

(** The fixed disk with a second LogicalSectorSize item in its metadata
    table. *)
Definition dup_keys_disk : bytes :=
  Image.image (Image.good_header 1) (Image.good_header 2)
    (Image.standard_items 0x800000 false
     ++ [(METADATA_LOGICAL_SECTOR_SIZE, Image.le_encode 4 512)])
    (repeat 0 16) [].

(** The claim as stated fails: the tolerant open of that file raises. *)
Lemma tolerant_open_fails_on_duplicate_metadata_keys :
  VhdxFile_init dup_keys_disk true (Some FallbackExamples.fallback)
  = Raise (ValueError DuplicateMetadataKeys).
Proof. vm_compute. reflexivity. Qed.

(** The fixed disk with another magic in its file identifier. *)
Definition bad_magic_disk : bytes :=
  (Image.file_identifier (ascii_bytes "notavhdx")
   ++ skipn (Z.to_nat 65536) Image.fixed_disk)%list.

Lemma tolerant_mode_faults_witness :
  VhdxFile_init bad_magic_disk true None
  = logged (open_after_file_identifier bad_magic_disk true None
              (PState (Stream bad_magic_disk 65536) ["Reading file header section"]))
  /\ VhdxFile_init dup_keys_disk true None
     = Raise (ValueError DuplicateMetadataKeys).
Proof.
  split.
  - apply (proj1 (tolerant_mode_faults bad_magic_disk None)).
    vm_compute. discriminate.
  - apply (proj2 (tolerant_mode_faults dup_keys_disk None) true 4%nat
             [("BlockSize", MInt 1048576); ("LeaveBlocksAllocated", MBool false);
              ("HasParent", MBool false); ("VirtualDiskSize", MInt 8388608);
              ("LogicalSectorSize", MInt 512); ("PhysicalSectorSize", MInt 4096)]
             ([("LogicalSectorSize", MInt 512)], None)
             "LogicalSectorSize" (MInt 512) (MInt 512)).
    + vm_compute. reflexivity.
    + left. reflexivity.
    + reflexivity.
Defined.

(** The tolerant open of the file with the wrong magic goes through, and
    the strict one does not. *)
Example tolerant_open_accepts_wrong_file_magic :
  match VhdxFile_init bad_magic_disk true None with
  | Ok (v, l) => summary v = summary Disks.fixed /\ l = Disks.open_log
  | Raise _ => False
  end.
Proof. vm_compute. split; reflexivity. Qed.

Example strict_open_rejects_wrong_file_magic :
  VhdxFile_init bad_magic_disk false None
  = Raise (VhdxHeaderError InvalidHeaderSectionMagic).
Proof. vm_compute. reflexivity. Qed.

(** The faults of the headers and of the region tables: [__init__] calls
    [Header.from_stream] and [RegionTable.from_stream] without its
    [ignore_faults], and these raise in tolerant mode as in strict mode. *)
Definition bad_header_magic_disk : bytes :=
  Image.image (Image.header_block (ascii_bytes "daeh") 1 0 1) (Image.good_header 2)
    (Image.standard_items 0x800000 false) (repeat 0 16) [].

Example tolerant_open_bad_header_magic :
  VhdxFile_init bad_header_magic_disk true (Some FallbackExamples.fallback)
  = Raise (VhdxHeaderError InvalidHeaderMagic).
Proof. vm_compute. reflexivity. Qed.

(** [Header.from_stream] itself, asked to ignore faults, reads that
    header. *)
Example tolerant_header_parser_reads_bad_magic :
  run bad_header_magic_disk
    (FileIdentifier_from_stream true ;;; Header_from_stream true)
  = Ok (HeaderExamples.header_of 1 0).
Proof. vm_compute. reflexivity. Qed.

Definition bad_version_disk : bytes :=
  Image.image (Image.good_header 1) (Image.header_block HEAD_MAGIC 2 0 2)
    (Image.standard_items 0x800000 false) (repeat 0 16) [].

Example tolerant_open_bad_header_version :
  VhdxFile_init bad_version_disk true (Some FallbackExamples.fallback)
  = Raise (VhdxHeaderError InvalidHeaderVersion).
Proof. vm_compute. reflexivity. Qed.

Definition with_region_tables (table : bytes) : bytes :=
  Image.image_of table table (Image.good_header 1) (Image.good_header 2)
    (Image.standard_items 0x800000 false) (repeat 0 16) [].

(** An entry count of 2048. *)
Example tolerant_open_region_count_over_2047 :
  VhdxFile_init
    (with_region_tables (Image.region_table_block 2048 (Image.regions 128 1)))
    true (Some FallbackExamples.fallback)
  = Raise (VhdxHeaderError RegionCountOver2047).
Proof. vm_compute. reflexivity. Qed.

(** The BAT region listed twice. *)
Example tolerant_open_duplicate_region_keys :
  VhdxFile_init
    (with_region_tables
       (Image.region_table_block 3
          (Image.regions 128 1 ++ [Image.region_entry REGION_GUID_BAT 0x90000 64 1])))
    true (Some FallbackExamples.fallback)
  = Raise (VhdxHeaderError MultipleRegionEntries).
Proof. vm_compute. reflexivity. Qed.

End TolerantExamples.

(** ** Opening without building the zero buffers *)

(** The container with a given file and summary, fresh from [__init__]. *)
Definition assemble (file : bytes)
    (s : Header * RegionTable * bool * Metas * Z * MetaValue * Z * Z) : VhdxFile :=
  let '(current, region_table, using_fallback, metas, logical_sector_size,
        pss, block_size, chunk_ratio) := s in
  {| _file := file;
     _header := current;
     _region_table := region_table;
     _using_fallback_metas := using_fallback;
     _metas := metas;
     _logical_sector_size := logical_sector_size;
     _physical_sector_size := pss;
     _block_size := block_size;
     _chunk_ratio := chunk_ratio;
     _sector_bitmap_cache := [];
     _empty_block := zeros block_size;
     _empty_sector := zeros logical_sector_size |}.

(** [configure], up to the summary. *)
Definition configure_summary (current : Header) (region_table : RegionTable)
    (metas : Metas) (using_fallback : bool)
    : parser (Header * RegionTable * bool * Metas * Z * MetaValue * Z * Z) :=
  lss <- plift (metas_item metas "LogicalSectorSize") ;;
  pss <- plift (metas_item metas "PhysicalSectorSize") ;;
  bs <- plift (metas_item metas "BlockSize") ;;
  chunk_ratio <- plift (let? p := shifted_23 lss in floordiv_by p bs) ;;
  log "Chunk Ratio = (2**23 * LogicalSectorSize) / BlockSize" ;;;
  log "Chunk Ratio" ;;;
  logical_sector_size <- plift (as_int lss) ;;
  block_size <- plift (as_int bs) ;;
  pret (current, region_table, using_fallback, metas, logical_sector_size,
        pss, block_size, chunk_ratio).

Definition init_summary (ignore_faults : bool) (fallback_metas : option Metas)
    : parser (Header * RegionTable * bool * Metas * Z * MetaValue * Z * Z) :=
  current <- read_headers ignore_faults ;;
  region_table <- read_region_tables ;;
  mu <- load_metas ignore_faults fallback_metas region_table ;;
  configure_summary current region_table (fst mu) (snd mu).

Lemma configure_assemble file current region_table metas using_fallback st :
  configure file current region_table metas using_fallback st
  = match configure_summary current region_table metas using_fallback st with
    | Ok (s, st') => Ok (assemble file s, st')
    | Raise e => Raise e
    end.
Proof.
  unfold configure, configure_summary, pbind, plift, log, pret.
  destruct (metas_item metas "LogicalSectorSize") as [lss|]; [|reflexivity].
  destruct (metas_item metas "PhysicalSectorSize") as [pss|]; [|reflexivity].
  destruct (metas_item metas "BlockSize") as [bs|]; [|reflexivity].
  destruct (let? p := shifted_23 lss in floordiv_by p bs); [|reflexivity].
  destruct (as_int lss); [|reflexivity].
  destruct (as_int bs); reflexivity.
Qed.

(** [__init__] returns the container assembled from the summary that
    its parsers compute. *)
Lemma VhdxFile_init_by_core file ignore_faults fallback_metas s l :
  with_file file (init_summary ignore_faults fallback_metas) = Ok (s, l) ->
  VhdxFile_init file ignore_faults fallback_metas = Ok (assemble file s, l).
Proof.
  unfold VhdxFile_init, with_file, VhdxFile_init_parser, init_summary, pbind.
  destruct (read_headers ignore_faults (initial file)) as [[cur st1]|];
    [|discriminate].
  destruct (read_region_tables st1) as [[rt st2]|]; [|discriminate].
  destruct (load_metas ignore_faults fallback_metas rt st2) as [[mu st3]|];
    [|discriminate].
  rewrite configure_assemble.
  destruct (configure_summary cur rt (fst mu) (snd mu) st3) as [[s' st4]|];
    [|discriminate].
  intros H; inversion H; subst. reflexivity.
Qed.

(** ** The iteration over the BAT *)

Lemma iter_bat_loop_complete chunk_ratio n :
  forall i st,
    snd (iter_bat_loop chunk_ratio n i st) = None ->
    length (fst (iter_bat_loop chunk_ratio n i st)) = n.
Proof.
  induction n as [|n IH]; intros i st; [reflexivity|].
  cbn [iter_bat_loop].
  match goal with
  | |- context [match ?r st with _ => _ end] => destruct (r st) as [[entry st']|e]
  end; [|discriminate].
  specialize (IH (i + 1) st').
  destruct (iter_bat_loop chunk_ratio n (i + 1) st') as [l0 err].
  cbn [fst snd] in *. intros H. cbn [length]. now rewrite (IH H).
Qed.

(** [raw_bat_entry_count - raw_bat_entry_count // ChunkRatio] *)
Definition payload_block_count (raw_bat_entry_count chunk_ratio : Z) : Z :=
  raw_bat_entry_count - raw_bat_entry_count / chunk_ratio.

(** C3 (the code against the claim). An iteration of
    [iter_bat_payload_entries] that runs to its end yields one entry for
    each of the [BAT length // 8] raw entries of the region, not for each
    payload block: as soon as the region holds a whole chunk, that is
    more than [payload_block_count] entries. *)
Theorem iter_bat_payload_entries_count v bat :
  bat_region v = Ok bat ->
  snd (iter_bat_payload_entries v) = None ->
  let raw_bat_entry_count := rte_length bat / 8 in
  length (fst (iter_bat_payload_entries v)) = Z.to_nat raw_bat_entry_count
  /\ (0 < _chunk_ratio v <= raw_bat_entry_count ->
      Z.of_nat (length (fst (iter_bat_payload_entries v)))
      <> payload_block_count raw_bat_entry_count (_chunk_ratio v)).
Proof.
  intros Hbat Hnone raw.
  assert (Hlen : length (fst (iter_bat_payload_entries v)) = Z.to_nat raw).
  { revert Hnone. unfold iter_bat_payload_entries, pbind, plift.
    rewrite Hbat.
    destruct (f_seek (rte_offset bat) (initial (_file v))) as [[u st]|e];
      [|discriminate].
    unfold py_floordiv, pret. change (8 =? 0) with false. cbv iota.
    apply iter_bat_loop_complete. }
  split; [exact Hlen|].
  intros [Hcr Hraw]. rewrite Hlen. unfold payload_block_count.
  assert (1 <= raw / _chunk_ratio v).
  { apply Z.div_le_lower_bound; lia. }
  lia.
Qed.

Module IterationExamples.

(** A fixed disk of 17 blocks of 256 MiB, with 512-byte sectors: the
    chunk ratio is 16, and the BAT holds the 16 payload entries of chunk
    0, its sector bitmap entry, and the payload entry of block 16. The
    payload entries are fully present, block [i] at [(i + 1) * 256] MiB;
    the sector bitmap entry is zero. Eight more bytes follow the BAT in
    the file. *)
Definition payload_word (i : Z) : Z := Z.shiftl (256 * (i + 1)) 20 + 6.

Definition bat_words : list Z :=
  (map payload_word (map Z.of_nat (seq 0 16)) ++ [0; payload_word 16])%list.

Definition after_bat : bytes := Image.le_encode 8 0x300007.

Definition chunked_disk : bytes :=
  Image.image (Image.good_header 1) (Image.good_header 2)
    (Image.items_of 0x10000000 0x110000000 false) bat_words after_bat.

Definition chunked_metas : Metas :=
  [ ("BlockSize", MInt 0x10000000);
    ("LeaveBlocksAllocated", MBool false);
    ("HasParent", MBool false);
    ("VirtualDiskSize", MInt 0x110000000);
    ("LogicalSectorSize", MInt 512);
    ("PhysicalSectorSize", MInt 4096) ].

Definition chunked : VhdxFile :=
  assemble chunked_disk
    (HeaderExamples.header_of 2 0, Disks.standard_regions 144, false,
     chunked_metas, 512, MInt 4096, 0x10000000, 16).

Lemma chunked_opened :
  VhdxFile_init chunked_disk false None = Ok (chunked, Disks.open_log).
Proof.
  apply VhdxFile_init_by_core. vm_compute. reflexivity.
Qed.

Definition payload_entry (i : Z) : BatEntry :=
  mkBatEntry BAT_PAYLOAD_BLOCK_FULLY_PRESENT (256 * (i + 1)).

Definition sector_bitmap_entry : BatEntry :=
  mkBatEntry BAT_PAYLOAD_BLOCK_NOT_PRESENT 0.

(** What the iteration yields: the 16 payload entries of chunk 0, then
    the sector bitmap entry of the chunk, then, the payload entry of
    block 16 having been skipped, the eight bytes after the BAT. *)
Lemma chunked_iteration :
  iter_bat_payload_entries chunked
  = ((map payload_entry (map Z.of_nat (seq 0 16))
      ++ [sector_bitmap_entry; mkBatEntry BAT_PAYLOAD_BLOCK_PARTIALLY_PRESENT 3])%list,
     None).
Proof.
  unfold iter_bat_payload_entries, bat_region.
  cbn [chunked assemble _file _region_table _chunk_ratio].
  vm_compute. reflexivity.
Qed.

Definition chunked_bat : RegionTableEntry :=
  {| rte_guid := Image.blob REGION_GUID_BAT; rte_offset := 0x70000;
     rte_length := 144; rte_required := true |}.

Lemma chunked_bat_region : bat_region chunked = Ok chunked_bat.
Proof.
  unfold bat_region. cbn [chunked assemble _region_table]. vm_compute. reflexivity.
Qed.

(** 18 entries are yielded; the disk has 17 payload blocks, which is also
    what [payload_block_count] gives for 18 raw entries. *)
Lemma iter_bat_payload_entries_count_witness :
  length (fst (iter_bat_payload_entries chunked)) = Z.to_nat (144 / 8)
  /\ (0 < 16 <= 144 / 8 ->
      Z.of_nat (length (fst (iter_bat_payload_entries chunked)))
      <> payload_block_count (144 / 8) 16).
Proof.
  apply (iter_bat_payload_entries_count chunked chunked_bat).
  - exact chunked_bat_region.
  - rewrite chunked_iteration. reflexivity.
Defined.

Example chunked_payload_block_count : payload_block_count (144 / 8) 16 = 17.
Proof. reflexivity. Qed.

(** The direct lookup does step over the sector bitmap entry: the first
    sector of block 16 is read from raw index 17. *)
Example direct_lookup_of_block_16 :
  _get_bat_index_for_logical_sector chunked (16 * (0x10000000 / 512)) = Ok 17.
Proof.
  unfold _get_bat_index_for_logical_sector, check_sector_number, sector_limit, metas.
  cbn [chunked assemble _metas _logical_sector_size _block_size _chunk_ratio].
  vm_compute. reflexivity.
Qed.

End IterationExamples.

(** ** The sector bitmap read *)

Lemma blen_app (a b : bytes) : blen (a ++ b) = blen a + blen b.
Proof. unfold blen. rewrite length_app. lia. Qed.

Lemma blen_repeat (x : byte) n : blen (repeat x n) = Z.of_nat n.
Proof. unfold blen. now rewrite repeat_length. Qed.

(** A word that lies within the first part of a file. *)
Lemma word_at_app_l (a b : bytes) p :
  0 <= p -> p + 8 <= blen a -> word_at (a ++ b) p = word_at a p.
Proof.
  intros Hp Hlen. unfold word_at, blen in *.
  rewrite skipn_app, firstn_app, length_skipn.
  replace (8 - (length a - Z.to_nat p))%nat with 0%nat by lia.
  cbn [firstn]. rewrite app_nil_r. reflexivity.
Qed.

Lemma read_length (d : bytes) p n :
  0 <= n -> 0 <= p ->
  blen (firstn (Z.to_nat n) (skipn (Z.to_nat p) d))
  = Z.min n (Z.max 0 (blen d - p)).
Proof.
  intros Hn Hp. unfold blen. rewrite length_firstn, length_skipn. lia.
Qed.

Lemma f_read_at d p l n :
  0 <= n ->
  exists st',
    f_read n (PState (Stream d p) l)
    = Ok (firstn (Z.to_nat n) (skipn (Z.to_nat p) d), st').
Proof.
  intros Hn. unfold f_read, stream_read. cbn [s_pos s_data st_stream st_log].
  destruct (Z.ltb_spec n 0); [lia|]. eauto.
Qed.

Lemma SECTOR_BITMAP_READ_value : SECTOR_BITMAP_READ = 8 * 1048576.
Proof. reflexivity. Qed.

(** The cache miss of [is_sector_allocated] on a sector bitmap entry in
    state 6: what is read, and how long it is. *)
Lemma load_sector_bitmap_present v chunk_index index bat raw e :
  dict_get Z.eqb (_sector_bitmap_cache v) chunk_index = None ->
  bat_region v = Ok bat ->
  0 <= rte_offset bat + index * 8 < 2 ^ 63 ->
  word_at (_file v) (rte_offset bat + index * 8) = Ok raw ->
  BatEntry_decode raw = Ok e ->
  be_state e = BAT_PAYLOAD_BLOCK_FULLY_PRESENT ->
  0 <= be_offset e < 2 ^ 63 ->
  let sb := firstn (Z.to_nat SECTOR_BITMAP_READ)
              (skipn (Z.to_nat (be_offset e)) (_file v)) in
  load_sector_bitmap v chunk_index index
  = Ok (Some sb, cache_put v chunk_index (Some sb))
  /\ blen sb = Z.min SECTOR_BITMAP_READ (Z.max 0 (blen (_file v) - be_offset e)).
Proof.
  intros Hmiss Hbat Hpos Hword Hdec Hstate Hoff sb.
  split; [|apply read_length; [discriminate | exact (proj1 Hoff)]].
  unfold load_sector_bitmap. rewrite Hmiss.
  unfold on_file, run, pbind, plift, initial. rewrite Hbat.
  rewrite (f_seek_ok _ _ _ _ Hpos), BatEntry_from_stream_at, Hword, Hdec.
  cbn [rbind]. rewrite Hstate.
  change (state_value BAT_PAYLOAD_BLOCK_FULLY_PRESENT =? BAT_SB_BLOCK_NOT_PRESENT)
    with false.
  change (state_value BAT_PAYLOAD_BLOCK_FULLY_PRESENT =? BAT_SB_BLOCK_PRESENT)
    with true.
  cbv iota. rewrite (f_seek_ok _ _ _ _ Hoff).
  destruct (f_read_at (_file v) (be_offset e) [] SECTOR_BITMAP_READ
              ltac:(discriminate)) as [st' Hread].
  rewrite Hread. reflexivity.
Qed.

(** C2 (the code against the claim). On a differencing container, when
    [is_sector_allocated] misses its cache and finds the sector bitmap
    BAT entry of the chunk in state 6, what it reads from the offset of
    the entry and caches for the chunk is up to [1 << 23] bytes, 8 MiB:
    exactly 8 MiB when the file holds as much after the offset, and
    whatever the file holds when it holds less. *)
Theorem sector_bitmap_read_length v sector_number has_parent bat_index chunk_index
    bat raw e :
  check_sector_number v sector_number = Ok tt ->
  is_differencing v = Ok has_parent ->
  truthy has_parent = true ->
  py_floordiv (sector_number * _logical_sector_size v) (_block_size v) = Ok bat_index ->
  py_floordiv bat_index (_chunk_ratio v) = Ok chunk_index ->
  dict_get Z.eqb (_sector_bitmap_cache v) chunk_index = None ->
  bat_region v = Ok bat ->
  let index := chunk_index + (1 + chunk_index) * _chunk_ratio v in
  0 <= rte_offset bat + index * 8 < 2 ^ 63 ->
  word_at (_file v) (rte_offset bat + index * 8) = Ok raw ->
  BatEntry_decode raw = Ok e ->
  be_state e = BAT_PAYLOAD_BLOCK_FULLY_PRESENT ->
  0 <= be_offset e < 2 ^ 63 ->
  let sb := firstn (Z.to_nat SECTOR_BITMAP_READ)
              (skipn (Z.to_nat (be_offset e)) (_file v)) in
  snd (is_sector_allocated v sector_number) = cache_put v chunk_index (Some sb)
  /\ blen sb = Z.min (8 * 1048576) (Z.max 0 (blen (_file v) - be_offset e))
  /\ (be_offset e + 8 * 1048576 <= blen (_file v) -> blen sb = 8 * 1048576).
Proof.
  intros Hc Hd Ht Hbi Hci Hmiss Hbat index Hpos Hword Hdec Hstate Hoff sb.
  destruct (load_sector_bitmap_present v chunk_index index bat raw e
              Hmiss Hbat Hpos Hword Hdec Hstate Hoff) as [Hload Hlen].
  fold sb in Hload, Hlen. rewrite SECTOR_BITMAP_READ_value in Hlen.
  split; [|split; [exact Hlen | intros Hfile; rewrite Hlen; lia]].
  unfold is_sector_allocated. rewrite Hc, Hd, Ht. cbn [negb].
  unfold sector_bit. rewrite Hbi. cbn [rbind]. rewrite Hci. cbn [rbind].
  fold index. rewrite Hload. reflexivity.
Qed.

Module BitmapExamples.

(** A differencing disk of 9 MiB. Its first MiB holds the structures and
    the BAT: 4096 zero payload entries and, at raw index 4096, the sector
    bitmap entry of chunk 0 in state 6 with the offset 1 MiB. The 8 MiB
    from 1 MiB on are all ones: the sector bitmap of the chunk, 1 MiB
    long, and 7 MiB of other data. *)
Definition first_MiB : bytes :=
  Image.image (Image.good_header 1) (Image.good_header 2)
    (Image.standard_items 0x800000 true) (repeat 0 4096 ++ [0x100006])
    (repeat x00 (Z.to_nat 557048)).

Definition ones : bytes := repeat xff (Z.to_nat (8 * 1048576)).

Definition bitmap_disk : bytes := (first_MiB ++ ones)%list.

Definition with_bitmap : VhdxFile :=
  Disks.container bitmap_disk 32776 0x800000 true.

Lemma blen_first_MiB : blen first_MiB = 1048576.
Proof. vm_compute. reflexivity. Qed.

Lemma blen_bitmap_disk : blen bitmap_disk = 9 * 1048576.
Proof.
  unfold bitmap_disk, ones. rewrite blen_app, blen_repeat, blen_first_MiB. lia.
Qed.

Lemma with_bitmap_opened :
  VhdxFile_init bitmap_disk false None = Ok (with_bitmap, Disks.open_log).
Proof.
  apply VhdxFile_init_by_summary; [reflexivity ..|].
  vm_compute. split; reflexivity.
Qed.

Definition bitmap_entry : BatEntry := mkBatEntry BAT_PAYLOAD_BLOCK_FULLY_PRESENT 1.

Lemma sector_bitmap_read_length_witness :
  let sb := firstn (Z.to_nat SECTOR_BITMAP_READ)
              (skipn (Z.to_nat (be_offset bitmap_entry)) (_file with_bitmap)) in
  snd (is_sector_allocated with_bitmap 0) = cache_put with_bitmap 0 (Some sb)
  /\ blen sb = Z.min (8 * 1048576)
                 (Z.max 0 (blen (_file with_bitmap) - be_offset bitmap_entry))
  /\ (be_offset bitmap_entry + 8 * 1048576 <= blen (_file with_bitmap) ->
      blen sb = 8 * 1048576).
Proof.
  apply (sector_bitmap_read_length with_bitmap 0 (MBool true) 0 0
           DifferencingExamples.bat_entry_of_bad_payload 0x100006 bitmap_entry).
  - reflexivity.
  - reflexivity.
  - reflexivity.
  - reflexivity.
  - reflexivity.
  - reflexivity.
  - reflexivity.
  - vm_compute. split; [discriminate | reflexivity].
  - cbn [with_bitmap Disks.container _file _chunk_ratio]. unfold bitmap_disk.
    rewrite word_at_app_l.
    + vm_compute. reflexivity.
    + discriminate.
    + rewrite blen_first_MiB. vm_compute. discriminate.
  - reflexivity.
  - reflexivity.
  - vm_compute. split; [discriminate | reflexivity].
Defined.

(** The buffer cached for chunk 0 of that disk is 8 MiB long. *)
Example cached_sector_bitmap_is_8_MiB :
  blen (firstn (Z.to_nat SECTOR_BITMAP_READ)
          (skipn (Z.to_nat (be_offset bitmap_entry)) (_file with_bitmap)))
  = 8 * 1048576.
Proof.
  rewrite read_length; [|discriminate|discriminate].
  cbn [with_bitmap Disks.container _file]. rewrite blen_bitmap_disk.
  reflexivity.
Qed.

End BitmapExamples.

(** * Further properties of the reader *)

(** ** The byte reader *)

(** X1. [read_raw] of [count] bytes at a position succeeds exactly when
    the file holds [count] bytes from there on: it then returns these
    bytes and moves the position past them; otherwise it raises the
    short-read [ValueError]. *)
Theorem read_raw_outcome d p l count :
  0 <= count -> 0 <= p ->
  read_raw count (PState (Stream d p) l)
  = if count <=? Z.max 0 (blen d - p)
    then Ok (firstn (Z.to_nat count) (skipn (Z.to_nat p) d),
             PState (Stream d (p + count)) l)
    else Raise (ValueError ShortRead).
Proof.
  intros Hn Hp. unfold read_raw, pbind, f_read, stream_read.
  cbn [s_pos s_data st_stream st_log].
  destruct (Z.ltb_spec count 0); [lia|].
  rewrite (read_length d p count Hn Hp).
  destruct (Z.leb_spec count (Z.max 0 (blen d - p))).
  - destruct (Z.ltb_spec (Z.min count (Z.max 0 (blen d - p))) count); [lia|].
    unfold pret. replace (Z.min count (Z.max 0 (blen d - p))) with count by lia.
    reflexivity.
  - destruct (Z.ltb_spec (Z.min count (Z.max 0 (blen d - p))) count); [|lia].
    reflexivity.
Qed.

Lemma read_raw_outcome_witness :
  read_raw 2 (PState (Stream [x01; x02; x03] 1) [])
  = if 2 <=? Z.max 0 (blen [x01; x02; x03] - 1)
    then Ok (firstn (Z.to_nat 2) (skipn (Z.to_nat 1) [x01; x02; x03]),
             PState (Stream [x01; x02; x03] (1 + 2)) [])
    else Raise (ValueError ShortRead).
Proof. apply (read_raw_outcome [x01; x02; x03] 1 [] 2); discriminate. Defined.

Lemma byte_val_bound x : 0 <= byte_val x < 256.
Proof.
  unfold byte_val. pose proof (Byte.to_N_bounded x). lia.
Qed.

Lemma le_decode_bound b : 0 <= le_decode b < 256 ^ Z.of_nat (length b).
Proof.
  induction b as [|x b IH]; [cbn; lia|].
  cbn [le_decode length]. rewrite Nat2Z.inj_succ, Z.pow_succ_r by lia.
  pose proof (byte_val_bound x). lia.
Qed.

(** What a successful [read_raw] leaves behind, wherever the stream
    stands. *)
Lemma read_raw_success count st raw st' :
  0 <= count ->
  read_raw count st = Ok (raw, st') ->
  blen raw = count
  /\ raw = firstn (Z.to_nat count) (skipn (Z.to_nat (s_pos (st_stream st)))
                                      (s_data (st_stream st)))
  /\ st' = PState (Stream (s_data (st_stream st)) (s_pos (st_stream st) + count))
             (st_log st).
Proof.
  intros Hn. unfold read_raw, pbind, f_read, stream_read.
  destruct (Z.ltb_spec count 0); [lia|].
  set (r := firstn _ _).
  assert (Hle : blen r <= count).
  { unfold blen, r. pose proof (firstn_le_length (Z.to_nat count)
      (skipn (Z.to_nat (s_pos (st_stream st))) (s_data (st_stream st)))). lia. }
  destruct (Z.ltb_spec (blen r) count); [discriminate|].
  unfold pret. intros Heq. inversion Heq; subst.
  assert (Hr : blen r = count) by lia.
  rewrite Hr. auto.
Qed.

(** A little-endian integer read over [n] bytes. *)
Lemma read_le_success n st v st' :
  0 <= n ->
  (raw <- read_raw n ;; pret (le_decode raw)) st = Ok (v, st') ->
  0 <= v < 256 ^ n
  /\ st' = PState (Stream (s_data (st_stream st)) (s_pos (st_stream st) + n))
             (st_log st).
Proof.
  intros Hn Hr. bind_inv Hr. unfold pret in Hr. inversion Hr; subst.
  apply read_raw_success in Hstep as (Hlen & _ & ->); [|exact Hn].
  split; [|reflexivity].
  pose proof (le_decode_bound a) as Hb. unfold blen in Hlen.
  rewrite Hlen in Hb. exact Hb.
Qed.

(** X2. The integers that [read_uint16], [read_uint32] and [read_uint64]
    return are unsigned and fit their width; each read moves the position
    by the width and leaves the content of the stream alone. *)
Theorem read_uint_ranges st v st' :
  (read_uint16 st = Ok (v, st') ->
   0 <= v < 2 ^ 16 /\ s_pos (st_stream st') = s_pos (st_stream st) + 2)
  /\ (read_uint32 st = Ok (v, st') ->
      0 <= v < 2 ^ 32 /\ s_pos (st_stream st') = s_pos (st_stream st) + 4)
  /\ (read_uint64 st = Ok (v, st') ->
      0 <= v < 2 ^ 64 /\ s_pos (st_stream st') = s_pos (st_stream st) + 8).
Proof.
  split; [|split]; intros Hr.
  - apply (read_le_success 2) in Hr as [Hv ->]; [|lia]. split; [exact Hv | reflexivity].
  - apply (read_le_success 4) in Hr as [Hv ->]; [|lia]. split; [exact Hv | reflexivity].
  - apply (read_le_success 8) in Hr as [Hv ->]; [|lia]. split; [exact Hv | reflexivity].
Qed.

Lemma read_uint_ranges_witness :
  (0 <= 513 < 2 ^ 16
   /\ s_pos (st_stream (PState (Stream [x01; x02; x03] 2) []))
      = s_pos (st_stream (initial [x01; x02; x03])) + 2).
Proof.
  apply (proj1 (read_uint_ranges (initial [x01; x02; x03]) 513
                  (PState (Stream [x01; x02; x03] 2) []))).
  reflexivity.
Defined.

(** ** The GUID codec *)

(** X3. A blob that [guid_to_blob] returns has 16 bytes, and the
    reordering of the first three groups is its own inverse: applied to
    the blob, it gives back the bytes as the string writes them. Two GUID
    strings that spell different bytes therefore never share a blob, that
    is a key of the region and metadata dictionaries. *)
Theorem guid_to_blob_round_trip guid_string b :
  guid_to_blob guid_string = Ok b ->
  blen b = 16
  /\ fromhex (remove_dashes guid_string)
     = Ok (rev (firstn 4 b) ++ rev (firstn 2 (skipn 4 b))
             ++ rev (firstn 2 (skipn 6 b)) ++ skipn 8 b)%list.
Proof.
  unfold guid_to_blob.
  destruct (fromhex (remove_dashes guid_string)) as [x|e]; cbn [rbind];
    [|discriminate].
  destruct (Z.eqb_spec (blen x) 16) as [Hlen|]; cbn [negb]; [|discriminate].
  unfold blen in Hlen.
  assert (Hn : length x = 16%nat) by lia. clear Hlen.
  do 17 (destruct x as [|? x]; try discriminate Hn).
  intros H. inversion H; subst. split; reflexivity.
Qed.

Lemma guid_to_blob_round_trip_witness :
  blen (Image.blob REGION_GUID_BAT) = 16
  /\ fromhex (remove_dashes REGION_GUID_BAT)
     = Ok (rev (firstn 4 (Image.blob REGION_GUID_BAT))
             ++ rev (firstn 2 (skipn 4 (Image.blob REGION_GUID_BAT)))
             ++ rev (firstn 2 (skipn 6 (Image.blob REGION_GUID_BAT)))
             ++ skipn 8 (Image.blob REGION_GUID_BAT))%list.
Proof.
  apply (guid_to_blob_round_trip REGION_GUID_BAT). exact guid_to_blob_bat.
Defined.

(** White space between the bytes of a GUID string is skipped, as
    [bytes.fromhex] skips it; between the two digits of a byte it is an
    error. *)
Example guid_to_blob_skips_white_space :
  guid_to_blob (String "009"%char "2DC27766 -F623-4200- 9D64-115E9BFD4A08 ")
  = Ok (Image.blob REGION_GUID_BAT).
Proof. vm_compute. reflexivity. Qed.

Example guid_to_blob_white_space_within_a_byte :
  guid_to_blob "2 DC27766-F623-4200-9D64-115E9BFD4A08"
  = Raise (ValueError NonHexadecimal).
Proof. vm_compute. reflexivity. Qed.

(** ** BAT entries *)

Lemma land_7 raw : Z.land raw 0x07 = raw mod 8.
Proof. change 0x07 with (Z.ones 3). now rewrite Z.land_ones by lia. Qed.

Lemma offset_mb raw :
  0 <= raw < 2 ^ 64 ->
  Z.land (Z.shiftr raw 20) 0xfffffffffff = raw / 2 ^ 20.
Proof.
  intros Hraw. change 0xfffffffffff with (Z.ones 44).
  rewrite Z.land_ones, Z.shiftr_div_pow2 by lia.
  apply Z.mod_small. split; [apply Z.div_pos; lia|].
  apply Z.div_lt_upper_bound; [lia|].
  change (2 ^ 20 * 2 ^ 44) with (2 ^ 64). lia.
Qed.

(** X4. The decoding of a raw 64-bit BAT value: it succeeds whenever the
    low three bits are not 4 or 5; the state is the value of these bits
    and the file offset is the raw value with its low 20 bits cleared, a
    multiple of 1 MiB that is never beyond the raw value. *)
Theorem BatEntry_decode_fields raw :
  0 <= raw < 2 ^ 64 ->
  raw mod 8 <> 4 -> raw mod 8 <> 5 ->
  exists e,
    BatEntry_decode raw = Ok e
    /\ state_value (be_state e) = raw mod 8
    /\ be_offset e = raw - raw mod 1048576
    /\ be_offset e mod 1048576 = 0
    /\ 0 <= be_offset e <= raw.
Proof.
  intros Hraw H4 H5. unfold BatEntry_decode.
  rewrite land_7, (offset_mb raw Hraw). cbv zeta.
  assert (Hoff : raw / 2 ^ 20 * Z.shiftl 1 20 = raw - raw mod 1048576).
  { change (Z.shiftl 1 20) with 1048576. change (2 ^ 20) with 1048576.
    pose proof (Z.div_mod raw 1048576). lia. }
  assert (Hmul : (raw - raw mod 1048576) mod 1048576 = 0).
  { rewrite <- Hoff. change (Z.shiftl 1 20) with 1048576.
    apply Z.mod_mul. lia. }
  pose proof (Z.mod_pos_bound raw 1048576) as Hm20.
  assert (Hle : raw mod 1048576 <= raw) by (apply Z.mod_le; lia).
  pose proof (Z.mod_pos_bound raw 8) as Hm8.
  assert (Hcases : raw mod 8 = 0 \/ raw mod 8 = 1 \/ raw mod 8 = 2
                   \/ raw mod 8 = 3 \/ raw mod 8 = 6 \/ raw mod 8 = 7) by lia.
  unfold BatPayloadBlockState_of.
  destruct Hcases as [E|[E|[E|[E|[E|E]]]]]; rewrite E; cbn [Z.eqb rbind];
    eexists; (split; [reflexivity|]); unfold mkBatEntry;
    cbn [be_state be_offset state_value]; rewrite Hoff;
    repeat split; try reflexivity; try assumption; lia.
Qed.

Lemma BatEntry_decode_fields_witness :
  exists e,
    BatEntry_decode 0x300006 = Ok e
    /\ state_value (be_state e) = 0x300006 mod 8
    /\ be_offset e = 0x300006 - 0x300006 mod 1048576
    /\ be_offset e mod 1048576 = 0
    /\ 0 <= be_offset e <= 0x300006.
Proof.
  apply (BatEntry_decode_fields 0x300006);
    [split; [discriminate | reflexivity] | discriminate | discriminate].
Defined.

(** ** The layout of the structural regions *)

(** The stream of [st'] is the one of [st], [n] bytes further. *)
Definition advanced (n : Z) (st st' : pstate) : Prop :=
  st_stream st' = Stream (s_data (st_stream st)) (s_pos (st_stream st) + n).

Lemma advanced_trans n m st1 st2 st3 :
  advanced n st1 st2 -> advanced m st2 st3 -> advanced (n + m) st1 st3.
Proof.
  unfold advanced. intros H1 H2. rewrite H2, H1. cbn [s_data s_pos].
  f_equal. lia.
Qed.

Lemma advanced_refl st : advanced 0 st st.
Proof. unfold advanced. destruct st as [[d p] l]. cbn. f_equal. lia. Qed.

Lemma log_advanced msg st u st' : log msg st = Ok (u, st') -> advanced 0 st st'.
Proof.
  unfold log. intros H. inversion H; subst. unfold advanced. cbn [st_stream].
  destruct (st_stream st) as [d p]. cbn. f_equal. lia.
Qed.

Lemma read_raw_advanced count st raw st' :
  0 <= count -> read_raw count st = Ok (raw, st') -> advanced count st st'.
Proof.
  intros Hn H. apply read_raw_success in H as (_ & _ & ->); [|exact Hn].
  reflexivity.
Qed.

Lemma f_seek_cur_advanced delta st u st' :
  f_seek_cur delta st = Ok (u, st') -> advanced delta st st'.
Proof.
  unfold f_seek_cur, f_seek, stream_seek.
  destruct (_ <? 0); [discriminate|]. destruct (_ <=? _); [discriminate|].
  intros H. inversion H; subst. reflexivity.
Qed.

Lemma with_bytes_ok {A} raw (m : parser A) st a st' :
  with_bytes raw m st = Ok (a, st') ->
  advanced 0 st st'
  /\ exists st1, m (PState (Stream raw 0) (st_log st)) = Ok (a, st1).
Proof.
  unfold with_bytes.
  destruct (m _) as [[a' st1]|e]; [|discriminate].
  intros H. inversion H; subst. split; [|eauto].
  unfold advanced. cbn [st_stream]. destruct (st_stream st) as [d p].
  cbn. f_equal. lia.
Qed.

(** A read of [count > 0] bytes that succeeds at a position found the
    file that long. *)
Lemma read_raw_within count st raw st' :
  0 < count -> 0 <= s_pos (st_stream st) ->
  read_raw count st = Ok (raw, st') ->
  s_pos (st_stream st) + count <= blen (s_data (st_stream st)).
Proof.
  intros Hn Hp H.
  apply read_raw_success in H as (Hlen & -> & _); [|lia].
  rewrite read_length in Hlen by lia. lia.
Qed.

Lemma firstn_prefix {A} (n m : nat) (l : list A) :
  (n <= m)%nat -> firstn n (firstn m l) = firstn n l.
Proof. intros H. rewrite firstn_firstn. f_equal. lia. Qed.

(** The first bytes of a buffer that was read whole. *)
Lemma magic_of_block n count d p l raw st1 magic st2 l' :
  0 <= n <= count ->
  read_raw count (PState (Stream d p) l) = Ok (raw, st1) ->
  read_raw n (PState (Stream raw 0) l') = Ok (magic, st2) ->
  magic = firstn (Z.to_nat n) (skipn (Z.to_nat p) d)
  /\ st2 = PState (Stream raw n) l'.
Proof.
  intros Hn Hraw Hmagic.
  apply read_raw_success in Hraw as (_ & -> & _); [|lia].
  apply read_raw_success in Hmagic as (_ & -> & ->); [|lia].
  cbn [st_stream s_pos s_data st_log]. split; [|reflexivity].
  change (Z.to_nat 0) with 0%nat. cbn [skipn].
  apply firstn_prefix. lia.
Qed.

(** [FileIdentifier.from_stream] moves 64 KiB on; in strict mode it has
    seen the magic of the format. *)
Lemma FileIdentifier_from_stream_layout ignore_faults st x st' :
  FileIdentifier_from_stream ignore_faults st = Ok (x, st') ->
  advanced 65536 st st'
  /\ (ignore_faults = false ->
      firstn 8 (skipn (Z.to_nat (s_pos (st_stream st))) (s_data (st_stream st)))
      = VHDX_MAGIC).
Proof.
  unfold FileIdentifier_from_stream. intros H.
  bind_inv H. apply log_advanced in Hstep.
  bind_inv H. change (blen VHDX_MAGIC) with 8 in *.
  pose proof (read_raw_success 8 _ _ _ ltac:(lia) Hstep0) as (_ & Hmagic & _).
  apply read_raw_advanced in Hstep0; [|lia].
  destruct (negb (bytes_eqb a0 VHDX_MAGIC) && negb ignore_faults) eqn:Econd;
    [discriminate|].
  bind_inv H. apply read_raw_advanced in Hstep1; [|unfold CREATOR_LENGTH; lia].
  bind_inv H. apply f_seek_cur_advanced in Hstep2.
  unfold pret in H. injection H as _ <-.
  split.
  - pose proof (advanced_trans _ _ _ _ _ Hstep Hstep0) as H1.
    pose proof (advanced_trans _ _ _ _ _ H1 Hstep1) as H2.
    pose proof (advanced_trans _ _ _ _ _ H2 Hstep2) as H3.
    exact H3.
  - intros ->. rewrite andb_true_r in Econd.
    apply negb_false_iff, bytes_eqb_eq in Econd. subst a0.
    unfold advanced in Hstep. rewrite Hstep in Hmagic.
    cbn [s_pos s_data] in Hmagic. rewrite Z.add_0_r in Hmagic.
    symmetry. exact Hmagic.
Qed.

Lemma read_uint16_ok st v st' :
  read_uint16 st = Ok (v, st') -> 0 <= v < 2 ^ 16 /\ advanced 2 st st'.
Proof.
  intros H. apply (read_le_success 2) in H as [Hv ->]; [|lia].
  split; [exact Hv | reflexivity].
Qed.

Lemma read_uint32_ok st v st' :
  read_uint32 st = Ok (v, st') -> 0 <= v < 2 ^ 32 /\ advanced 4 st st'.
Proof.
  intros H. apply (read_le_success 4) in H as [Hv ->]; [|lia].
  split; [exact Hv | reflexivity].
Qed.

Lemma read_uint64_ok st v st' :
  read_uint64 st = Ok (v, st') -> 0 <= v < 2 ^ 64 /\ advanced 8 st st'.
Proof.
  intros H. apply (read_le_success 8) in H as [Hv ->]; [|lia].
  split; [exact Hv | reflexivity].
Qed.

Lemma read_guid_ok st g st' :
  read_guid st = Ok (g, st') -> blen g = 16 /\ advanced 16 st st'.
Proof.
  unfold read_guid. intros H.
  pose proof (read_raw_success 16 _ _ _ ltac:(lia) H) as (Hlen & _ & _).
  split; [exact Hlen | now apply read_raw_advanced in H].
Qed.

(** What the fields of a header are, as the block is decoded. *)
Record header_fields_ok (h : Header) : Prop := {
  hf_seq : 0 <= h_seq_number h < 2 ^ 64;
  hf_file_write_guid : blen (h_file_write_guid h) = 16;
  hf_data_write_guid : blen (h_data_write_guid h) = 16;
  hf_log_guid : blen (h_log_guid h) = 16;
  hf_log_version : 0 <= h_log_version h < 2 ^ 16;
  hf_log_length : 0 <= h_log_length h < 2 ^ 32;
  hf_log_offset : 0 <= h_log_offset h < 2 ^ 64
}.

(** Splits a hypothesis [(x <- m ;; k) st = Ok r], naming the parts. *)
Ltac bind_as H x s Hx :=
  apply pbind_ok in H; destruct H as (x & s & Hx & H).

Lemma guard_advanced (cond ignore_faults : bool) msg e st u st' :
  (if cond then if ignore_faults then log msg else praise e else pret tt) st
  = Ok (u, st') ->
  advanced 0 st st' /\ (ignore_faults = false -> cond = false).
Proof.
  destruct cond; [destruct ignore_faults|].
  - intros H. split; [eapply log_advanced; eauto | discriminate].
  - discriminate.
  - unfold pret. intros H. injection H as _ <-. split; [apply advanced_refl | reflexivity].
Qed.

(** [Header.from_stream] moves 64 KiB on; in strict mode it has seen the
    magic of a header and the version 1. *)
Lemma Header_from_stream_layout ignore_faults st h st' :
  Header_from_stream ignore_faults st = Ok (h, st') ->
  advanced 65536 st st'
  /\ header_fields_ok h
  /\ (0 <= s_pos (st_stream st) ->
      s_pos (st_stream st) + 4096 <= blen (s_data (st_stream st)))
  /\ (ignore_faults = false ->
      firstn 4 (skipn (Z.to_nat (s_pos (st_stream st))) (s_data (st_stream st)))
      = HEAD_MAGIC
      /\ h_version h = 1).
Proof.
  unfold Header_from_stream. intros H.
  destruct st as [[d p] l]. cbn [st_stream st_log s_pos s_data].
  bind_as H u0 s0 Hlog. unfold log in Hlog. injection Hlog as _ <-.
  cbn [st_stream st_log] in H.
  bind_as H header_raw s1 Hraw.
  bind_as H fields s2 Hwith.
  apply with_bytes_ok in Hwith as [Hwith [t Hfields]].
  bind_as H u3 s3 Hseek. apply f_seek_cur_advanced in Hseek.
  bind_as H u4 s4 Hversion. apply guard_advanced in Hversion as [Hv4 Hversion].
  unfold pret in H. injection H as <- <-.
  assert (Hadv : advanced 65536 (PState (Stream d p) l) s4).
  { pose proof (read_raw_advanced 4096 _ _ _ ltac:(lia) Hraw) as H1.
    pose proof (advanced_trans _ _ _ _ _ H1 Hwith) as H2.
    pose proof (advanced_trans _ _ _ _ _ H2 Hseek) as H3.
    pose proof (advanced_trans _ _ _ _ _ H3 Hv4) as H4.
    exact H4. }
  split; [exact Hadv|].
  cbn [st_log] in Hfields.
  bind_as Hfields magic t1 Hmagic.
  destruct (magic_of_block 4 4096 d p _ header_raw _ magic _ _
              ltac:(lia) Hraw Hmagic) as [Emagic ->].
  bind_as Hfields u5 t2 Hcheck. apply guard_advanced in Hcheck as [_ Hcheck].
  bind_as Hfields checksum t3 Hc.
  bind_as Hfields seq_number t4 Hseq. apply read_uint64_ok in Hseq as [Hseq _].
  bind_as Hfields g1 t5 Hg1. apply read_guid_ok in Hg1 as [Hg1 _].
  bind_as Hfields g2 t6 Hg2. apply read_guid_ok in Hg2 as [Hg2 _].
  bind_as Hfields g3 t7 Hg3. apply read_guid_ok in Hg3 as [Hg3 _].
  bind_as Hfields log_version t8 Hlv. apply read_uint16_ok in Hlv as [Hlv _].
  bind_as Hfields version t9 Hver.
  bind_as Hfields log_length t10 Hll. apply read_uint32_ok in Hll as [Hll _].
  bind_as Hfields log_offset t11 Hlo. apply read_uint64_ok in Hlo as [Hlo _].
  unfold pret in Hfields. injection Hfields as <- _.
  cbn [h_version] in *.
  split; [constructor; assumption|].
  split.
  - intros Hp. apply (read_raw_within 4096) in Hraw; [|lia|exact Hp].
    exact Hraw.
  - intros ->. split.
    + specialize (Hcheck eq_refl). apply negb_false_iff, bytes_eqb_eq in Hcheck.
      rewrite <- Hcheck. symmetry. exact Emagic.
    + specialize (Hversion eq_refl). apply negb_false_iff in Hversion.
      now apply Z.eqb_eq in Hversion.
Qed.

(** *** Region tables as they are parsed *)

(** Every entry sits under its own GUID, and its fields have the widths
    they were read with. *)
Definition region_entries_ok (t : RegionTable) : Prop :=
  forall k e, In (k, e) t ->
    rte_guid e = k /\ blen k = 16
    /\ 0 <= rte_offset e < 2 ^ 64 /\ 0 <= rte_length e < 2 ^ 32.

Lemma bdict_set_in {V} (d : bdict V) k v x y :
  In (x, y) (bdict_set d k v) -> In (x, y) d \/ (x = k /\ y = v).
Proof.
  induction d as [|[k' v'] d IH]; cbn [dict_set].
  - intros [H|[]]. inversion H; auto.
  - destruct (bytes_eqb k' k) eqn:E.
    + apply bytes_eqb_eq in E. subst k'.
      intros [H|H]; [inversion H; auto | left; now right].
    + intros [H|H]; [left; now left|].
      destruct (IH H) as [Hin|Heq]; [left; now right | now right].
Qed.

Lemma bdict_get_none_keys {V} (d : bdict V) k :
  bdict_get d k = None -> ~ In k (map fst d).
Proof.
  intros Hnone Hin. apply bdict_get_in in Hin as [v Hv]. congruence.
Qed.

Lemma bdict_set_keys_new {V} (d : bdict V) k v :
  bdict_get d k = None ->
  map fst (bdict_set d k v) = (map fst d ++ [k])%list.
Proof.
  induction d as [|[k' v'] d IH]; cbn [dict_get dict_set map fst app];
    [reflexivity|].
  destruct (bytes_eqb k' k); [discriminate|].
  intros H. cbn [map fst]. now rewrite (IH H).
Qed.

Lemma bdict_set_keys_old {V} (d : bdict V) k v v0 :
  bdict_get d k = Some v0 -> map fst (bdict_set d k v) = map fst d.
Proof.
  induction d as [|[k' v'] d IH]; cbn [dict_get dict_set map fst];
    [discriminate|].
  destruct (bytes_eqb k' k); [reflexivity|].
  intros H. cbn [map fst]. now rewrite (IH H).
Qed.

Lemma NoDup_snoc {A} (l : list A) x : NoDup l -> ~ In x l -> NoDup (l ++ [x]).
Proof.
  intros Hl Hx. apply NoDup_rev in Hl. rewrite <- (rev_involutive (l ++ [x])).
  apply NoDup_rev. rewrite rev_app_distr. cbn [rev app].
  constructor; [|exact Hl]. now rewrite <- in_rev.
Qed.

Lemma RegionTableEntry_from_stream_ok st e st' :
  RegionTableEntry_from_stream st = Ok (e, st') ->
  advanced 32 st st'
  /\ blen (rte_guid e) = 16
  /\ 0 <= rte_offset e < 2 ^ 64 /\ 0 <= rte_length e < 2 ^ 32
  /\ (0 <= s_pos (st_stream st) ->
      s_pos (st_stream st) + 32 <= blen (s_data (st_stream st))).
Proof.
  unfold RegionTableEntry_from_stream. intros H.
  bind_as H guid s1 Hg. apply read_guid_ok in Hg as [Hg A1].
  bind_as H file_offset s2 Ho. apply read_uint64_ok in Ho as [Ho A2].
  bind_as H len s3 Hl. apply read_uint32_ok in Hl as [Hl A3].
  bind_as H flags s4 Hf.
  pose proof Hf as Hlast. apply read_uint32_ok in Hf as [_ A4].
  unfold pret in H. injection H as <- <-.
  cbn [rte_guid rte_offset rte_length].
  pose proof (advanced_trans _ _ _ _ _ A1 A2) as B2.
  pose proof (advanced_trans _ _ _ _ _ B2 A3) as B3.
  pose proof (advanced_trans _ _ _ _ _ B3 A4) as B4.
  repeat split; try assumption; try lia.
  intros Hp. unfold read_uint32 in Hlast.
  bind_as Hlast raw s5 Hraw.
  apply (read_raw_within 4) in Hraw; [|lia|].
  - unfold advanced in B3. rewrite B3 in Hraw. cbn [s_pos s_data] in Hraw. lia.
  - unfold advanced in B3. rewrite B3. cbn [s_pos]. lia.
Qed.

(** The loop over the entries of a region table. *)
Lemma read_region_entries_ok ignore_faults n :
  forall t st t' st',
    read_region_entries ignore_faults n t st = Ok (t', st') ->
    advanced (32 * Z.of_nat n) st st'
    /\ (region_entries_ok t -> region_entries_ok t')
    /\ (NoDup (map fst t) -> NoDup (map fst t'))
    /\ (length t' <= n + length t)%nat
    /\ (ignore_faults = false -> length t' = (n + length t)%nat)
    /\ (0 <= s_pos (st_stream st) ->
        s_pos (st_stream st) + 32 * Z.of_nat n <= blen (s_data (st_stream st))
        \/ n = 0%nat).
Proof.
  induction n as [|n IH]; intros t st t' st' H; cbn [read_region_entries] in H.
  - unfold pret in H. injection H as <- <-.
    split; [apply advanced_refl|].
    split; [auto|]. split; [auto|]. split; [cbn; lia|].
    split; [reflexivity | now right].
  - bind_as H entry s1 He.
    apply RegionTableEntry_from_stream_ok in He as (A1 & Hg & Ho & Hl & Hin).
    bind_as H u s2 Hguard.
    apply guard_advanced in Hguard as [A2 Hstrict].
    apply IH in H as (A3 & Hok & Hnd & Hle & Heq & Hwithin).
    pose proof (advanced_trans _ _ _ _ _ A1 A2) as B2.
    pose proof (advanced_trans _ _ _ _ _ B2 A3) as B3.
    assert (Hkeys :
      map fst (bdict_set t (rte_guid entry) entry) = map fst t
      \/ (bdict_get t (rte_guid entry) = None
          /\ map fst (bdict_set t (rte_guid entry) entry)
             = (map fst t ++ [rte_guid entry])%list)).
    { destruct (bdict_get t (rte_guid entry)) as [v0|] eqn:E.
      - left. eapply bdict_set_keys_old; eauto.
      - right. split; [reflexivity | now apply bdict_set_keys_new]. }
    assert (Hlen : (length (bdict_set t (rte_guid entry) entry) <= S (length t))%nat
                   /\ (bdict_get t (rte_guid entry) = None ->
                       length (bdict_set t (rte_guid entry) entry) = S (length t))).
    { rewrite <- !(length_map fst).
      destruct (bdict_get t (rte_guid entry)) as [v0|] eqn:E.
      - rewrite (bdict_set_keys_old _ _ _ _ E). split; [lia | discriminate].
      - rewrite (bdict_set_keys_new _ _ _ E), length_app. cbn [length].
        split; intros; lia. }
    split; [|split; [|split; [|split; [|split]]]].
    + replace (32 * Z.of_nat (S n)) with (32 + 0 + 32 * Z.of_nat n) by lia.
      exact B3.
    + intros Ht. apply Hok. intros k e Hke.
      apply bdict_set_in in Hke as [Hke|[-> ->]]; [now apply Ht|].
      repeat split; try assumption; lia.
    + intros Ht. apply Hnd.
      destruct Hkeys as [->|[Hnone ->]]; [exact Ht|].
      apply NoDup_snoc; [exact Ht | now apply bdict_get_none_keys].
    + lia.
    + intros Hs. specialize (Heq Hs). specialize (Hstrict Hs).
      unfold dict_contains in Hstrict.
      destruct (bdict_get t (rte_guid entry)); [discriminate|].
      destruct Hlen as [_ Hlen]. rewrite Heq, Hlen by reflexivity. lia.
    + intros Hp. left.
      unfold advanced in A1, A2.
      assert (Hs2 : st_stream s2
                    = Stream (s_data (st_stream st)) (s_pos (st_stream st) + 32)).
      { rewrite A2, A1. cbn [s_data s_pos]. f_equal. lia. }
      rewrite Hs2 in Hwithin. cbn [s_data s_pos] in Hwithin.
      specialize (Hin Hp).
      destruct Hwithin as [Hw | Hn0]; [lia | | subst n; lia].
      cbn [s_pos]. lia.
Qed.

(** [RegionTable.from_stream] reads a whole block of 64 KiB that starts
    with the magic of a region table, in either mode; a table never
    holds more than 2047 entries, as no more fit the block. *)
Lemma RegionTable_from_stream_layout ignore_faults st t st' :
  RegionTable_from_stream ignore_faults st = Ok (t, st') ->
  advanced 65536 st st'
  /\ region_entries_ok t
  /\ NoDup (map fst t)
  /\ (length t <= 2047)%nat
  /\ firstn 4 (skipn (Z.to_nat (s_pos (st_stream st))) (s_data (st_stream st)))
     = REGION_TABLE_MAGIC
  /\ (0 <= s_pos (st_stream st) ->
      s_pos (st_stream st) + 65536 <= blen (s_data (st_stream st))).
Proof.
  unfold RegionTable_from_stream. intros H.
  destruct st as [[d p] l]. cbn [st_stream st_log s_pos s_data].
  bind_as H u0 s0 Hlog. unfold log in Hlog. injection Hlog as _ <-.
  cbn [st_stream st_log] in H.
  bind_as H region_table_raw s1 Hraw.
  change (1024 * 64) with 65536 in Hraw.
  apply with_bytes_ok in H as [Hwith [t1 Hbody]].
  pose proof (read_raw_advanced 65536 _ _ _ ltac:(lia) Hraw) as A1.
  pose proof (read_raw_success 65536 _ _ _ ltac:(lia) Hraw) as (Hlen & _ & _).
  split; [exact (advanced_trans _ _ _ _ _ A1 Hwith)|].
  bind_as Hbody magic t2 Hmagic.
  destruct (magic_of_block 4 65536 d p _ region_table_raw _ magic _ _
              ltac:(lia) Hraw Hmagic) as [Emagic ->].
  bind_as Hbody u1 t3 Hcheck.
  assert (Hm : bytes_eqb magic REGION_TABLE_MAGIC = true /\ advanced 0 (PState (Stream region_table_raw 4) (st_log s1)) t3).
  { destruct (bytes_eqb magic REGION_TABLE_MAGIC); cbn [negb] in Hcheck.
    - unfold pret in Hcheck. injection Hcheck as _ <-.
      split; [reflexivity | apply advanced_refl].
    - bind_as Hcheck u2 t4 Hl. discriminate. }
  destruct Hm as [Hm A2]. apply bytes_eqb_eq in Hm.
  bind_as Hbody checksum t4 Hc. apply read_uint32_ok in Hc as [_ A3].
  bind_as Hbody entry_count t5 Hec. apply read_uint32_ok in Hec as [Hec A4].
  bind_as Hbody u3 t6 Hover. apply guard_advanced in Hover as [A5 _].
  bind_as Hbody reserved t7 Hres. apply read_uint32_ok in Hres as [_ A6].
  bind_as Hbody u4 t8 Hlog. pose proof (log_advanced _ _ _ _ Hlog) as A7.
  apply read_region_entries_ok in Hbody
    as (_ & Hok & Hnd & Hle & _ & Hwithin).
  assert (Hpos : st_stream t8 = Stream region_table_raw 16).
  { pose proof (advanced_trans _ _ _ _ _ A2 A3) as B3.
    pose proof (advanced_trans _ _ _ _ _ B3 A4) as B4.
    pose proof (advanced_trans _ _ _ _ _ B4 A5) as B5.
    pose proof (advanced_trans _ _ _ _ _ B5 A6) as B6.
    pose proof (advanced_trans _ _ _ _ _ B6 A7) as B7.
    exact B7. }
  rewrite Hpos in Hwithin. cbn [s_pos s_data] in Hwithin.
  split; [apply Hok; intros k e []|].
  split; [apply Hnd; constructor|].
  split.
  - cbn [length] in Hle. destruct Hwithin as [Hw | Hn0]; lia.
  - split; [rewrite <- Hm; symmetry; exact Emagic|].
    intros Hp. apply (read_raw_within 65536) in Hraw; [exact Hraw | lia | exact Hp].
Qed.

Lemma bdict_get_some_in {V} (d : bdict V) k v :
  bdict_get d k = Some v -> In (k, v) d.
Proof.
  induction d as [|[k' v'] d IH]; cbn [dict_get]; [discriminate|].
  destruct (bytes_eqb k' k) eqn:E.
  - apply bytes_eqb_eq in E. subst k'. intros H. injection H as ->. now left.
  - intros H. right. auto.
Qed.

(** The header phase of [__init__]: three blocks of 64 KiB. *)
Lemma read_headers_layout ignore_faults file current st1 :
  read_headers ignore_faults (initial file) = Ok (current, st1) ->
  st_stream st1 = Stream file 196608
  /\ 135168 <= blen file
  /\ (ignore_faults = false -> firstn 8 file = VHDX_MAGIC)
  /\ firstn 4 (skipn (Z.to_nat 65536) file) = HEAD_MAGIC
  /\ firstn 4 (skipn (Z.to_nat 131072) file) = HEAD_MAGIC
  /\ h_version current = 1
  /\ header_fields_ok current.
Proof.
  unfold read_headers. intros H.
  bind_as H file_identifier s1 Hfi.
  apply FileIdentifier_from_stream_layout in Hfi as [A1 Hmagic].
  bind_as H header_a s2 Ha.
  apply Header_from_stream_layout in Ha as (A2 & Hfa & _ & Hsa).
  bind_as H header_b s3 Hb.
  apply Header_from_stream_layout in Hb as (A3 & Hfb & Hlen & Hsb).
  bind_as H u s4 Hlog. apply log_advanced in Hlog.
  unfold pret in H. injection H as <- <-.
  unfold advanced, initial in *. cbn [st_stream s_pos s_data] in *.
  rewrite A1 in A2. cbn [s_pos s_data] in A2.
  rewrite A2 in A3, Hsb, Hlen. cbn [s_pos s_data] in A3, Hsb, Hlen.
  rewrite A1 in Hsa. cbn [s_pos s_data] in Hsa.
  rewrite A3 in Hlog. cbn [s_pos s_data] in Hlog.
  destruct (Hsa eq_refl) as [Hma Hva]. destruct (Hsb eq_refl) as [Hmb Hvb].
  split; [exact Hlog|]. split; [lia|].
  split; [exact Hmagic|]. split; [exact Hma|]. split; [exact Hmb|].
  unfold current_header.
  destruct (sequence_number header_b <? sequence_number header_a); auto.
Qed.

Lemma compare_region_tables_first table_a table_b r :
  compare_region_tables table_a table_b = Ok r -> r = table_a.
Proof.
  unfold compare_region_tables.
  destruct (negb _); [discriminate|].
  destruct (compare_region_entries _ _ _); cbn [rbind]; [|discriminate].
  intros H. now injection H as <-.
Qed.

(** The region table phase: two more blocks of 64 KiB. *)
Lemma read_region_tables_layout file l region_table st2 :
  read_region_tables (PState (Stream file 196608) l) = Ok (region_table, st2) ->
  st_stream st2 = Stream file 327680
  /\ 327680 <= blen file
  /\ firstn 4 (skipn (Z.to_nat 196608) file) = REGION_TABLE_MAGIC
  /\ firstn 4 (skipn (Z.to_nat 262144) file) = REGION_TABLE_MAGIC
  /\ region_entries_ok region_table
  /\ NoDup (map fst region_table)
  /\ (length region_table <= 2047)%nat.
Proof.
  unfold read_region_tables. intros H.
  bind_as H region_table_a s1 Ha.
  apply RegionTable_from_stream_layout in Ha as (A1 & Hok & Hnd & Hle & Hma & _).
  bind_as H region_table_b s2 Hb.
  apply RegionTable_from_stream_layout in Hb as (A2 & _ & _ & _ & Hmb & Hlen).
  apply plift_ok in H as [Hcmp ->].
  apply compare_region_tables_first in Hcmp. subst region_table.
  unfold advanced in *. cbn [st_stream s_pos s_data] in *.
  rewrite A1 in A2, Hmb, Hlen. cbn [s_pos s_data] in A2, Hmb, Hlen.
  split; [exact A2|]. split; [lia|]. auto.
Qed.

(** X5. A file that [__init__] accepts, in either mode, holds at least
    the five structural blocks (320 KiB), with the magic of a header at
    64 KiB and 128 KiB and the magic of a region table at 192 KiB and
    256 KiB: tolerant mode relaxes none of these; it only waives the
    magic of the file identifier, which strict mode requires. *)
Theorem opened_file_layout file ignore_faults fallback_metas v l :
  VhdxFile_init file ignore_faults fallback_metas = Ok (v, l) ->
  327680 <= blen file
  /\ firstn 4 (skipn (Z.to_nat 65536) file) = HEAD_MAGIC
  /\ firstn 4 (skipn (Z.to_nat 131072) file) = HEAD_MAGIC
  /\ firstn 4 (skipn (Z.to_nat 196608) file) = REGION_TABLE_MAGIC
  /\ firstn 4 (skipn (Z.to_nat 262144) file) = REGION_TABLE_MAGIC
  /\ (ignore_faults = false -> firstn 8 file = VHDX_MAGIC).
Proof.
  intros Hopen.
  apply VhdxFile_init_phases in Hopen
    as (cur & s1 & rt & s2 & mu & s3 & s4 & Hh & Hr & _ & _).
  apply read_headers_layout in Hh as (Hs1 & _ & Hfi & Hha & Hhb & _).
  destruct s1 as [str1 l1]. cbn [st_stream] in Hs1. subst str1.
  apply read_region_tables_layout in Hr as (_ & Hlen & Hra & Hrb & _).
  auto 10.
Qed.

(** X6. The header of an opened container, in either mode, has version
    1, as the two headers are parsed strictly whatever [ignore_faults]
    says; its sequence number and log fields are unsigned integers of
    the widths read, and its three GUIDs have 16 bytes. *)
Theorem opened_header_fields file ignore_faults fallback_metas v l :
  VhdxFile_init file ignore_faults fallback_metas = Ok (v, l) ->
  h_version (header v) = 1
  /\ 0 <= sequence_number (header v) < 2 ^ 64
  /\ blen (h_file_write_guid (header v)) = 16
  /\ blen (h_data_write_guid (header v)) = 16
  /\ blen (h_log_guid (header v)) = 16
  /\ 0 <= h_log_version (header v) < 2 ^ 16
  /\ 0 <= h_log_length (header v) < 2 ^ 32
  /\ 0 <= h_log_offset (header v) < 2 ^ 64.
Proof.
  intros Hopen.
  apply VhdxFile_init_phases in Hopen
    as (cur & s1 & rt & s2 & mu & s3 & s4 & Hh & _ & _ & Hc).
  apply read_headers_layout in Hh as (_ & _ & _ & _ & _ & Hv & Hf).
  apply configure_fields in Hc as (_ & Hcur & _).
  unfold header, sequence_number. rewrite Hcur.
  destruct Hf. auto 10.
Qed.

(** X7. The region table of an opened container has at most 2047
    entries, and every entry is stored under its own GUID, of 16 bytes,
    with an offset below 2^64 and a length below 2^32. *)
Theorem opened_region_table file ignore_faults fallback_metas v l :
  VhdxFile_init file ignore_faults fallback_metas = Ok (v, l) ->
  (length (region_table v) <= 2047)%nat
  /\ forall key entry,
       bdict_get (region_table v) key = Some entry ->
       rte_guid entry = key /\ blen key = 16
       /\ 0 <= rte_offset entry < 2 ^ 64
       /\ 0 <= rte_length entry < 2 ^ 32.
Proof.
  intros Hopen.
  apply VhdxFile_init_phases in Hopen
    as (cur & s1 & rt & s2 & mu & s3 & s4 & Hh & Hr & _ & Hc).
  apply read_headers_layout in Hh as (Hs1 & _).
  destruct s1 as [str1 l1]. cbn [st_stream] in Hs1. subst str1.
  apply read_region_tables_layout in Hr as (_ & _ & _ & _ & Hok & _ & Hle).
  apply configure_fields in Hc as (_ & _ & Hrt & _).
  unfold region_table. rewrite Hrt. split; [exact Hle|].
  intros key entry Hget. apply Hok. now apply bdict_get_some_in.
Qed.

Lemma opened_file_layout_witness :
  327680 <= blen Image.fixed_disk
  /\ firstn 4 (skipn (Z.to_nat 65536) Image.fixed_disk) = HEAD_MAGIC
  /\ firstn 4 (skipn (Z.to_nat 131072) Image.fixed_disk) = HEAD_MAGIC
  /\ firstn 4 (skipn (Z.to_nat 196608) Image.fixed_disk) = REGION_TABLE_MAGIC
  /\ firstn 4 (skipn (Z.to_nat 262144) Image.fixed_disk) = REGION_TABLE_MAGIC
  /\ (false = false -> firstn 8 Image.fixed_disk = VHDX_MAGIC).
Proof.
  apply (opened_file_layout Image.fixed_disk false None Disks.fixed Disks.open_log).
  exact Disks.fixed_opened.
Defined.

Lemma opened_header_fields_witness :
  h_version (header Disks.fixed) = 1
  /\ 0 <= sequence_number (header Disks.fixed) < 2 ^ 64
  /\ blen (h_file_write_guid (header Disks.fixed)) = 16
  /\ blen (h_data_write_guid (header Disks.fixed)) = 16
  /\ blen (h_log_guid (header Disks.fixed)) = 16
  /\ 0 <= h_log_version (header Disks.fixed) < 2 ^ 16
  /\ 0 <= h_log_length (header Disks.fixed) < 2 ^ 32
  /\ 0 <= h_log_offset (header Disks.fixed) < 2 ^ 64.
Proof.
  apply (opened_header_fields Image.fixed_disk false None Disks.fixed Disks.open_log).
  exact Disks.fixed_opened.
Defined.

Lemma opened_region_table_witness :
  (length (region_table Disks.fixed) <= 2047)%nat
  /\ forall key entry,
       bdict_get (region_table Disks.fixed) key = Some entry ->
       rte_guid entry = key /\ blen key = 16
       /\ 0 <= rte_offset entry < 2 ^ 64
       /\ 0 <= rte_length entry < 2 ^ 32.
Proof.
  apply (opened_region_table Image.fixed_disk false None Disks.fixed Disks.open_log).
  exact Disks.fixed_opened.
Defined.

(** ** The comparison of the region tables, the other way round *)

Lemma RegionTableEntry_eq_true ea eb :
  RegionTableEntry_eq ea eb = true ->
  rte_guid ea = rte_guid eb /\ rte_offset ea = rte_offset eb
  /\ rte_length ea = rte_length eb.
Proof.
  unfold RegionTableEntry_eq. intros H.
  apply andb_prop in H as [H Ho]. apply andb_prop in H as [Hg Hl].
  apply bytes_eqb_eq in Hg. apply Z.eqb_eq in Ho, Hl. auto.
Qed.

Lemma compare_region_entries_sound keys table_a table_b :
  compare_region_entries keys table_a table_b = Ok tt ->
  forall key, In key keys ->
  exists ea eb, bdict_get table_a key = Some ea
                /\ bdict_get table_b key = Some eb
                /\ RegionTableEntry_eq ea eb = true.
Proof.
  induction keys as [|k keys IH]; cbn [compare_region_entries]; [intros _ ? []|].
  unfold dict_item.
  destruct (bdict_get table_a k) as [ea|] eqn:Ea; cbn [rbind]; [|discriminate].
  destruct (bdict_get table_b k) as [eb|] eqn:Eb; cbn [rbind]; [|discriminate].
  destruct (RegionTableEntry_eq ea eb) eqn:E; cbn [negb]; [|discriminate].
  intros H key [<-|Hin]; [eauto | now apply IH].
Qed.

Lemma compare_region_entries_raise keys table_a table_b e :
  compare_region_entries keys table_a table_b = Raise e ->
  e = ValueError RegionTablesDoNotMatch \/ e = KeyError.
Proof.
  induction keys as [|k keys IH]; cbn [compare_region_entries]; [discriminate|].
  unfold dict_item.
  destruct (bdict_get table_a k); cbn [rbind];
    [|intros H; injection H as <-; now right].
  destruct (bdict_get table_b k); cbn [rbind];
    [|intros H; injection H as <-; now right].
  destruct (negb _); [intros H; injection H as <-; now left | exact IH].
Qed.

Lemma bdict_get_key {V} (d : bdict V) k v :
  bdict_get d k = Some v -> In k (map fst d).
Proof.
  intros H. apply bdict_get_some_in in H.
  change k with (fst (k, v)). now apply in_map.
Qed.

(** X8. The comparison of the two region tables accepts only tables that
    agree: when it succeeds it returns the first table, the two have the
    same number of entries and every entry of the first has an entry of
    the second under the same key with the same GUID, offset and length.
    When it fails, it fails with the [ValueError] for tables that do not
    match or with a [KeyError], and with nothing else. *)
Theorem compare_region_tables_outcome table_a table_b :
  (forall r, compare_region_tables table_a table_b = Ok r ->
             r = table_a /\ agree_modulo_required table_a table_b)
  /\ (forall e, compare_region_tables table_a table_b = Raise e ->
                e = ValueError RegionTablesDoNotMatch \/ e = KeyError).
Proof.
  unfold compare_region_tables. split.
  - intros r.
    destruct (Nat.eqb_spec (length table_a) (length table_b)) as [Hlen|];
      cbn [negb]; [|discriminate].
    destruct (compare_region_entries _ _ _) as [[]|] eqn:E; cbn [rbind];
      [|discriminate].
    intros H. injection H as <-. split; [reflexivity|].
    split; [exact Hlen|]. intros key ea Hget.
    destruct (compare_region_entries_sound _ _ _ E key (bdict_get_key _ _ _ Hget))
      as (ea' & eb & Ha & Hb & Heq).
    rewrite Hget in Ha. injection Ha as <-.
    exists eb. split; [exact Hb|]. now apply RegionTableEntry_eq_true.
  - intros e. destruct (negb _); [intros H; injection H as <-; now left|].
    destruct (compare_region_entries _ _ _) as [[]|e'] eqn:E; cbn [rbind];
      [discriminate|].
    intros H. injection H as <-. eapply compare_region_entries_raise; eauto.
Qed.

Lemma compare_region_tables_outcome_witness :
  Disks.standard_regions 128 = Disks.standard_regions 128
  /\ agree_modulo_required (Disks.standard_regions 128) (Disks.standard_regions 128).
Proof.
  apply (proj1 (compare_region_tables_outcome (Disks.standard_regions 128)
                  (Disks.standard_regions 128))).
  vm_compute. reflexivity.
Defined.

Lemma compare_region_entries_missing keys table_a table_b key :
  (forall k, In k keys -> In k (map fst table_a)) ->
  In key keys -> bdict_get table_b key = None ->
  (forall k ea eb, bdict_get table_a k = Some ea -> bdict_get table_b k = Some eb ->
                   RegionTableEntry_eq ea eb = true) ->
  compare_region_entries keys table_a table_b = Raise KeyError.
Proof.
  intros Hsub Hin Hnone Hmatch.
  induction keys as [|k keys IH]; [destruct Hin|].
  cbn [compare_region_entries]. unfold dict_item.
  destruct (bdict_get_in table_a k) as [ea Hea]; [apply Hsub; now left|].
  rewrite Hea. cbn [rbind].
  destruct (bdict_get table_b k) as [eb|] eqn:Eb; cbn [rbind]; [|reflexivity].
  rewrite (Hmatch k ea eb Hea Eb). cbn [negb].
  apply IH; [intros k' Hk'; apply Hsub; now right|].
  destruct Hin as [->|Hin]; [congruence | exact Hin].
Qed.

(** X9. Two region tables of the same size that name different regions
    are not reported as tables that do not match: when a key of the
    first table is missing from the second, and the entries under the
    keys they share are equal, the comparison raises [KeyError]. *)
Theorem compare_region_tables_missing_key table_a table_b key :
  length table_a = length table_b ->
  In key (map fst table_a) ->
  bdict_get table_b key = None ->
  (forall k ea eb, bdict_get table_a k = Some ea -> bdict_get table_b k = Some eb ->
                   RegionTableEntry_eq ea eb = true) ->
  compare_region_tables table_a table_b = Raise KeyError.
Proof.
  intros Hlen Hin Hnone Hmatch. unfold compare_region_tables.
  rewrite Hlen, Nat.eqb_refl. cbn [negb].
  rewrite (compare_region_entries_missing _ _ _ key); auto.
Qed.

Lemma compare_region_tables_missing_key_witness :
  compare_region_tables
    [(Image.blob REGION_GUID_BAT,
      {| rte_guid := Image.blob REGION_GUID_BAT; rte_offset := 0x70000;
         rte_length := 128; rte_required := true |})]
    [(Image.blob REGION_GUID_METADATA,
      {| rte_guid := Image.blob REGION_GUID_METADATA; rte_offset := 0x50000;
         rte_length := 0x20000; rte_required := true |})]
  = Raise KeyError.
Proof.
  apply (compare_region_tables_missing_key _ _ (Image.blob REGION_GUID_BAT)).
  - reflexivity.
  - left. reflexivity.
  - vm_compute. reflexivity.
  - intros k ea eb Ha Hb. cbn [dict_get] in Ha, Hb.
    destruct (bytes_eqb (Image.blob REGION_GUID_BAT) k) eqn:E1; [|discriminate].
    destruct (bytes_eqb (Image.blob REGION_GUID_METADATA) k) eqn:E2;
      [|discriminate].
    apply bytes_eqb_eq in E1, E2. subst k. vm_compute in E2. discriminate.
Defined.

(** ** The items of a metadata table *)

(** The item ids that [parse_metadata_entry] has a parser for. *)
Definition known_item (item_id : bytes) : Prop :=
  exists guid_string,
    In guid_string (map fst metadata_parsers)
    /\ guid_to_blob guid_string = Ok item_id.

Lemma build_dispatch_keys l :
  forall d table,
    build_dispatch l d = Ok table ->
    forall k, In k (map fst table) ->
      In k (map fst d)
      \/ exists g, In g (map fst l) /\ guid_to_blob g = Ok k.
Proof.
  induction l as [|[g p] l IH]; cbn [build_dispatch]; intros d table H k Hk.
  - injection H as <-. now left.
  - destruct (guid_to_blob g) as [blob|] eqn:Eg; cbn [rbind] in H; [|discriminate].
    destruct (IH _ _ H k Hk) as [Hin|(g' & Hg' & Hblob)].
    + apply in_map_iff in Hin as ([k' p'] & <- & Hin).
      apply bdict_set_in in Hin as [Hin|[-> ->]].
      * left. change k' with (fst (k', p')). now apply in_map.
      * right. exists g. split; [now left | exact Eg].
    + right. exists g'. split; [now right | exact Hblob].
Qed.

(** An item id without a parser ends the generator with [KeyError]. *)
Lemma parse_metadata_entry_known data item_id st g st' :
  parse_metadata_entry data item_id st = Ok (g, st') ->
  snd g = None -> known_item item_id.
Proof.
  unfold parse_metadata_entry.
  destruct (build_dispatch metadata_parsers []) as [table|e] eqn:Etable;
    [|unfold pret; intros H; injection H as <- _; discriminate].
  destruct (bdict_get table item_id) as [p|] eqn:Eget;
    [|unfold pret; intros H; injection H as <- _; discriminate].
  intros _ _. apply bdict_get_key in Eget.
  destruct (build_dispatch_keys _ _ _ Etable _ Eget) as [[]|Hk]. exact Hk.
Qed.

Lemma load_meta_items_known origin entries :
  forall metas st metas' st',
    load_meta_items origin entries metas st = Ok (metas', st') ->
    Forall (fun entry => known_item (mte_item_id entry)) entries.
Proof.
  induction entries as [|entry rest IH]; intros metas st metas' st' H;
    [constructor|].
  cbn [load_meta_items] in H.
  bind_as H u s1 Hseek. bind_as H data s2 Hdata. bind_as H g s3 Hparse.
  bind_as H m s4 Hadd.
  destruct (snd g) as [e|] eqn:Esnd; [discriminate|].
  constructor; [eapply parse_metadata_entry_known; eauto | eapply IH; eauto].
Qed.

(** X10. A metadata table parses, in strict and in tolerant mode alike,
    only if every item it lists is one of the six items the reader has a
    parser for: an entry with any other item id, a user item for
    instance, makes [MetadataTable.from_stream] raise. *)
Theorem MetadataTable_items_known ignore_faults st t st' :
  MetadataTable_from_stream ignore_faults st = Ok (t, st') ->
  Forall (fun entry => known_item (mte_item_id entry)) (mt_entries_raw t).
Proof.
  unfold MetadataTable_from_stream. intros H.
  bind_as H origin s1 Htell. bind_as H magic s2 Hmagic.
  bind_as H u s3 Hcheck. bind_as H reserved1 s4 Hr1.
  bind_as H entry_count s5 Hcount. bind_as H reserved2 s6 Hr2.
  bind_as H entries s7 Hentries. bind_as H ms s8 Hload.
  unfold pret in H. injection H as <- _. cbn [mt_entries_raw].
  eapply load_meta_items_known; eauto.
Qed.

Module MetadataExamples.

(** A metadata table with one entry, the logical sector size, whose
    data follows the table at offset 64. *)
Definition one_item_table : bytes :=
  (METADATA_TABLE_MAGIC ++ Image.le_encode 2 0 ++ Image.le_encode 2 1
   ++ repeat x00 20
   ++ Image.blob METADATA_LOGICAL_SECTOR_SIZE ++ Image.le_encode 4 64
   ++ Image.le_encode 4 4 ++ Image.le_encode 4 0 ++ Image.le_encode 4 0
   ++ Image.le_encode 4 512)%list.

Definition one_item : MetadataTable :=
  {| mt_entries_raw :=
       [{| mte_item_id := Image.blob METADATA_LOGICAL_SECTOR_SIZE;
           mte_offset := 64; mte_length := 4 |}];
     mt_entries := [("LogicalSectorSize", MInt 512)] |}.

Lemma one_item_table_parsed :
  MetadataTable_from_stream false (initial one_item_table)
  = Ok (one_item, PState (Stream one_item_table 68) []).
Proof. vm_compute. reflexivity. Qed.

Lemma MetadataTable_items_known_witness :
  Forall (fun entry => known_item (mte_item_id entry)) (mt_entries_raw one_item).
Proof.
  apply (MetadataTable_items_known false (initial one_item_table) one_item
           (PState (Stream one_item_table 68) [])).
  exact one_item_table_parsed.
Defined.

(** The same table with the item id of no known item: the parse stops
    with [KeyError], in tolerant mode too. *)
Definition user_item_table : bytes :=
  (METADATA_TABLE_MAGIC ++ Image.le_encode 2 0 ++ Image.le_encode 2 1
   ++ repeat x00 20
   ++ repeat xaa 16 ++ Image.le_encode 4 64
   ++ Image.le_encode 4 4 ++ Image.le_encode 4 0 ++ Image.le_encode 4 0
   ++ Image.le_encode 4 512)%list.

Example user_item_is_a_KeyError :
  run user_item_table (MetadataTable_from_stream true) = Raise KeyError.
Proof. vm_compute. reflexivity. Qed.

End MetadataExamples.

(** ** The two kinds of BAT entries *)

(** X11. The BAT entry that a sector is looked up in is never the entry
    of a sector bitmap. With a positive chunk ratio, the index that
    [_get_bat_index_for_logical_sector] returns for payload block [b] of
    chunk [c] is [c * (ChunkRatio + 1) + b mod ChunkRatio]; the indices
    that [is_sector_allocated] reads sector bitmaps at are the
    [c' + (1 + c') * ChunkRatio], and the index of a payload block is
    none of them; the bitmap of its own chunk comes after it. *)
Theorem payload_index_is_no_bitmap_index v sector_number index :
  0 < _chunk_ratio v -> 0 < _block_size v -> 0 <= _logical_sector_size v ->
  _get_bat_index_for_logical_sector v sector_number = Ok index ->
  let block := sector_number * _logical_sector_size v / _block_size v in
  let chunk := block / _chunk_ratio v in
  index = chunk * (_chunk_ratio v + 1) + block mod _chunk_ratio v
  /\ index < chunk + (1 + chunk) * _chunk_ratio v
  /\ forall c, index <> c + (1 + c) * _chunk_ratio v.
Proof.
  intros Hcr Hbs Hlss H block chunk.
  unfold _get_bat_index_for_logical_sector in H.
  destruct (check_sector_number v sector_number) as [[]|] eqn:Hcheck;
    cbn [rbind] in H; [|discriminate].
  unfold py_floordiv in H.
  destruct (Z.eqb_spec (_block_size v) 0); [lia|]. cbn [rbind] in H.
  destruct (Z.eqb_spec (_chunk_ratio v) 0); [lia|]. cbn [rbind] in H.
  injection H as <-. fold block. fold chunk.
  pose proof (Z.div_mod block (_chunk_ratio v) ltac:(lia)) as Hdm.
  pose proof (Z.mod_pos_bound block (_chunk_ratio v) Hcr) as Hmod.
  fold chunk in Hdm.
  set (r := block mod _chunk_ratio v) in *.
  set (cr := _chunk_ratio v) in *.
  split; [lia|]. split; [nia|].
  intros c Heq.
  assert (Hd : (chunk - c) * (cr + 1) = cr - r) by nia.
  assert (chunk - c <= 0 \/ 1 <= chunk - c) as [Hneg|Hpos] by lia; nia.
Qed.

Lemma payload_index_is_no_bitmap_index_witness :
  let block := 2048 * _logical_sector_size Disks.fixed / _block_size Disks.fixed in
  let chunk := block / _chunk_ratio Disks.fixed in
  1 = chunk * (_chunk_ratio Disks.fixed + 1) + block mod _chunk_ratio Disks.fixed
  /\ 1 < chunk + (1 + chunk) * _chunk_ratio Disks.fixed
  /\ forall c, 1 <> c + (1 + c) * _chunk_ratio Disks.fixed.
Proof.
  apply (payload_index_is_no_bitmap_index Disks.fixed 2048 1);
    reflexivity || discriminate.
Defined.

(** ** The sector bitmap cache *)

Lemma dict_get_set_same {V} (d : list (Z * V)) k v :
  dict_get Z.eqb (dict_set Z.eqb d k v) k = Some v.
Proof.
  induction d as [|[k' v'] d IH]; cbn [dict_set dict_get].
  - now rewrite Z.eqb_refl.
  - destruct (Z.eqb k' k) eqn:E; cbn [dict_get]; rewrite E; [reflexivity | exact IH].
Qed.

(** The second time round, the bitmap comes from the cache. *)
Lemma load_sector_bitmap_again v chunk_index index r v' :
  load_sector_bitmap v chunk_index index = Ok (r, v') ->
  load_sector_bitmap v' chunk_index index = Ok (r, v').
Proof.
  intros H. pose proof H as H0. unfold load_sector_bitmap in H.
  destruct (dict_get Z.eqb (_sector_bitmap_cache v) chunk_index) eqn:Ecache.
  - injection H as <- <-. exact H0.
  - assert (Hput : v' = cache_put v chunk_index r).
    { destruct (on_file v _) as [en|]; cbn [rbind] in H; [|discriminate].
      destruct (_ =? BAT_SB_BLOCK_NOT_PRESENT); [now injection H as <- <-|].
      destruct (_ =? BAT_SB_BLOCK_PRESENT); [|discriminate].
      destruct (on_file v _) as [sb|]; cbn [rbind] in H; [|discriminate].
      now injection H as <- <-. }
    subst v'. unfold load_sector_bitmap at 1.
    cbn [cache_put _sector_bitmap_cache]. now rewrite dict_get_set_same.
Qed.

(** What a call of [is_sector_allocated] or [get_sector] may change of
    the object: the cache of sector bitmaps, and nothing else. *)
Definition same_but_cache (v v' : VhdxFile) : Prop :=
  _file v' = _file v /\ summary v' = summary v
  /\ _empty_block v' = _empty_block v /\ _empty_sector v' = _empty_sector v.

Lemma same_but_cache_refl v : same_but_cache v v.
Proof. repeat split. Qed.

Lemma cache_put_same v chunk_index bitmap :
  same_but_cache v (cache_put v chunk_index bitmap).
Proof. repeat split. Qed.

Lemma sector_bit_again v sector_number r v' :
  sector_bit v sector_number = (r, v') ->
  sector_bit v' sector_number = (r, v') /\ same_but_cache v v'.
Proof.
  intros H. pose proof H as H0. unfold sector_bit in H.
  destruct (py_floordiv (sector_number * _logical_sector_size v) (_block_size v))
    as [bat_index|e] eqn:E1; cbn [rbind] in H;
    [|injection H as <- <-; split; [exact H0 | apply same_but_cache_refl]].
  destruct (py_floordiv bat_index (_chunk_ratio v)) as [chunk_index|e] eqn:E2;
    cbn [rbind] in H;
    [|injection H as <- <-; split; [exact H0 | apply same_but_cache_refl]].
  destruct (load_sector_bitmap v chunk_index
              (chunk_index + (1 + chunk_index) * _chunk_ratio v))
    as [[o v1]|e] eqn:E3;
    [|injection H as <- <-; split; [exact H0 | apply same_but_cache_refl]].
  pose proof (load_sector_bitmap_again _ _ _ _ _ E3) as Hagain.
  assert (Hsame : same_but_cache v v1).
  { apply load_sector_bitmap_state in E3 as [->|[b ->]];
      [apply same_but_cache_refl | apply cache_put_same]. }
  assert (Hfields : _logical_sector_size v1 = _logical_sector_size v
                    /\ _block_size v1 = _block_size v
                    /\ _chunk_ratio v1 = _chunk_ratio v).
  { destruct Hsame as (_ & Hsum & _). unfold summary in Hsum.
    injection Hsum as _ _ _ _ -> _ -> ->. auto. }
  destruct Hfields as (Hl & Hb & Hc).
  assert (Hv : v1 = v') by (destruct o; now injection H as _ <-).
  subst v1. split; [|exact Hsame].
  rewrite <- H. unfold sector_bit. rewrite Hl, Hb, Hc, E1. cbn [rbind].
  rewrite E2. cbn [rbind]. rewrite Hagain. reflexivity.
Qed.

Lemma is_sector_allocated_again v sector_number r v' :
  is_sector_allocated v sector_number = (r, v') ->
  is_sector_allocated v' sector_number = (r, v') /\ same_but_cache v v'.
Proof.
  intros H. pose proof H as H0. unfold is_sector_allocated in H.
  destruct (check_sector_number v sector_number) as [[]|e] eqn:Hcheck;
    [|injection H as <- <-; split; [exact H0 | apply same_but_cache_refl]].
  destruct (is_differencing v) as [has_parent|e] eqn:Hdiff;
    [|injection H as <- <-; split; [exact H0 | apply same_but_cache_refl]].
  destruct (negb (truthy has_parent)) eqn:Htruthy;
    [injection H as <- <-; split; [exact H0 | apply same_but_cache_refl]|].
  apply sector_bit_again in H as [Hagain Hsame].
  split; [|exact Hsame].
  assert (Hmetas : _metas v' = _metas v).
  { destruct Hsame as (_ & Hsum & _). unfold summary in Hsum.
    now injection Hsum as _ _ _ -> _ _ _ _. }
  unfold is_sector_allocated, check_sector_number, sector_limit, is_differencing,
    metas in *.
  rewrite Hmetas, Hcheck, Hdiff, Htruthy. exact Hagain.
Qed.

(** X12. [is_sector_allocated] asked twice gives the same answer: the
    second call, on the object the first one left, returns what the
    first returned and leaves the object as it found it. The first call
    changes nothing of the object but the cache of sector bitmaps. *)
Theorem is_sector_allocated_idempotent v sector_number :
  is_sector_allocated (snd (is_sector_allocated v sector_number)) sector_number
  = is_sector_allocated v sector_number
  /\ same_but_cache v (snd (is_sector_allocated v sector_number)).
Proof.
  destruct (is_sector_allocated v sector_number) as [r v'] eqn:H.
  cbn [snd]. now apply is_sector_allocated_again.
Qed.

(** ** The sector that [get_sector] returns *)

Lemma clamp_index_within n x : 0 <= x <= n -> clamp_index n x = x.
Proof.
  intros H. unfold clamp_index.
  destruct (Z.ltb_spec x 0); [lia|]. cbv zeta.
  destruct (Z.ltb_spec x 0); [lia|].
  destruct (Z.ltb_spec n x); [lia | reflexivity].
Qed.

Lemma py_slice_within {A} (b : list A) i j :
  0 <= i <= j -> j <= Z.of_nat (length b) ->
  py_slice b i j = firstn (Z.to_nat (j - i)) (skipn (Z.to_nat i) b)
  /\ Z.of_nat (length (py_slice b i j)) = j - i.
Proof.
  intros Hij Hj. unfold py_slice. cbv zeta.
  rewrite !clamp_index_within by lia.
  split; [reflexivity|]. rewrite length_firstn, length_skipn. lia.
Qed.

Lemma skipn_repeat_Z {A} (x : A) m k :
  skipn m (repeat x k) = repeat x (k - m).
Proof.
  revert k. induction m as [|m IH]; intros k;
    [now rewrite Nat.sub_0_r|].
  destruct k as [|k]; [reflexivity|]. cbn [repeat skipn]. apply IH.
Qed.

Lemma firstn_repeat_le {A} (x : A) n k :
  (n <= k)%nat -> firstn n (repeat x k) = repeat x n.
Proof.
  revert k. induction n as [|n IH]; intros k Hk; [reflexivity|].
  destruct k as [|k]; [lia|]. cbn [repeat firstn]. f_equal. apply IH. lia.
Qed.

(** The sector of a block at an index. *)
Lemma firstn_skipn_block {A} (file : list A) off a n bs :
  (a + n <= bs)%nat ->
  firstn n (skipn a (firstn bs (skipn off file)))
  = firstn n (skipn (off + a) file).
Proof.
  intros H. rewrite skipn_firstn_comm, firstn_firstn, skipn_skipn.
  f_equal; [lia | f_equal; lia].
Qed.

(** The index of a sector in its block and the bounds of its slice. *)
Lemma sector_slice_bounds s lss bs :
  0 < lss <= bs ->
  bs / lss <> 0
  /\ 0 <= s mod (bs / lss) * lss
  /\ s mod (bs / lss) * lss <= (1 + s mod (bs / lss)) * lss
  /\ (1 + s mod (bs / lss)) * lss <= bs
  /\ (1 + s mod (bs / lss)) * lss - s mod (bs / lss) * lss = lss.
Proof.
  intros Hl.
  assert (Hq : 1 <= bs / lss) by (apply Z.div_le_lower_bound; lia).
  pose proof (Z.mod_pos_bound s (bs / lss) ltac:(lia)) as Hm.
  pose proof (Z.mul_div_le bs lss ltac:(lia)) as Hle.
  repeat split; nia.
Qed.

(** A block of full length always holds the sector: the "should never
    happen" [ValueError] of [get_sector] needs a short block. *)
Lemma sector_of_block_full v block sector_number :
  consistent v ->
  0 < logical_sector_size v <= block_size v ->
  blen block = block_size v ->
  sector_of_block v block sector_number
  = Ok (firstn (Z.to_nat (logical_sector_size v))
          (skipn (Z.to_nat (sector_number
                            mod (block_size v / logical_sector_size v)
                            * logical_sector_size v)) block)).
Proof.
  intros Hcons Hl Hlen.
  destruct Hcons as [_ _ _ (lss & Hget & Hint) _].
  unfold sector_of_block, py_floordiv, py_mod, metas_item, dict_item, metas.
  unfold logical_sector_size, block_size in *.
  destruct (sector_slice_bounds sector_number _ _ Hl)
    as (Hq & H0 & H1 & H2 & H3).
  destruct (Z.eqb_spec (_logical_sector_size v) 0); [lia|]. cbn [rbind].
  destruct (Z.eqb_spec (_block_size v / _logical_sector_size v) 0); [lia|].
  cbn [rbind]. rewrite Hget. cbn [rbind]. rewrite Hint. cbn [rbind].
  unfold blen in *.
  destruct (py_slice_within block _ _ (conj H0 H1) ltac:(lia)) as [Hs Hlen'].
  rewrite Hlen', H3, Z.eqb_refl. cbn [negb]. rewrite Hs, H3. reflexivity.
Qed.

Lemma get_block_empty v e :
  reads_empty e = true -> get_block v e = Ok (_empty_block v).
Proof.
  unfold reads_empty, get_block.
  destruct (state_value (be_state e) =? state_value BAT_PAYLOAD_BLOCK_ZERO);
    [reflexivity|].
  cbn [orb]. now intros ->.
Qed.

Lemma get_block_reads v e :
  consistent v -> 0 <= block_size v -> 0 <= be_offset e < 2 ^ 63 ->
  reads_empty e = false ->
  get_block v e
  = Ok (firstn (Z.to_nat (block_size v)) (skipn (Z.to_nat (be_offset e)) (_file v))).
Proof.
  intros Hcons Hbs Hoff. destruct Hcons as [_ _ (bs & Hget & Hint) _ _].
  unfold reads_empty, get_block.
  destruct (state_value (be_state e) =? state_value BAT_PAYLOAD_BLOCK_ZERO);
    [discriminate|].
  cbn [orb]. intros ->.
  unfold on_file, run, pbind, initial. rewrite (f_seek_ok _ _ _ _ Hoff).
  unfold plift, metas_item, dict_item, metas. rewrite Hget, Hint.
  unfold f_read, stream_read. cbn [s_pos s_data st_stream st_log].
  unfold block_size in *.
  destruct (Z.ltb_spec (_block_size v) 0); [lia | reflexivity].
Qed.

Lemma same_but_cache_consistent v v' :
  same_but_cache v v' -> consistent v -> consistent v'.
Proof.
  intros (Hf & Hsum & Heb & Hes) [H1 H2 H3 H4 H5].
  unfold summary in Hsum. injection Hsum as E1 E2 E3 E4 E5 E6 E7 E8.
  constructor; rewrite ?Heb, ?Hes, ?E4, ?E5, ?E7, ?E8; assumption.
Qed.

(** X13. What [get_sector] returns on an opened container, for a sector
    whose BAT entry and allocation are read without an exception. A
    sector that is not allocated, or whose block reads as empty, is
    [LogicalSectorSize] zero bytes. A sector that is allocated in a
    block the file holds in full is the [LogicalSectorSize] bytes of the
    file at the offset of the block plus the offset of the sector in the
    block; the "Couldn't get full sector" error is not raised then. *)
Theorem get_sector_outcome v sector_number e alloc v' :
  consistent v ->
  0 < logical_sector_size v <= block_size v ->
  get_bat_entry_for_logical_sector v sector_number = Ok e ->
  is_sector_allocated v sector_number = (Ok alloc, v') ->
  0 <= be_offset e < 2 ^ 63 ->
  let lss := logical_sector_size v in
  let sector_at :=
    be_offset e + sector_number mod (block_size v / lss) * lss in
  (alloc = false \/ reads_empty e = true ->
   get_sector v sector_number = (Ok (zeros lss), v'))
  /\ (alloc = true -> reads_empty e = false ->
      be_offset e + block_size v <= blen (_file v) ->
      get_sector v sector_number
      = (Ok (firstn (Z.to_nat lss) (skipn (Z.to_nat sector_at) (_file v))), v')).
Proof.
  intros Hcons Hl Hentry Halloc Hoff lss sector_at.
  assert (Hcheck : check_sector_number v sector_number = Ok tt).
  { unfold is_sector_allocated in Halloc.
    destruct (check_sector_number v sector_number) as [[]|]; [reflexivity|].
    discriminate. }
  destruct (is_sector_allocated_again _ _ _ _ Halloc) as [_ Hsame].
  pose proof (same_but_cache_consistent _ _ Hsame Hcons) as Hcons'.
  destruct Hsame as (Hfile & Hsum & Heb & Hes).
  unfold summary in Hsum. injection Hsum as _ _ _ _ Elss _ Ebs _.
  assert (Hl' : 0 < logical_sector_size v' <= block_size v').
  { unfold logical_sector_size, block_size in *. lia. }
  destruct (sector_slice_bounds sector_number _ _ Hl)
    as (Hq & H0 & H1 & H2 & H3).
  assert (Hzero : sector_of_block v' (_empty_block v') sector_number
                  = Ok (zeros lss)).
  { rewrite sector_of_block_full; [|exact Hcons'|exact Hl'|].
    - destruct Hcons' as [-> _ _ _ _].
      unfold logical_sector_size, block_size, zeros, lss in *.
      rewrite Elss, Ebs.
      set (m := sector_number mod (_block_size v / _logical_sector_size v)) in *.
      clearbody m.
      rewrite skipn_repeat_Z, firstn_repeat_le; [reflexivity|].
      lia.
    - destruct Hcons' as [-> _ _ _ _]. apply blen_zeros.
      unfold block_size in *. lia. }
  unfold get_sector. rewrite Hcheck, Hentry, Halloc. split.
  - intros [->|Hempty].
    + destruct Hcons as [_ Hsec _ _ _]. rewrite Hes, Hsec. reflexivity.
    + destruct alloc.
      * rewrite (get_block_empty _ _ Hempty). cbn [rbind]. now rewrite Hzero.
      * destruct Hcons as [_ Hsec _ _ _]. rewrite Hes, Hsec. reflexivity.
  - intros -> Hreads Hlen.
    rewrite (get_block_reads v' e Hcons'); [|unfold block_size in *; lia
                                            |exact Hoff|exact Hreads].
    cbn [rbind]. rewrite sector_of_block_full; [|exact Hcons'|exact Hl'|].
    + unfold sector_at, lss in *. unfold logical_sector_size, block_size in *.
      rewrite Hfile, Elss, Ebs. clear Hzero.
      set (m := sector_number mod (_block_size v / _logical_sector_size v)) in *.
      clearbody m.
      rewrite firstn_skipn_block by lia.
      replace (Z.to_nat (be_offset e) + Z.to_nat (m * _logical_sector_size v))%nat
        with (Z.to_nat (be_offset e + m * _logical_sector_size v)) by lia.
      reflexivity.
    + unfold blen, block_size in *. rewrite Hfile, Ebs.
      rewrite length_firstn, length_skipn. lia.
Qed.

(** On a container that is not differencing, every sector in range is
    allocated. *)
Lemma is_sector_allocated_fixed v sector_number has_parent :
  check_sector_number v sector_number = Ok tt ->
  is_differencing v = Ok has_parent -> truthy has_parent = false ->
  is_sector_allocated v sector_number = (Ok true, v).
Proof.
  intros Hc Hd Ht. unfold is_sector_allocated. now rewrite Hc, Hd, Ht.
Qed.

Module SectorExamples.

(** A disk of two sectors with blocks of 512 bytes. Its first MiB holds
    the structures and a BAT of one entry, in state 6 with the offset
    1 MiB; the block follows, 512 bytes. *)
Definition payload : bytes := repeat xab 512.

Definition small_block_disk : bytes :=
  Image.image (Image.good_header 1) (Image.good_header 2)
    (Image.items_of 512 1024 false) [0x100006]
    (repeat x00 (Z.to_nat 589816) ++ payload).

Definition small_block : VhdxFile :=
  {| _file := small_block_disk;
     _header := HeaderExamples.header_of 2 0;
     _region_table := Disks.standard_regions 8;
     _using_fallback_metas := false;
     _metas := [ ("BlockSize", MInt 512);
                 ("LeaveBlocksAllocated", MBool false);
                 ("HasParent", MBool false);
                 ("VirtualDiskSize", MInt 1024);
                 ("LogicalSectorSize", MInt 512);
                 ("PhysicalSectorSize", MInt 4096) ];
     _logical_sector_size := 512;
     _physical_sector_size := MInt 4096;
     _block_size := 512;
     _chunk_ratio := 8388608;
     _sector_bitmap_cache := [];
     _empty_block := zeros 512;
     _empty_sector := zeros 512 |}.

Lemma small_block_opened :
  VhdxFile_init small_block_disk false None = Ok (small_block, Disks.open_log).
Proof.
  apply VhdxFile_init_by_summary; [reflexivity ..|].
  vm_compute. split; reflexivity.
Qed.

Definition block_entry : BatEntry := mkBatEntry BAT_PAYLOAD_BLOCK_FULLY_PRESENT 1.

Lemma get_sector_outcome_witness :
  let lss := logical_sector_size small_block in
  let sector_at :=
    be_offset block_entry + 0 mod (block_size small_block / lss) * lss in
  (true = false \/ reads_empty block_entry = true ->
   get_sector small_block 0 = (Ok (zeros lss), small_block))
  /\ (true = true -> reads_empty block_entry = false ->
      be_offset block_entry + block_size small_block <= blen (_file small_block) ->
      get_sector small_block 0
      = (Ok (firstn (Z.to_nat lss)
               (skipn (Z.to_nat sector_at) (_file small_block))), small_block)).
Proof.
  apply (get_sector_outcome small_block 0 block_entry true small_block).
  - exact (VhdxFile_init_consistent _ _ _ _ _ small_block_opened).
  - split; [reflexivity | discriminate].
  - vm_compute. reflexivity.
  - apply (is_sector_allocated_fixed small_block 0 (MBool false)); reflexivity.
  - split; [discriminate | reflexivity].
Defined.

(** The sector read is the block that follows the first MiB. *)
Example first_sector_is_the_payload :
  fst (get_sector small_block 0) = Ok payload.
Proof. vm_compute. reflexivity. Qed.

End SectorExamples.

(** X14. On an opened container with a non-negative logical sector
    size, whatever [get_sector] returns has exactly [LogicalSectorSize]
    bytes: a block that is cut short by the end of the file makes the
    call raise, never return a short sector. *)
Theorem get_sector_length v sector_number sector_data :
  consistent v ->
  0 <= logical_sector_size v ->
  fst (get_sector v sector_number) = Ok sector_data ->
  blen sector_data = logical_sector_size v.
Proof.
  intros Hcons Hl. unfold get_sector.
  destruct (check_sector_number v sector_number); [|discriminate].
  destruct (get_bat_entry_for_logical_sector v sector_number) as [e|];
    [|discriminate].
  destruct (is_sector_allocated v sector_number) as [r v'] eqn:Halloc.
  destruct (is_sector_allocated_again _ _ _ _ Halloc) as [_ Hsame].
  pose proof (same_but_cache_consistent _ _ Hsame Hcons) as Hcons'.
  destruct Hsame as (_ & Hsum & _ & _).
  unfold summary in Hsum. injection Hsum as _ _ _ _ Elss _ _ _.
  unfold logical_sector_size in *. rewrite <- Elss in *.
  destruct Hcons' as [_ Hes _ (lss & Hget & Hint) _].
  destruct r as [[|]|]; cbn [fst]; [| |discriminate].
  - destruct (get_block v' e) as [block|]; cbn [rbind]; [|discriminate].
    unfold sector_of_block, metas_item, dict_item, metas.
    destruct (py_floordiv _ _); cbn [rbind]; [|discriminate].
    destruct (py_mod _ _) as [i|]; cbn [rbind]; [|discriminate].
    rewrite Hget. cbn [rbind]. rewrite Hint. cbn [rbind].
    destruct (Z.eqb_spec (blen (py_slice block (i * _logical_sector_size v')
                                  ((1 + i) * _logical_sector_size v')))
                (_logical_sector_size v')) as [Heq|]; cbn [negb];
      [|discriminate].
    intros H. injection H as <-. exact Heq.
  - intros H. injection H as <-. rewrite Hes. now apply blen_zeros.
Qed.

Lemma get_sector_length_witness :
  blen SectorExamples.payload = logical_sector_size SectorExamples.small_block.
Proof.
  apply (get_sector_length SectorExamples.small_block 0 SectorExamples.payload).
  - exact (VhdxFile_init_consistent _ _ _ _ _ SectorExamples.small_block_opened).
  - discriminate.
  - exact SectorExamples.first_sector_is_the_payload.
Defined.

(** ** When the fallback metadata is used *)

Lemma infer_virtual_disk_size_bound region_table fallback inferred_size :
  infer_virtual_disk_size region_table fallback = Ok inferred_size ->
  inferred_size <= MAX_INFERRED_SIZE.
Proof.
  unfold infer_virtual_disk_size. intros H.
  repeat (apply rbind_ok in H; destruct H as (? & _ & H)).
  match type of H with
  | (if ?a <? ?b then _ else _) = _ =>
      destruct (Z.ltb_spec a b) as [|Hle]; [discriminate|]
  end.
  injection H as <-. exact Hle.
Qed.

(** What [load_metas] has done when it flags the fallback as used. *)
Lemma load_metas_flagged ignore_faults fallback_metas region_table st m st' :
  load_metas ignore_faults fallback_metas region_table st = Ok ((m, true), st') ->
  exists fallback,
    fallback_metas = Some fallback
    /\ metas_truthy fallback = true
    /\ region_present region_table REGION_GUID_METADATA = Ok true
    /\ match metas_get fallback "VirtualDiskSize" with
       | Some _ => m = fallback
       | None =>
           exists inferred_size,
             infer_virtual_disk_size region_table fallback = Ok inferred_size
             /\ inferred_size <= MAX_INFERRED_SIZE
             /\ m = metas_set fallback "VirtualDiskSize" (MInt inferred_size)
       end.
Proof.
  unfold load_metas. intros H.
  bind_as H meta_guid s1 Hguid. apply plift_ok in Hguid as [Hguid ->].
  bind_as H metas0 s2 Hm.
  destruct fallback_metas as [fb|];
    [|unfold pret in H; injection H as _ Hf _; discriminate].
  destruct (metas_truthy metas0) eqn:Et0; cbn [negb andb] in H;
    [unfold pret in H; injection H as _ Hf _; discriminate|].
  destruct (metas_truthy fb) eqn:Etfb;
    [|unfold pret in H; injection H as _ Hf _; discriminate].
  exists fb. split; [reflexivity|]. split; [exact Etfb|]. split.
  - unfold region_present. rewrite Hguid. cbn [rbind]. unfold dict_contains.
    destruct (bdict_get region_table meta_guid); [reflexivity|].
    destruct ignore_faults; cbn [andb] in Hm; [|discriminate].
    bind_as Hm u s3 Hlog. unfold pret in Hm. injection Hm as <- _. congruence.
  - bind_as H u s3 Hlog.
    destruct (metas_get fb "VirtualDiskSize") as [vds|] eqn:Evds.
    + unfold pret in H. now injection H as <- _.
    + bind_as H u1 s4 Hlog1. bind_as H inferred_size s5 Hinfer.
      apply plift_ok in Hinfer as [Hinfer ->].
      bind_as H u2 s6 Hlog2. unfold pret in H. injection H as <- _.
      exists inferred_size. split; [exact Hinfer|]. split; [|reflexivity].
      eapply infer_virtual_disk_size_bound; eauto.
Qed.

(** X15. When [used_fallback_metas] is true on an opened container, in
    strict or in tolerant mode, a non-empty fallback mapping was given,
    the file does have a metadata region, whose table came out empty,
    and the metadata of the container is the fallback mapping with a
    [VirtualDiskSize]: its own if it has one, and otherwise the size
    inferred from the BAT, which is at most [MAX_INFERRED_SIZE]. *)
Theorem used_fallback_metas_means file ignore_faults fallback_metas v l :
  VhdxFile_init file ignore_faults fallback_metas = Ok (v, l) ->
  used_fallback_metas v = true ->
  exists fallback,
    fallback_metas = Some fallback
    /\ metas_truthy fallback = true
    /\ region_present (region_table v) REGION_GUID_METADATA = Ok true
    /\ match metas_get fallback "VirtualDiskSize" with
       | Some _ => metas v = fallback
       | None =>
           exists inferred_size,
             infer_virtual_disk_size (region_table v) fallback = Ok inferred_size
             /\ inferred_size <= MAX_INFERRED_SIZE
             /\ metas v = metas_set fallback "VirtualDiskSize" (MInt inferred_size)
       end.
Proof.
  intros Hopen Hused.
  apply VhdxFile_init_phases in Hopen
    as (cur & s1 & rt & s2 & [m flag] & s3 & s4 & _ & _ & Hload & Hcfg).
  apply configure_fields in Hcfg as (_ & _ & Hrt & Hm & Hu & _).
  cbn [fst snd] in *. unfold used_fallback_metas in Hused.
  rewrite Hu in Hused. subst flag.
  unfold region_table, metas. rewrite Hrt, Hm.
  rewrite Hused in Hload.
  exact (load_metas_flagged _ _ _ _ _ _ Hload).
Qed.

(** X16. A file whose headers and region tables parse and whose region
    table names no metadata region is refused with the "No metadata
    block defined" [VhdxHeaderError] in strict mode, and in tolerant
    mode too when no fallback mapping, or an empty one, is given. *)
Theorem no_metadata_block file ignore_faults fallback_metas region_table :
  run file (read_headers ignore_faults ;;; read_region_tables) = Ok region_table ->
  region_present region_table REGION_GUID_METADATA = Ok false ->
  ignore_faults && option_metas_truthy fallback_metas = false ->
  VhdxFile_init file ignore_faults fallback_metas
  = Raise (VhdxHeaderError NoMetadataBlock).
Proof.
  intros Hrun Habsent Hmode.
  apply run_ok in Hrun as [st2 Hrun].
  bind_as Hrun cur st1 Hh.
  unfold VhdxFile_init, with_file, VhdxFile_init_parser.
  rewrite (pbind_step _ _ _ _ _ Hh), (pbind_step _ _ _ _ _ Hrun).
  unfold region_present in Habsent. rewrite guid_to_blob_metadata in Habsent.
  cbn [rbind] in Habsent. injection Habsent as Hc. unfold dict_contains in Hc.
  unfold pbind at 1. unfold load_metas, pbind at 1, plift.
  rewrite guid_to_blob_metadata.
  destruct (bdict_get region_table (Image.blob REGION_GUID_METADATA));
    [discriminate|].
  unfold pbind at 1.
  destruct fallback_metas as [fb|]; [|reflexivity].
  unfold option_metas_truthy in Hmode. rewrite Hmode. reflexivity.
Qed.

Lemma no_metadata_block_witness :
  VhdxFile_init FallbackExamples.no_metadata_disk false
    (Some FallbackExamples.fallback)
  = Raise (VhdxHeaderError NoMetadataBlock).
Proof.
  apply (no_metadata_block FallbackExamples.no_metadata_disk false
           (Some FallbackExamples.fallback)
           (_region_table FallbackExamples.no_metadata)).
  - vm_compute. reflexivity.
  - vm_compute. reflexivity.
  - reflexivity.
Defined.

Module FallbackUsedExamples.

(** The container that a strict open of the disk with an empty metadata
    table gives when a fallback mapping is supplied. *)
Definition inferred : VhdxFile :=
  assemble FallbackExamples.empty_metadata_disk
    (HeaderExamples.header_of 2 0, Disks.standard_regions 64, true,
     metas_set FallbackExamples.fallback "VirtualDiskSize" (MInt 8388608),
     512, MInt 4096, 1048576, 4096).

Definition inferred_log : list string :=
  ["Reading file header section"; "Reading header"; "Reading header";
   "The first header is current."; "Reading region table";
   "Reading region table entries"; "Reading region table";
   "Reading region table entries"; "Metadata region at offset";
   "WARNING: Couldn't get metadata, falling back to provided metadata";
   "WARNING: Inferring VirtualDiskSize from BAT size";
   "VirtualDiskSize inferred size";
   "Chunk Ratio = (2**23 * LogicalSectorSize) / BlockSize"; "Chunk Ratio"].

Lemma inferred_opened :
  VhdxFile_init FallbackExamples.empty_metadata_disk false
    (Some FallbackExamples.fallback)
  = Ok (inferred, inferred_log).
Proof.
  apply VhdxFile_init_by_core. vm_compute. reflexivity.
Qed.

Lemma used_fallback_metas_means_witness :
  exists fallback,
    Some FallbackExamples.fallback = Some fallback
    /\ metas_truthy fallback = true
    /\ region_present (region_table inferred) REGION_GUID_METADATA = Ok true
    /\ match metas_get fallback "VirtualDiskSize" with
       | Some _ => metas inferred = fallback
       | None =>
           exists inferred_size,
             infer_virtual_disk_size (region_table inferred) fallback
             = Ok inferred_size
             /\ inferred_size <= MAX_INFERRED_SIZE
             /\ metas inferred
                = metas_set fallback "VirtualDiskSize" (MInt inferred_size)
       end.
Proof.
  apply (used_fallback_metas_means FallbackExamples.empty_metadata_disk false
           (Some FallbackExamples.fallback) inferred inferred_log).
  - exact inferred_opened.
  - reflexivity.
Defined.

End FallbackUsedExamples.

(** ** Which raw entries the iteration yields *)


Section Iteration.
Variables (d : bytes) (base : Z) (l : list string) (chunk_ratio : Z).
Hypothesis Hratio : 0 <= chunk_ratio.






End Iteration.



(** * The chain reader of [vhdx_dump_chain.py]

    The part of [main] that follows the opening of the files: the count
    of sectors, taken from the first disk of the chain, and for each
    sector the scan of the chain from its last disk down for a disk in
    which the sector is allocated, whose [get_sector] is written out. *)

(** What ends the dump early: the [ValueError] of the reader itself, or
    an exception of the module. *)
Inductive ChainFault : Type :=
| NoDiskAllocated (sector_number : Z)
| Raised (e : exn).

(** [virtual_disks[0].virtual_disk_size // virtual_disks[0].logical_sector_size] *)
Definition sector_count (v : VhdxFile) : result Z :=
  let? vds := virtual_disk_size v in
  let? vds := as_int vds in
  py_floordiv vds (logical_sector_size v).

(** The loop [for i in range(len(virtual_disks) - 1, -1, -1)] over the
    disks in the order it visits them, the last disk of the chain first:
    the disks above the one found, as the calls left them, the disk
    found, and the disks below it, which were not looked at. *)
Fixpoint scan_allocated (top_first : list VhdxFile) (sector_number : Z)
    : result (option (list VhdxFile * VhdxFile * list VhdxFile)) :=
  match top_first with
  | [] => Ok None
  | v :: rest =>
      match is_sector_allocated v sector_number with
      | (Raise e, _) => Raise e
      | (Ok true, v') => Ok (Some ([], v', rest))
      | (Ok false, v') =>
          let? found := scan_allocated rest sector_number in
          Ok (match found with
              | Some (above, allocated_vhdx, below) =>
                  Some (v' :: above, allocated_vhdx, below)
              | None => None
              end)
      end
  end.

(** One round of the loop over the sectors: the sector written and the
    disks after the round. *)
Definition dump_sector (top_first : list VhdxFile) (sector_number : Z)
    : ChainFault + bytes * list VhdxFile :=
  match scan_allocated top_first sector_number with
  | Raise e => inl (Raised e)
  | Ok None => inl (NoDiskAllocated sector_number)
  | Ok (Some (above, allocated_vhdx, below)) =>
      match get_sector allocated_vhdx sector_number with
      | (Raise e, _) => inl (Raised e)
      | (Ok sector, v') => inr (sector, (above ++ v' :: below)%list)
      end
  end.

(** [n] rounds from [sector_number] on: what is written, and what ended
    the dump early. *)
Fixpoint dump_sectors (n : nat) (sector_number : Z) (top_first : list VhdxFile)
    : list bytes * option ChainFault :=
  match n with
  | O => ([], None)
  | S n' =>
      match dump_sector top_first sector_number with
      | inl fault => ([], Some fault)
      | inr (sector, top_first') =>
          let '(out, fault) := dump_sectors n' (sector_number + 1) top_first' in
          (sector :: out, fault)
      end
  end.

(** Lines 52 to 64 of [main]. An empty chain gets as far as
    [virtual_disks[0]]. *)
Definition dump_chain (virtual_disks : list VhdxFile)
    : list bytes * option ChainFault :=
  match virtual_disks with
  | [] => ([], Some (Raised IndexError))
  | base :: _ =>
      match sector_count base with
      | Raise e => ([], Some (Raised e))
      | Ok n => dump_sectors (Z.to_nat n) 0 (rev virtual_disks)
      end
  end.

(** ** Properties of the chain reader *)

Lemma scan_allocated_upper upper v v' lower sector_number :
  Forall (fun u => fst (is_sector_allocated u sector_number) = Ok false) upper ->
  is_sector_allocated v sector_number = (Ok true, v') ->
  scan_allocated (upper ++ v :: lower) sector_number
  = Ok (Some (map (fun u => snd (is_sector_allocated u sector_number)) upper,
              v', lower)).
Proof.
  intros Hupper Hv. induction Hupper as [|u upper Hu _ IH]; cbn [app scan_allocated map].
  - now rewrite Hv.
  - destruct (is_sector_allocated u sector_number) as [r u'].
    cbn [fst snd] in *. subst r. rewrite IH. reflexivity.
Qed.

(** X18. The disk that serves a sector of a chain is the topmost one in
    which the sector is allocated: when the disks above a disk all
    answer that the sector is not allocated and the disk answers that it
    is, the sector written is what [get_sector] returns on that disk, as
    the query left it; the disks below are not looked at. *)
Theorem chain_serves_topmost_allocated upper v v' lower sector_number :
  Forall (fun u => fst (is_sector_allocated u sector_number) = Ok false) upper ->
  is_sector_allocated v sector_number = (Ok true, v') ->
  (forall sector,
     fst (get_sector v' sector_number) = Ok sector ->
     dump_sector (upper ++ v :: lower) sector_number
     = inr (sector,
            (map (fun u => snd (is_sector_allocated u sector_number)) upper
             ++ snd (get_sector v' sector_number) :: lower)%list))
  /\ (forall e,
        fst (get_sector v' sector_number) = Raise e ->
        dump_sector (upper ++ v :: lower) sector_number = inl (Raised e)).
Proof.
  intros Hupper Hv. unfold dump_sector.
  rewrite (scan_allocated_upper _ _ _ _ _ Hupper Hv).
  destruct (get_sector v' sector_number) as [r v'']. cbn [fst snd].
  split; intros x ->; reflexivity.
Qed.

(** Sector 0 is not allocated in the differencing disk of
    [DifferencingExamples]. *)
Lemma overlay_sector_0 :
  fst (is_sector_allocated DifferencingExamples.bad_payload 0) = Ok false.
Proof. vm_compute. reflexivity. Qed.

Lemma chain_serves_topmost_allocated_witness :
  dump_sector ([DifferencingExamples.bad_payload] ++ Disks.fixed :: []) 0
  = inr (zeros 512,
         (map (fun u => snd (is_sector_allocated u 0))
            [DifferencingExamples.bad_payload]
          ++ snd (get_sector Disks.fixed 0) :: [])%list).
Proof.
  apply (proj1 (chain_serves_topmost_allocated
                  [DifferencingExamples.bad_payload]
                  Disks.fixed Disks.fixed [] 0
                  (Forall_cons _ overlay_sector_0
                     (Forall_nil _))
                  (is_sector_allocated_fixed Disks.fixed 0 (MBool false)
                     eq_refl eq_refl eq_refl))).
  vm_compute. reflexivity.
Defined.

Lemma is_sector_allocated_metas v sector_number :
  _metas (snd (is_sector_allocated v sector_number)) = _metas v.
Proof.
  destruct (is_sector_allocated v sector_number) as [r v'] eqn:E.
  apply is_sector_allocated_again in E as [_ (_ & Hsum & _)].
  unfold summary in Hsum. cbn [snd]. now injection Hsum as _ _ _ -> _ _ _ _.
Qed.

Lemma get_sector_metas v sector_number :
  _metas (snd (get_sector v sector_number)) = _metas v.
Proof.
  unfold get_sector.
  destruct (check_sector_number v sector_number); [|reflexivity].
  destruct (get_bat_entry_for_logical_sector v sector_number); [|reflexivity].
  pose proof (is_sector_allocated_metas v sector_number) as H.
  destruct (is_sector_allocated v sector_number) as [[[|]|] v']; exact H.
Qed.

Lemma scan_allocated_metas top_first sector_number :
  forall above a below,
    scan_allocated top_first sector_number = Ok (Some (above, a, below)) ->
    map _metas (above ++ a :: below) = map _metas top_first.
Proof.
  induction top_first as [|v rest IH]; intros above a below H;
    cbn [scan_allocated] in H; [discriminate|].
  pose proof (is_sector_allocated_metas v sector_number) as Hm.
  destruct (is_sector_allocated v sector_number) as [[[|]|] v'];
    cbn [snd] in Hm; [| |discriminate].
  - injection H as <- <- <-. cbn [app map]. now rewrite Hm.
  - destruct (scan_allocated rest sector_number) as [[[[above' a'] below']|]|];
      cbn [rbind] in H; try discriminate.
    injection H as <- <- <-. cbn [app map]. rewrite Hm. f_equal. now apply IH.
Qed.

Lemma dump_sector_metas top_first sector_number sector top_first' :
  dump_sector top_first sector_number = inr (sector, top_first') ->
  map _metas top_first' = map _metas top_first.
Proof.
  unfold dump_sector.
  destruct (scan_allocated top_first sector_number)
    as [[[[above a] below]|]|] eqn:E; try discriminate.
  pose proof (get_sector_metas a sector_number) as Hm.
  destruct (get_sector a sector_number) as [[s|] v']; [|discriminate].
  intros H. injection H as _ <-. cbn [snd] in Hm.
  rewrite <- (scan_allocated_metas _ _ _ _ _ E), !map_app. cbn [map].
  now rewrite Hm.
Qed.

(** The guard and the test of [HasParent] look at the metadata only. *)
Lemma is_sector_allocated_by_metas v b sector_number has_parent :
  _metas v = _metas b ->
  check_sector_number b sector_number = Ok tt ->
  is_differencing b = Ok has_parent -> truthy has_parent = false ->
  is_sector_allocated v sector_number = (Ok true, v).
Proof.
  intros Hm Hc Hd Ht.
  apply (is_sector_allocated_fixed v sector_number has_parent); [| |exact Ht].
  - unfold check_sector_number, sector_limit, metas in *. now rewrite Hm.
  - unfold is_differencing, metas in *. now rewrite Hm.
Qed.

(** A scan that ends on a disk that is not differencing finds a disk. *)
Lemma scan_allocated_finds upper b sector_number has_parent :
  check_sector_number b sector_number = Ok tt ->
  is_differencing b = Ok has_parent -> truthy has_parent = false ->
  scan_allocated (upper ++ [b]) sector_number <> Ok None.
Proof.
  intros Hc Hd Ht. induction upper as [|u upper IH]; cbn [app scan_allocated].
  - rewrite (is_sector_allocated_fixed _ _ _ Hc Hd Ht). discriminate.
  - destruct (is_sector_allocated u sector_number) as [[[|]|] u'];
      [discriminate| |discriminate].
    destruct (scan_allocated (upper ++ [b]) sector_number)
      as [[[[above a] below]|]|]; cbn [rbind];
      [discriminate | contradiction | discriminate].
Qed.

Lemma sector_count_limit v n :
  consistent v -> sector_count v = Ok n -> sector_limit v = Ok n.
Proof.
  intros [_ _ _ (lss & Hget & Hint) _]. unfold sector_count, sector_limit.
  unfold virtual_disk_size, metas_item, dict_item, metas, logical_sector_size.
  destruct (metas_get (_metas v) "VirtualDiskSize") as [vds|]; cbn [rbind];
    [|discriminate].
  rewrite Hget. cbn [rbind].
  destruct (as_int vds); cbn [rbind]; [|discriminate].
  rewrite Hint. cbn [rbind]. auto.
Qed.

Lemma dump_sectors_finds limit has_parent base_metas n :
  forall sector_number top_first upper b,
    top_first = (upper ++ [b])%list ->
    _metas b = base_metas ->
    (forall v, _metas v = base_metas -> sector_limit v = Ok limit) ->
    (forall v, _metas v = base_metas -> is_differencing v = Ok has_parent) ->
    truthy has_parent = false ->
    0 <= sector_number ->
    ((0 < n)%nat -> sector_number + Z.of_nat n <= limit + 1) ->
    forall s, snd (dump_sectors n sector_number top_first)
              <> Some (NoDiskAllocated s).
Proof.
  induction n as [|n IH];
    intros sector_number top_first upper b -> Hb Hlimit Hdiff Ht Hs Hn s;
    cbn [dump_sectors]; [discriminate|].
  specialize (Hn ltac:(lia)).
  assert (Hcheck : check_sector_number b sector_number = Ok tt).
  { unfold check_sector_number. rewrite (Hlimit b Hb). cbn [rbind].
    destruct (Z.ltb_spec limit sector_number); [lia|].
    destruct (Z.ltb_spec sector_number 0); [lia | reflexivity]. }
  pose proof (scan_allocated_finds upper b sector_number has_parent Hcheck
                (Hdiff b Hb) Ht) as Hfound.
  destruct (dump_sector (upper ++ [b]) sector_number)
    as [fault|[sector top_first']] eqn:E.
  - cbn [snd]. unfold dump_sector in E.
    destruct (scan_allocated (upper ++ [b]) sector_number)
      as [[[[above a] below]|]|]; [|contradiction|].
    + destruct (get_sector a sector_number) as [[x|e] v']; [discriminate|].
      injection E as <-. discriminate.
    + injection E as <-. discriminate.
  - apply dump_sector_metas in E.
    rewrite map_app in E. cbn [map] in E.
    apply map_eq_app in E as (upper' & last' & -> & _ & Hlast).
    destruct last' as [|b' [|? ?]]; try discriminate.
    cbn [map] in Hlast. injection Hlast as Hb'.
    specialize (IH (sector_number + 1) (upper' ++ [b'])%list upper' b' eq_refl
                  ltac:(congruence) Hlimit Hdiff Ht ltac:(lia) ltac:(lia) s).
    destruct (dump_sectors n (sector_number + 1) (upper' ++ [b'])) as [out fault].
    exact IH.
Qed.

(** X19. The "No disk was allocated" error of the chain reader, marked
    as impossible in the source, is impossible indeed when the first
    disk of the chain is an opened container that is not differencing:
    whatever the other disks are, every sector below the sector count of
    the first disk finds a disk, that one at the latest. *)
Theorem chain_finds_a_disk base overlays has_parent :
  consistent base ->
  is_differencing base = Ok has_parent -> truthy has_parent = false ->
  forall s, snd (dump_chain (base :: overlays)) <> Some (NoDiskAllocated s).
Proof.
  intros Hcons Hdiff Ht s. unfold dump_chain.
  destruct (sector_count base) as [n|e] eqn:En; [|discriminate].
  pose proof (sector_count_limit _ _ Hcons En) as Hlimit.
  cbn [rev].
  apply (dump_sectors_finds n has_parent (_metas base) (Z.to_nat n) 0
           _ (rev overlays) base eq_refl eq_refl).
  - intros v Hv. unfold sector_limit, metas in *. now rewrite Hv.
  - intros v Hv. unfold is_differencing, metas in *. now rewrite Hv.
  - exact Ht.
  - lia.
  - lia.
Qed.

Lemma chain_finds_a_disk_witness :
  is_differencing Disks.fixed = Ok (MBool false)
  /\ snd (dump_chain (Disks.fixed :: [DifferencingExamples.bad_payload]))
     <> Some (NoDiskAllocated 0).
Proof.
  split; [reflexivity|].
  apply (chain_finds_a_disk Disks.fixed [DifferencingExamples.bad_payload]
           (MBool false)).
  - exact (VhdxFile_init_consistent _ _ _ _ _ Disks.fixed_opened).
  - reflexivity.
  - reflexivity.
Defined.

(** * The file filter of [vhdx_relationships.py] *)

(** [check_header]: the first bytes of the file against the magic of the
    format. *)
Definition check_header (file : bytes) : bool :=
  bytes_eqb (fst (stream_read (blen VHDX_MAGIC) (Stream file 0))) VHDX_MAGIC.

(** X20. The filter that the relationships tool runs over a directory
    keeps every file that [VhdxFile] opens in strict mode; a file that
    it keeps starts with the eight bytes of the magic. *)
Theorem check_header_keeps_strict_opens file :
  (forall fallback_metas v l,
     VhdxFile_init file false fallback_metas = Ok (v, l) ->
     check_header file = true)
  /\ (check_header file = true -> firstn 8 file = VHDX_MAGIC).
Proof.
  assert (Hread : fst (stream_read (blen VHDX_MAGIC) (Stream file 0))
                  = firstn 8 file) by reflexivity.
  unfold check_header. rewrite Hread. split.
  - intros fb v l Hopen.
    apply VhdxFile_init_phases in Hopen
      as (cur & s1 & rt & s2 & mu & s3 & s4 & Hh & _).
    apply read_headers_layout in Hh as (_ & _ & Hmagic & _).
    rewrite (Hmagic eq_refl). apply bytes_eqb_refl.
  - apply bytes_eqb_eq.
Qed.

Lemma check_header_keeps_strict_opens_witness :
  check_header Image.fixed_disk = true.
Proof.
  apply (proj1 (check_header_keeps_strict_opens Image.fixed_disk)
           None Disks.fixed Disks.open_log).
  exact Disks.fixed_opened.
Defined.

(** * The bits of a sector bitmap *)

Lemma testbit_low x r k :
  0 <= x < 256 -> 0 <= k < 8 -> Z.testbit (x + 256 * r) k = Z.testbit x k.
Proof.
  intros Hx Hk.
  rewrite <- (Z.mod_pow2_bits_low (x + 256 * r) 8 k) by lia.
  change (2 ^ 8) with 256.
  replace ((x + 256 * r) mod 256) with x; [reflexivity|].
  rewrite (Z.mul_comm 256 r), Z.mod_add by lia.
  symmetry. now apply Z.mod_small.
Qed.

Lemma testbit_high x r k :
  0 <= x < 256 -> 8 <= k -> Z.testbit (x + 256 * r) k = Z.testbit r (k - 8).
Proof.
  intros Hx Hk.
  replace k with (k - 8 + 8) at 1 by lia.
  rewrite <- (Z.div_pow2_bits (x + 256 * r) 8 (k - 8)) by lia.
  change (2 ^ 8) with 256.
  replace ((x + 256 * r) / 256) with r; [reflexivity|].
  rewrite (Z.mul_comm 256 r), Z.div_add by lia.
  rewrite (Z.div_small x 256) by lia. lia.
Qed.

(** Bit [k] of a buffer read as one little-endian number is bit
    [k mod 8] of its byte [k / 8]. *)
Lemma le_decode_testbit b :
  forall k x, 0 <= k -> nth_error b (Z.to_nat (k / 8)) = Some x ->
  Z.testbit (le_decode b) k = Z.testbit (byte_val x) (k mod 8).
Proof.
  induction b as [|y b IH]; intros k x Hk Hnth.
  - destruct (Z.to_nat (k / 8)); discriminate.
  - cbn [le_decode]. pose proof (byte_val_bound y) as Hy.
    destruct (Z.lt_ge_cases k 8) as [Hlt|Hge].
    + rewrite (Z.div_small k 8) in Hnth by lia. cbn in Hnth. injection Hnth as <-.
      rewrite (Z.mod_small k 8) by lia. apply testbit_low; lia.
    + rewrite testbit_high by lia.
      assert (Hd : k / 8 = (k - 8) / 8 + 1).
      { replace k with (k - 8 + 1 * 8) at 1 by lia.
        rewrite Z.div_add by lia. reflexivity. }
      assert (Hm : k mod 8 = (k - 8) mod 8).
      { replace k with (k - 8 + 1 * 8) at 1 by lia.
        rewrite Z.mod_add by lia. reflexivity. }
      rewrite Hm. apply IH; [lia|].
      rewrite Hd in Hnth.
      rewrite Z2Nat.inj_add in Hnth
        by (try apply Z.div_pos; lia).
      change (Z.to_nat 1) with 1%nat in Hnth.
      rewrite Nat.add_1_r in Hnth. exact Hnth.
Qed.

Lemma low_bit_test b n :
  0 <= n -> negb (Z.land (Z.shiftr b n) 1 =? 0) = Z.testbit b n.
Proof.
  intros Hn. change 1 with (Z.ones 1). rewrite Z.land_ones by lia.
  change (2 ^ 1) with 2. rewrite <- Z.bit0_mod, Z.shiftr_spec by lia.
  cbn [Z.add]. destruct (Z.testbit b n); reflexivity.
Qed.

(** X21. On a differencing container, once the sector bitmap of a chunk
    is in the cache, [is_sector_allocated] answers from it without a
    change to the object, and the answer for a sector is bit
    [sector_number mod 2^23] of the bitmap read as one little-endian
    number: bit [k mod 8] of byte [k / 8], the least significant bit
    first. No byte beyond the first MiB of the buffer is ever looked
    at. *)
Theorem is_sector_allocated_reads_bitmap_bit
    v sector_number has_parent sector_bitmap :
  check_sector_number v sector_number = Ok tt ->
  is_differencing v = Ok has_parent -> truthy has_parent = true ->
  _block_size v <> 0 -> _chunk_ratio v <> 0 ->
  dict_get Z.eqb (_sector_bitmap_cache v)
    (sector_number * _logical_sector_size v / _block_size v / _chunk_ratio v)
  = Some (Some sector_bitmap) ->
  sector_number mod 2 ^ 23 / 8 < blen sector_bitmap ->
  is_sector_allocated v sector_number
  = (Ok (Z.testbit (le_decode sector_bitmap) (sector_number mod 2 ^ 23)), v)
  /\ 0 <= sector_number mod 2 ^ 23 / 8 < 1048576.
Proof.
  intros Hcheck Hdiff Htruthy Hbs Hcr Hcache Hlen.
  pose proof (Z.mod_pos_bound sector_number (2 ^ 23) ltac:(lia)) as Hk.
  assert (Hbyte : 0 <= sector_number mod 2 ^ 23 / 8 < 1048576).
  { split; [apply Z.div_pos; lia|].
    apply Z.div_lt_upper_bound; [lia|].
    change (8 * 1048576) with (2 ^ 23). lia. }
  split; [|exact Hbyte].
  unfold is_sector_allocated. rewrite Hcheck, Hdiff, Htruthy. cbn [negb].
  unfold sector_bit, py_floordiv.
  destruct (Z.eqb_spec (_block_size v) 0); [contradiction|]. cbn [rbind].
  destruct (Z.eqb_spec (_chunk_ratio v) 0); [contradiction|]. cbn [rbind].
  unfold load_sector_bitmap. rewrite Hcache.
  change (Z.shiftl 1 23) with (2 ^ 23).
  unfold bytes_index.
  destruct (nth_error sector_bitmap (Z.to_nat (sector_number mod 2 ^ 23 / 8)))
    as [x|] eqn:Enth.
  - cbn [rbind]. do 2 f_equal.
    rewrite low_bit_test by (apply Z.mod_pos_bound; lia).
    symmetry. apply le_decode_testbit; [lia | exact Enth].
  - apply nth_error_None in Enth. unfold blen in Hlen. lia.
Qed.

Module BitmapBitExamples.

(** The differencing disk of [BitmapExamples] after a first query: the
    sector bitmap of chunk 0, all ones, is in the cache. *)
Definition cached_bitmap : bytes :=
  firstn (Z.to_nat SECTOR_BITMAP_READ)
    (skipn (Z.to_nat (be_offset BitmapExamples.bitmap_entry))
       (_file BitmapExamples.with_bitmap)).

Definition queried : VhdxFile :=
  cache_put BitmapExamples.with_bitmap 0 (Some cached_bitmap).

Lemma is_sector_allocated_reads_bitmap_bit_witness :
  is_sector_allocated queried 5
  = (Ok (Z.testbit (le_decode cached_bitmap) (5 mod 2 ^ 23)), queried)
  /\ 0 <= 5 mod 2 ^ 23 / 8 < 1048576.
Proof.
  apply (is_sector_allocated_reads_bitmap_bit queried 5 (MBool true)
           cached_bitmap).
  - reflexivity.
  - reflexivity.
  - reflexivity.
  - discriminate.
  - discriminate.
  - reflexivity.
  - unfold cached_bitmap.
    rewrite BitmapExamples.cached_sector_bitmap_is_8_MiB. reflexivity.
Defined.

End BitmapBitExamples.

(** * The sizes that a parsed metadata table gives *)

(** An integer item has the width it was read with: 64 bits for the
    size of the virtual disk, 32 bits for the others. *)
Definition item_ok (item : string * MetaValue) : Prop :=
  match snd item with
  | MInt z => 0 <= z < 2 ^ 64 /\ (fst item <> "VirtualDiskSize" -> z < 2 ^ 32)
  | _ => True
  end.

Lemma attempt_ok {A} (m : parser A) st r st' :
  attempt m st = Ok (r, st') ->
  match r with
  | Ok a => m st = Ok (a, st')
  | Raise _ => True
  end.
Proof.
  unfold attempt. destruct (m st) as [[a s]|e]; intros H; injection H as <- <-;
    [reflexivity | exact I].
Qed.

Lemma yield_one_ok key (m : parser MetaValue) st g st' :
  (forall s v s', m s = Ok (v, s') -> item_ok (key, v)) ->
  yield_one key m st = Ok (g, st') -> Forall item_ok (fst g).
Proof.
  intros Hm H. unfold yield_one in H. bind_as H r s1 Hr.
  apply attempt_ok in Hr. destruct r as [v|e]; unfold pret in H;
    injection H as <- _; cbn [fst]; [|constructor].
  constructor; [eapply Hm; eauto | constructor].
Qed.

Lemma with_bytes_inner {A} raw (m : parser A) st a st' :
  with_bytes raw m st = Ok (a, st') ->
  exists s s', m s = Ok (a, s').
Proof. intros H. apply with_bytes_ok in H as [_ [s1 H]]. eauto. Qed.

Lemma uint32_item key :
  key <> "VirtualDiskSize" ->
  forall s v s', (x <- read_uint32 ;; pret (MInt x)) s = Ok (v, s') ->
                 item_ok (key, v).
Proof.
  intros Hkey s v s' H. bind_as H x s1 Hx. apply read_uint32_ok in Hx as [Hx _].
  unfold pret in H. injection H as <- _. unfold item_ok. cbn [snd fst].
  split; [lia | intros _; lia].
Qed.

(** Whatever the six parsers yield is well formed. *)
Lemma metadata_parsers_ok :
  Forall (fun gp => forall data st g st',
            snd gp data st = Ok (g, st') -> Forall item_ok (fst g))
    metadata_parsers.
Proof.
  unfold metadata_parsers. repeat constructor; cbn [snd];
    intros data st g st' H.
  - unfold parse_file_parameters in H.
    apply with_bytes_inner in H as (s & s' & H).
    bind_as H r1 s1 Hr1. apply attempt_ok in Hr1.
    destruct r1 as [block_size|e];
      [|unfold pret in H; injection H as <- _; constructor].
    apply read_uint32_ok in Hr1 as [Hbs _].
    assert (Hitem : item_ok ("BlockSize", MInt block_size)).
    { unfold item_ok. cbn [snd fst]. split; [lia | intros _; lia]. }
    bind_as H r2 s2 Hr2.
    destruct r2 as [flags|e]; unfold pret in H; injection H as <- _;
      cbn [fst].
    + constructor; [exact Hitem|]. constructor; [exact I|].
      constructor; [exact I | constructor].
    + constructor; [exact Hitem | constructor].
  - unfold parse_virtual_disk_size in H.
    apply with_bytes_inner in H as (s & s' & H).
    eapply yield_one_ok; [|exact H].
    intros s0 v s0' Hv. bind_as Hv x s1 Hx.
    apply read_uint64_ok in Hx as [Hx _].
    unfold pret in Hv. injection Hv as <- _. unfold item_ok. cbn [snd fst].
    split; [exact Hx | intros Hne; now contradiction Hne].
  - unfold parse_page_83_data in H.
    apply with_bytes_inner in H as (s & s' & H).
    eapply yield_one_ok; [|exact H].
    intros s0 v s0' Hv. bind_as Hv x s1 Hx.
    unfold pret in Hv. injection Hv as <- _. exact I.
  - unfold parse_logical_sector_size in H.
    apply with_bytes_inner in H as (s & s' & H).
    eapply yield_one_ok; [|exact H]. apply uint32_item. discriminate.
  - unfold parse_physical_sector_size in H.
    apply with_bytes_inner in H as (s & s' & H).
    eapply yield_one_ok; [|exact H]. apply uint32_item. discriminate.
  - unfold parse_parent_locator in H.
    apply with_bytes_inner in H as (s & s' & H).
    eapply yield_one_ok; [|exact H].
    intros s0 v s0' Hv.
    bind_as Hv a1 t1 H1. bind_as Hv a2 t2 H2. bind_as Hv a3 t3 H3.
    bind_as Hv a4 t4 H4. bind_as Hv a5 t5 H5. bind_as Hv a6 t6 H6.
    bind_as Hv a7 t7 H7.
    unfold pret in Hv. injection Hv as <- _. exact I.
Qed.

Lemma build_dispatch_parsers l :
  forall d table,
    build_dispatch l d = Ok table ->
    forall p, In p (map snd table) -> In p (map snd d) \/ In p (map snd l).
Proof.
  induction l as [|[g q] l IH]; cbn [build_dispatch]; intros d table H p Hp.
  - injection H as <-. now left.
  - destruct (guid_to_blob g) as [blob|]; cbn [rbind] in H; [|discriminate].
    destruct (IH _ _ H p Hp) as [Hin|Hin]; [|right; now right].
    apply in_map_iff in Hin as ([k p'] & <- & Hin).
    apply bdict_set_in in Hin as [Hin|[-> ->]].
    + left. change p' with (snd (k, p')). now apply in_map.
    + right. now left.
Qed.

Lemma parse_metadata_entry_ok data item_id st g st' :
  parse_metadata_entry data item_id st = Ok (g, st') -> Forall item_ok (fst g).
Proof.
  unfold parse_metadata_entry.
  destruct (build_dispatch metadata_parsers []) as [table|e] eqn:Etable;
    [|unfold pret; intros H; injection H as <- _; constructor].
  destruct (bdict_get table item_id) as [p|] eqn:Eget;
    [|unfold pret; intros H; injection H as <- _; constructor].
  apply bdict_get_some_in in Eget.
  assert (Hp : In p (map snd table))
    by (change p with (snd (item_id, p)); now apply in_map).
  destruct (build_dispatch_parsers _ _ _ Etable p Hp) as [[]|Hin].
  apply in_map_iff in Hin as ([g0 p0] & <- & Hin).
  pose proof metadata_parsers_ok as Hall.
  rewrite Forall_forall in Hall. exact (Hall _ Hin data st g st').
Qed.

Lemma metas_set_ok (m : Metas) key value :
  Forall item_ok m -> item_ok (key, value) ->
  Forall item_ok (metas_set m key value).
Proof.
  intros Hm Hv. induction Hm as [|[k' v'] m Hk Hm' IH]; cbn [dict_set].
  - constructor; [exact Hv | constructor].
  - destruct (String.eqb k' key) eqn:E.
    + apply String.eqb_eq in E. subst k'. constructor; assumption.
    + constructor; assumption.
Qed.

Lemma add_meta_items_ok items :
  forall m m', add_meta_items items m = Ok m' ->
               Forall item_ok items -> Forall item_ok m -> Forall item_ok m'.
Proof.
  induction items as [|[k v] items IH]; intros m m' H Hitems Hm;
    cbn [add_meta_items] in H.
  - now injection H as <-.
  - destruct (metas_get m k); [discriminate|].
    inversion Hitems; subst.
    eapply IH; eauto. now apply metas_set_ok.
Qed.

Lemma load_meta_items_ok origin entries :
  forall m st m' st',
    load_meta_items origin entries m st = Ok (m', st') ->
    Forall item_ok m -> Forall item_ok m'.
Proof.
  induction entries as [|entry rest IH]; intros m st m' st' H Hm;
    cbn [load_meta_items] in H.
  - unfold pret in H. now injection H as <- _.
  - bind_as H u s1 Hseek. bind_as H data s2 Hdata. bind_as H g s3 Hparse.
    bind_as H m1 s4 Hadd. apply plift_ok in Hadd as [Hadd ->].
    destruct (snd g); [discriminate|].
    eapply IH; [exact H|].
    eapply add_meta_items_ok; eauto.
    eapply parse_metadata_entry_ok; eauto.
Qed.

Lemma MetadataTable_from_stream_ok ignore_faults st t st' :
  MetadataTable_from_stream ignore_faults st = Ok (t, st') ->
  Forall item_ok (mt_entries t).
Proof.
  unfold MetadataTable_from_stream. intros H.
  bind_as H origin s1 Htell. bind_as H magic s2 Hmagic.
  bind_as H u s3 Hcheck. bind_as H reserved1 s4 Hr1.
  bind_as H entry_count s5 Hcount. bind_as H reserved2 s6 Hr2.
  bind_as H entries s7 Hentries. bind_as H ms s8 Hload.
  unfold pret in H. injection H as <- _. cbn [mt_entries].
  eapply load_meta_items_ok; [exact Hload | constructor].
Qed.

(** Metadata that is not flagged as the fallback and comes with a
    metadata region is what the table of the region holds. *)
Lemma load_metas_parsed ignore_faults fallback_metas region_table st m st' :
  load_metas ignore_faults fallback_metas region_table st = Ok ((m, false), st') ->
  region_present region_table REGION_GUID_METADATA = Ok true ->
  Forall item_ok m.
Proof.
  unfold load_metas, region_present. intros H Hpresent.
  bind_as H meta_guid s1 Hguid. apply plift_ok in Hguid as [Hguid ->].
  rewrite Hguid in Hpresent. cbn [rbind] in Hpresent.
  injection Hpresent as Hpresent. unfold dict_contains in Hpresent.
  bind_as H metas0 s2 Hm.
  destruct (bdict_get region_table meta_guid) as [meta_info|]; [|discriminate].
  bind_as Hm u s3 Hlog. bind_as Hm u1 s4 Hseek. bind_as Hm t s5 Htable.
  unfold pret in Hm. injection Hm as <- _.
  apply MetadataTable_from_stream_ok in Htable.
  destruct fallback_metas as [fb|];
    [|unfold pret in H; now injection H as <- _].
  destruct (negb (metas_truthy (mt_entries t)) && metas_truthy fb).
  - bind_as H u2 s6 Hlog2.
    destruct (metas_get fb "VirtualDiskSize").
    + unfold pret in H. injection H as _ Hf _. discriminate.
    + bind_as H u3 s7 Hlog3. bind_as H sz s8 Hsz. bind_as H u4 s9 Hlog4.
      unfold pret in H. injection H as _ Hf _. discriminate.
  - unfold pret in H. now injection H as <- _.
Qed.

Lemma metas_get_in (m : Metas) key value :
  metas_get m key = Some value -> In (key, value) m.
Proof.
  induction m as [|[k' v'] m IH]; cbn [dict_get]; [discriminate|].
  destruct (String.eqb k' key) eqn:E.
  - apply String.eqb_eq in E. subst k'. intros H. injection H as ->. now left.
  - intros H. right. auto.
Qed.

Lemma as_int_item key value z :
  item_ok (key, value) -> as_int value = Ok z ->
  0 <= z < 2 ^ 64 /\ (key <> "VirtualDiskSize" -> z < 2 ^ 32).
Proof.
  unfold item_ok. cbn [snd fst].
  destruct value as [x|b| |]; cbn [as_int]; intros Hok H; try discriminate;
    injection H as <-; [exact Hok|].
  destruct b; split; try lia; intros _; lia.
Qed.

(** X22. A container whose metadata comes from the metadata table of
    the file, not from the fallback, has a block size between 1 and
    2^32 - 1, a logical sector size below 2^32 and a chunk ratio that is
    not negative: a block size of 0 in the file makes [__init__] fail on
    the division that computes the chunk ratio. *)
Theorem parsed_sizes file ignore_faults fallback_metas v l :
  VhdxFile_init file ignore_faults fallback_metas = Ok (v, l) ->
  region_present (region_table v) REGION_GUID_METADATA = Ok true ->
  used_fallback_metas v = false ->
  0 < block_size v < 2 ^ 32
  /\ 0 <= logical_sector_size v < 2 ^ 32
  /\ 0 <= _chunk_ratio v
  /\ _chunk_ratio v = 2 ^ 23 * logical_sector_size v / block_size v.
Proof.
  intros Hopen Hpresent Hused.
  pose proof (VhdxFile_init_consistent _ _ _ _ _ Hopen) as Hcons.
  apply VhdxFile_init_phases in Hopen
    as (cur & s1 & rt & s2 & [m flag] & s3 & s4 & _ & _ & Hload & Hcfg).
  apply configure_fields in Hcfg as (_ & _ & Hrt & Hm & Hu & _).
  cbn [fst snd] in *. unfold used_fallback_metas in Hused.
  rewrite Hu in Hused. subst flag.
  unfold region_table in Hpresent. rewrite Hrt in Hpresent.
  rewrite Hused in Hload.
  pose proof (load_metas_parsed _ _ _ _ _ _ Hload Hpresent) as Hok.
  rewrite Forall_forall in Hok.
  destruct Hcons as [_ _ (bs & Hbs & Hbsi) (lss & Hlss & Hlssi) Hcr].
  rewrite Hm in Hbs, Hlss.
  apply metas_get_in, Hok in Hbs. apply metas_get_in, Hok in Hlss.
  destruct (as_int_item _ _ _ Hbs Hbsi) as [Hb1 Hb2].
  destruct (as_int_item _ _ _ Hlss Hlssi) as [Hl1 Hl2].
  specialize (Hb2 ltac:(discriminate)). specialize (Hl2 ltac:(discriminate)).
  unfold py_floordiv in Hcr.
  destruct (Z.eqb_spec (_block_size v) 0) as [|Hne]; [discriminate|].
  assert (Hcr' : 2 ^ 23 * _logical_sector_size v / _block_size v
                 = _chunk_ratio v).
  { change (2 ^ 23) with (Z.shiftl 1 23). congruence. }
  unfold block_size, logical_sector_size.
  split; [lia|]. split; [lia|]. split; [|now symmetry].
  rewrite <- Hcr'.
  apply Z.div_pos; [apply Z.mul_nonneg_nonneg; [discriminate | lia] | lia].
Qed.

Lemma parsed_sizes_witness :
  0 < block_size Disks.fixed < 2 ^ 32
  /\ 0 <= logical_sector_size Disks.fixed < 2 ^ 32
  /\ 0 <= _chunk_ratio Disks.fixed
  /\ _chunk_ratio Disks.fixed
     = 2 ^ 23 * logical_sector_size Disks.fixed / block_size Disks.fixed.
Proof.
  apply (parsed_sizes Image.fixed_disk false None Disks.fixed Disks.open_log).
  - exact Disks.fixed_opened.
  - vm_compute. reflexivity.
  - reflexivity.
Defined.

(** * The options of [__init__] *)

(** The phases of [__init__] and its outcome, both ways. *)
Lemma VhdxFile_init_iff_phases file ignore_faults fallback_metas v l :
  VhdxFile_init file ignore_faults fallback_metas = Ok (v, l) <->
  exists current st1 region_table st2 mu st3 st4,
    read_headers ignore_faults (initial file) = Ok (current, st1)
    /\ read_region_tables st1 = Ok (region_table, st2)
    /\ load_metas ignore_faults fallback_metas region_table st2 = Ok (mu, st3)
    /\ configure file current region_table (fst mu) (snd mu) st3 = Ok (v, st4)
    /\ l = rev (st_log st4).
Proof.
  unfold VhdxFile_init, with_file, VhdxFile_init_parser. split.
  - intros H.
    destruct (pbind _ _ (initial file)) as [[v' st4]|e] eqn:E; [|discriminate].
    injection H as <- <-.
    bind_as E cur s1 H1. bind_as E rt s2 H2. bind_as E mu s3 H3.
    exists cur, s1, rt, s2, mu, s3, st4. auto.
  - intros (cur & s1 & rt & s2 & mu & s3 & s4 & H1 & H2 & H3 & H4 & ->).
    rewrite (pbind_step _ _ _ _ _ H1), (pbind_step _ _ _ _ _ H2),
      (pbind_step _ _ _ _ _ H3), H4. reflexivity.
Qed.

Lemma FileIdentifier_strict_tolerant st x st' :
  FileIdentifier_from_stream false st = Ok (x, st') ->
  FileIdentifier_from_stream true st = Ok (x, st').
Proof.
  unfold FileIdentifier_from_stream. intros H.
  bind_as H u s1 Hlog. bind_as H magic s2 Hmagic.
  rewrite (pbind_step _ _ _ _ _ Hlog), (pbind_step _ _ _ _ _ Hmagic).
  destruct (bytes_eqb magic VHDX_MAGIC); cbn [negb andb] in *;
    [exact H | discriminate].
Qed.

Lemma MetadataTable_strict_tolerant st t st' :
  MetadataTable_from_stream false st = Ok (t, st') ->
  MetadataTable_from_stream true st = Ok (t, st').
Proof.
  unfold MetadataTable_from_stream. intros H.
  bind_as H origin s1 Htell. bind_as H magic s2 Hmagic.
  rewrite (pbind_step _ _ _ _ _ Htell), (pbind_step _ _ _ _ _ Hmagic).
  destruct (bytes_eqb magic METADATA_TABLE_MAGIC); cbn [negb] in *;
    [exact H|].
  bind_as H u s3 Hraise. discriminate.
Qed.

Lemma load_metas_strict_tolerant fallback_metas region_table st mu st' :
  load_metas false fallback_metas region_table st = Ok (mu, st') ->
  load_metas true fallback_metas region_table st = Ok (mu, st').
Proof.
  unfold load_metas. intros H.
  bind_as H meta_guid s1 Hguid. rewrite (pbind_step _ _ _ _ _ Hguid).
  bind_as H metas0 s2 Hm.
  assert (Hm' :
    match bdict_get region_table meta_guid with
    | Some meta_info =>
        log "Metadata region at offset" ;;;
        f_seek (rte_offset meta_info) ;;;
        t <- MetadataTable_from_stream true ;;
        pret (mt_entries t)
    | None =>
        match fallback_metas with
        | Some fb =>
            if true && metas_truthy fb then
              log "WARNING: No metadata block defined, falling back to provided metadata" ;;;
              pret fb
            else praise (VhdxHeaderError NoMetadataBlock)
        | None => praise (VhdxHeaderError NoMetadataBlock)
        end
    end s1 = Ok (metas0, s2)).
  { destruct (bdict_get region_table meta_guid) as [meta_info|].
    - bind_as Hm u s3 Hlog. bind_as Hm u1 s4 Hseek. bind_as Hm t s5 Htable.
      apply MetadataTable_strict_tolerant in Htable.
      rewrite (pbind_step _ _ _ _ _ Hlog), (pbind_step _ _ _ _ _ Hseek),
        (pbind_step _ _ _ _ _ Htable). exact Hm.
    - destruct fallback_metas; discriminate. }
  rewrite (pbind_step _ _ _ _ _ Hm'). exact H.
Qed.

(** X23. Tolerant mode only adds to what opens: a file that opens in
    strict mode opens with [ignore_faults] set as well, to the same
    container and with the same messages logged. *)
Theorem strict_open_is_tolerant_open file fallback_metas v l :
  VhdxFile_init file false fallback_metas = Ok (v, l) ->
  VhdxFile_init file true fallback_metas = Ok (v, l).
Proof.
  intros H. apply VhdxFile_init_iff_phases in H
    as (cur & s1 & rt & s2 & mu & s3 & s4 & H1 & H2 & H3 & H4 & Hl).
  apply VhdxFile_init_iff_phases.
  exists cur, s1, rt, s2, mu, s3, s4.
  split; [|split; [exact H2|split; [|split; [exact H4 | exact Hl]]]].
  - unfold read_headers in *. bind_as H1 fi t1 Hfi.
    apply FileIdentifier_strict_tolerant in Hfi.
    rewrite (pbind_step _ _ _ _ _ Hfi). exact H1.
  - now apply load_metas_strict_tolerant.
Qed.

Lemma strict_open_is_tolerant_open_witness :
  VhdxFile_init Image.fixed_disk true None = Ok (Disks.fixed, Disks.open_log).
Proof.
  apply (strict_open_is_tolerant_open Image.fixed_disk None Disks.fixed
           Disks.open_log).
  exact Disks.fixed_opened.
Defined.

Lemma configure_metas_truthy file current region_table m flag st v st' :
  configure file current region_table m flag st = Ok (v, st') ->
  metas_truthy m = true.
Proof.
  intros H. apply configure_fields in H
    as (_ & _ & _ & _ & _ & _ & _ & _ & (bs & Hbs & _) & _).
  destruct m; [discriminate | reflexivity].
Qed.

(** X24. A fallback mapping does not touch a file that opens without
    one: when [__init__] succeeds with no fallback, it returns the same
    container and logs the same messages whatever fallback is given. *)
Theorem fallback_is_inert file ignore_faults fallback v l :
  VhdxFile_init file ignore_faults None = Ok (v, l) ->
  VhdxFile_init file ignore_faults (Some fallback) = Ok (v, l).
Proof.
  intros H. apply VhdxFile_init_iff_phases in H
    as (cur & s1 & rt & s2 & mu & s3 & s4 & H1 & H2 & H3 & H4 & Hl).
  apply VhdxFile_init_iff_phases.
  exists cur, s1, rt, s2, mu, s3, s4.
  split; [exact H1|]. split; [exact H2|].
  split; [|split; [exact H4 | exact Hl]].
  pose proof (configure_metas_truthy _ _ _ _ _ _ _ _ H4) as Htruthy.
  unfold load_metas in *.
  bind_as H3 meta_guid t1 Hguid. rewrite (pbind_step _ _ _ _ _ Hguid).
  bind_as H3 metas0 t2 Hm.
  unfold pret in H3. injection H3 as <- <-. cbn [fst] in Htruthy.
  assert (Hm' :
    match bdict_get rt meta_guid with
    | Some meta_info =>
        log "Metadata region at offset" ;;;
        f_seek (rte_offset meta_info) ;;;
        t <- MetadataTable_from_stream ignore_faults ;;
        pret (mt_entries t)
    | None =>
        if ignore_faults && metas_truthy fallback then
          log "WARNING: No metadata block defined, falling back to provided metadata" ;;;
          pret fallback
        else praise (VhdxHeaderError NoMetadataBlock)
    end t1 = Ok (metas0, t2)).
  { destruct (bdict_get rt meta_guid); [exact Hm | discriminate]. }
  rewrite (pbind_step _ _ _ _ _ Hm'). rewrite Htruthy. reflexivity.
Qed.

Lemma fallback_is_inert_witness :
  VhdxFile_init Image.fixed_disk false (Some FallbackExamples.fallback)
  = Ok (Disks.fixed, Disks.open_log).
Proof.
  apply (fallback_is_inert Image.fixed_disk false FallbackExamples.fallback
           Disks.fixed Disks.open_log).
  exact Disks.fixed_opened.
Defined.
